(** * smb235x charger driver: charge-control logic

    A shallow embedding of drivers/power/supply/qcom/smb235x-charger.c.
    Every driver function that takes [struct smb235x_chg_chip *chip]
    becomes a state-passing computation over a [machine]: the chip
    structure, the register bus behind [chip->regmap] and the two power
    supplies ("bms" and the tcpm source) the driver looks up by name.

    Conventions.
    - A C [int] is a [Z]; arithmetic that can leave the 32-bit range is
      wrapped with [wrap_int] (the kernel is built with wrapping signed
      arithmetic), [a // b] is C's truncating division, a [u8] local is
      stored through [to_u8].
    - A function returning [int rc] returns a [Z]: 0 on success and a
      negative errno on failure, tested with [rc <? 0] as in the source.
    - An out-parameter [union power_supply_propval *val] is threaded as
      an argument and returned next to [rc].
    - The constants of smb235x-charger.h and of linux/power_supply.h are
      not part of the translated file; they are the fields of the classes
      [smb235x_reg] and [power_supply_abi], and every statement holds for
      any values of them. *)

From Stdlib Require Import ZArith List Bool Lia.
Import ListNotations.
Open Scope Z_scope.

(** ** C integers *)

Notation "a // b" := (Z.quot a b) (at level 40, left associativity).

Definition wrap_int (z : Z) : Z := (z + 2 ^ 31) mod 2 ^ 32 - 2 ^ 31.
Definition to_u32 (z : Z) : Z := z mod 2 ^ 32.
Definition to_u8 (z : Z) : Z := z mod 2 ^ 8.

(** [if (x)] on an integer. *)
Definition truthy (z : Z) : bool := negb (z =? 0).

(** [!x] on an integer. *)
Definition lognot (z : Z) : Z := if z =? 0 then 1 else 0.

Definition INT_MIN : Z := - 2 ^ 31.
Definition INT_MAX : Z := 2 ^ 31 - 1.

(** ** Constants defined in smb235x-charger.c *)

Definition FLOAT_VOLTAGE_BASE_MV : Z := 7200.
Definition FLOAT_VOLTAGE_STEP_MV : Z := 20.
Definition CURRENT_STEP_MA : Z := 50.
Definition MICRO_TO_MILLI : Z := 1000.
Definition DELAY_WORK_TIME_MS : Z := 10000.

Definition CDP_CURRENT_UA : Z := 1500000.
Definition DCP_CURRENT_UA : Z := 1500000.
Definition HVDCP_CURRENT_UA : Z := 3000000.
Definition SDP_500_MA : Z := 500000.
Definition BASED_VOLTAGE_UV : Z := 5000000.
Definition QC3_DEFAULT_VOLTAGE_UV : Z := 9000000.
Definition QC3_VOLTAGE_STEPS_UV : Z := 200000.
Definition VOLTAGE_FORCE_5V_UV : Z := 5000000.
Definition VOLTAGE_FORCE_9V_UV : Z := 9000000.
Definition VOLTAGE_FORCE_12V_UV : Z := 12000000.

(** errno values (asm-generic/errno-base.h, errno.h). *)
Definition errno := positive.
Definition EIO : errno := 5%positive.
Definition EINVAL : errno := 22%positive.
Definition ENODATA : errno := 61%positive.

(** ** Constants of smb235x-charger.h

    The register map header is not among the translated sources, so the
    addresses, bit masks and charger-status codes are parameters. *)

Class smb235x_reg := {
  (* CHGR peripheral *)
  CHARGING_ENABLE_CMD_REG : Z;
  CHARGING_ENABLE_BIT : Z;
  CHGR_FAST_CHARGE_CURRENT_CFG_REG : Z;
  CHGR_MAX_FAST_CHARGE_CURRENT_CFG_REG : Z;
  CHGR_FLOAT_VOLTAGE_CFG_REG : Z;
  CHGR_TRICKLE_CHARGE_CURRENT_CFG_REG : Z;
  CHGR_PRE_CHARGE_CURRENT_CFG_REG : Z;
  CHGR_MAX_PRE_CHARGER_CURRENT_CFG_REG : Z;
  CHGR_STEP_CHG_SOC_VBATT_V_REG : Z;
  CHGR_STEP_CHG_SOC_VBATT_V_UPDATE_REG : Z;
  CHGR_STEP_SOC_VBATT_V_UPDATE_BIT : Z;
  BATTERY_CHARGER_STATUS_1_REG : Z;
  BATTERY_CHARGER_STATUS_MASK : Z;
  INHIBIT_CHARGE : Z;
  TRICKLE_CHARGE : Z;
  PRE_CHARGE : Z;
  FULLON_CHARGE : Z;
  TAPER_CHARGE : Z;
  TERMINATE_CHARGE : Z;
  PAUSE_CHARGE : Z;
  DISABLE_CHARGE : Z;
  (* DCDC peripheral *)
  DCDC_POWER_PATH_STATUS_REG : Z;
  USE_USBIN_BIT : Z;
  VALID_INPUT_POWER_SOURCE_STS_BIT : Z;
  DCDC_ICL_MAX_STATUS_REG : Z;
  (* USBIN peripheral *)
  USBIN_LOAD_CFG_REG : Z;
  ICL_OVERRIDE_AFTER_APSD_BIT : Z;
  USB_CMD_ICL_OVERRIDE_REG : Z;
  ICL_OVERRIDE_BIT : Z;
  USBIN_CURRENT_LIMIT_CFG_REG : Z;
  USB_CMD_APSD_REG : Z;
  USB_APSD_RERUN_BIT : Z;
  USB_HVDCP_PULSE_COUNT_MAX : Z;
  HVDCP_PULSE_COUNT_MAX_QC3P0_BIT : Z;
  USBIN_OPTIONS_1_CFG_REG : Z;
  USBIN_HVDCP_AUTH_ALG_EN_BIT : Z;
  USBIN_HVDCP_AUTONOMOUS_MODE_EN_BIT : Z;
  USBIN_APSD_ENABLE_BIT : Z;
  USBIN_HVDCP_EN_BIT : Z;
  USB_APSP_RESULT_STATUS_REG : Z;
  APSD_RESULT_STATUS_MASK : Z;
  FLOAT_CHARGER_BIT : Z;
  DCP_CHARGER_BIT : Z;
  OCP_CHARGER_BIT : Z;
  CDP_CHARGER_BIT : Z;
  SDP_CHARGER_BIT : Z;
  QC_3P0_BIT : Z;
  QC_2P0_BIT : Z;
  USB_CMD_HVDCP_2_REG : Z;
  SINGLE_INCREMENT_BIT : Z;
  SINGLE_DECREMENT_BIT : Z;
  FORCE_9V_BIT : Z;
  USB_QC_CHANGE_STATUS_REG : Z;
  QC_12V_BIT : Z;
  QC_9V_BIT : Z;
  QC_5V_BTI : Z;
  USB_INT_RT_STS_OFFSET_REG : Z;
  USBIN_PLUGIN_RT_STS_BIT : Z;
  USB_APSD_STATUS_REG : Z;
  APSD_DTC_STATUS_DONE_BIT : Z
}.

(** ** Enumerations of linux/power_supply.h *)

Class power_supply_abi := {
  (* enum power_supply_type *)
  POWER_SUPPLY_TYPE_UNKNOWN : Z;
  POWER_SUPPLY_TYPE_USB : Z;
  POWER_SUPPLY_TYPE_USB_DCP : Z;
  POWER_SUPPLY_TYPE_USB_CDP : Z;
  POWER_SUPPLY_TYPE_USB_HVDCP : Z;
  POWER_SUPPLY_TYPE_USB_HVDCP_3 : Z;
  POWER_SUPPLY_TYPE_USB_FLOAT : Z;
  (* enum power_supply_usb_type *)
  POWER_SUPPLY_USB_TYPE_UNKNOWN : Z;
  POWER_SUPPLY_USB_TYPE_SDP : Z;
  POWER_SUPPLY_USB_TYPE_DCP : Z;
  POWER_SUPPLY_USB_TYPE_CDP : Z;
  POWER_SUPPLY_USB_TYPE_C : Z;
  (* the POWER_SUPPLY_STATUS_ values *)
  POWER_SUPPLY_STATUS_UNKNOWN : Z;
  POWER_SUPPLY_STATUS_CHARGING : Z;
  POWER_SUPPLY_STATUS_DISCHARGING : Z;
  POWER_SUPPLY_STATUS_NOT_CHARGING : Z;
  POWER_SUPPLY_STATUS_FULL : Z
}.

(** enum power_supply_property, restricted to the properties the driver
    names; [POWER_SUPPLY_PROP_OTHER] stands for every other one. *)
Inductive power_supply_property : Type :=
  | POWER_SUPPLY_PROP_STATUS
  | POWER_SUPPLY_PROP_CHARGE_TYPE
  | POWER_SUPPLY_PROP_HEALTH
  | POWER_SUPPLY_PROP_PRESENT
  | POWER_SUPPLY_PROP_ONLINE
  | POWER_SUPPLY_PROP_VOLTAGE_MAX
  | POWER_SUPPLY_PROP_VOLTAGE_NOW
  | POWER_SUPPLY_PROP_CURRENT_MAX
  | POWER_SUPPLY_PROP_CURRENT_NOW
  | POWER_SUPPLY_PROP_CONSTANT_CHARGE_CURRENT_MAX
  | POWER_SUPPLY_PROP_CONSTANT_CHARGE_VOLTAGE_MAX
  | POWER_SUPPLY_PROP_CHARGE_TERM_CURRENT
  | POWER_SUPPLY_PROP_CAPACITY
  | POWER_SUPPLY_PROP_TEMP
  | POWER_SUPPLY_PROP_SDP_CURRENT_MAX
  | POWER_SUPPLY_PROP_USB_TYPE
  | POWER_SUPPLY_PROP_REAL_TYPE
  | POWER_SUPPLY_PROP_OTHER.

(** ** External collaborators *)

(** What a peer answers to [power_supply_get_property]: a value, or a
    negative errno. *)
Inductive propval : Type :=
  | Intval (v : Z)
  | Enoprop (e : errno).

(** [struct power_supply] of a peer driver, reduced to its getter. *)
Record power_supply : Type := {
  get_property : power_supply_property -> propval
}.

(** One call of the regmap API, as the driver issued it. *)
Inductive bus_op : Type :=
  | RegRead (addr : Z)
  | RegWrite (addr val : Z)
  | RegUpdateBits (addr mask val : Z).

(** The register bus: the register file, the outcome of the coming
    transfers ([None]: the transfer succeeds, [Some e]: it fails with
    [-e]; past the end of the list every transfer succeeds) and the calls
    issued so far, most recent first. *)
Record regmap : Type := {
  regs : Z -> Z;
  faults : list (option errno);
  log : list bus_op
}.

(** ** struct smb235x_chg_chip *)

Record smb235x_chg_chip : Type := {
  bms_psy : option power_supply;
  tcpm_psy : option power_supply;
  trickle_charge_current_ua : Z;
  max_pre_charge_current_ua : Z;
  pre_charge_current_ua : Z;
  termination_current_ua : Z;
  float_volt_uv : Z;
  fastchg_curr_ua : Z;
  max_fcc_ua : Z;
  sdp_icl_ua : Z;
  charger_type : Z;
  usb_type : Z;
  auto_recharge_soc : Z;
  hvdcp_pulse_count_max : Z;
  hvdcp3_voltage_uv : Z;
  based_hvdcp_voltage_uv : Z;
  pd_active : bool
}.

(** The driver instance with its surroundings.  [bms_supply] and
    [tcpm_supply] are what [power_supply_get_by_name] finds under "bms"
    and under [chip->tcpm_full_psy_name]. *)
Record machine : Type := {
  chip : smb235x_chg_chip;
  bus : regmap;
  bms_supply : option power_supply;
  tcpm_supply : option power_supply
}.

(** ** Field updates *)

Definition set_bms_psy (v : option power_supply) (c : smb235x_chg_chip) : smb235x_chg_chip :=
  {| bms_psy := v; tcpm_psy := tcpm_psy c;
     trickle_charge_current_ua := trickle_charge_current_ua c;
     max_pre_charge_current_ua := max_pre_charge_current_ua c;
     pre_charge_current_ua := pre_charge_current_ua c;
     termination_current_ua := termination_current_ua c;
     float_volt_uv := float_volt_uv c; fastchg_curr_ua := fastchg_curr_ua c;
     max_fcc_ua := max_fcc_ua c; sdp_icl_ua := sdp_icl_ua c;
     charger_type := charger_type c; usb_type := usb_type c;
     auto_recharge_soc := auto_recharge_soc c;
     hvdcp_pulse_count_max := hvdcp_pulse_count_max c;
     hvdcp3_voltage_uv := hvdcp3_voltage_uv c;
     based_hvdcp_voltage_uv := based_hvdcp_voltage_uv c;
     pd_active := pd_active c |}.

Definition set_tcpm_psy (v : option power_supply) (c : smb235x_chg_chip) : smb235x_chg_chip :=
  {| bms_psy := bms_psy c; tcpm_psy := v;
     trickle_charge_current_ua := trickle_charge_current_ua c;
     max_pre_charge_current_ua := max_pre_charge_current_ua c;
     pre_charge_current_ua := pre_charge_current_ua c;
     termination_current_ua := termination_current_ua c;
     float_volt_uv := float_volt_uv c; fastchg_curr_ua := fastchg_curr_ua c;
     max_fcc_ua := max_fcc_ua c; sdp_icl_ua := sdp_icl_ua c;
     charger_type := charger_type c; usb_type := usb_type c;
     auto_recharge_soc := auto_recharge_soc c;
     hvdcp_pulse_count_max := hvdcp_pulse_count_max c;
     hvdcp3_voltage_uv := hvdcp3_voltage_uv c;
     based_hvdcp_voltage_uv := based_hvdcp_voltage_uv c;
     pd_active := pd_active c |}.

Definition set_float_volt_uv (v : Z) (c : smb235x_chg_chip) : smb235x_chg_chip :=
  {| bms_psy := bms_psy c; tcpm_psy := tcpm_psy c;
     trickle_charge_current_ua := trickle_charge_current_ua c;
     max_pre_charge_current_ua := max_pre_charge_current_ua c;
     pre_charge_current_ua := pre_charge_current_ua c;
     termination_current_ua := termination_current_ua c;
     float_volt_uv := v; fastchg_curr_ua := fastchg_curr_ua c;
     max_fcc_ua := max_fcc_ua c; sdp_icl_ua := sdp_icl_ua c;
     charger_type := charger_type c; usb_type := usb_type c;
     auto_recharge_soc := auto_recharge_soc c;
     hvdcp_pulse_count_max := hvdcp_pulse_count_max c;
     hvdcp3_voltage_uv := hvdcp3_voltage_uv c;
     based_hvdcp_voltage_uv := based_hvdcp_voltage_uv c;
     pd_active := pd_active c |}.

Definition set_fastchg_curr_ua (v : Z) (c : smb235x_chg_chip) : smb235x_chg_chip :=
  {| bms_psy := bms_psy c; tcpm_psy := tcpm_psy c;
     trickle_charge_current_ua := trickle_charge_current_ua c;
     max_pre_charge_current_ua := max_pre_charge_current_ua c;
     pre_charge_current_ua := pre_charge_current_ua c;
     termination_current_ua := termination_current_ua c;
     float_volt_uv := float_volt_uv c; fastchg_curr_ua := v;
     max_fcc_ua := max_fcc_ua c; sdp_icl_ua := sdp_icl_ua c;
     charger_type := charger_type c; usb_type := usb_type c;
     auto_recharge_soc := auto_recharge_soc c;
     hvdcp_pulse_count_max := hvdcp_pulse_count_max c;
     hvdcp3_voltage_uv := hvdcp3_voltage_uv c;
     based_hvdcp_voltage_uv := based_hvdcp_voltage_uv c;
     pd_active := pd_active c |}.

Definition set_sdp_icl_ua (v : Z) (c : smb235x_chg_chip) : smb235x_chg_chip :=
  {| bms_psy := bms_psy c; tcpm_psy := tcpm_psy c;
     trickle_charge_current_ua := trickle_charge_current_ua c;
     max_pre_charge_current_ua := max_pre_charge_current_ua c;
     pre_charge_current_ua := pre_charge_current_ua c;
     termination_current_ua := termination_current_ua c;
     float_volt_uv := float_volt_uv c; fastchg_curr_ua := fastchg_curr_ua c;
     max_fcc_ua := max_fcc_ua c; sdp_icl_ua := v;
     charger_type := charger_type c; usb_type := usb_type c;
     auto_recharge_soc := auto_recharge_soc c;
     hvdcp_pulse_count_max := hvdcp_pulse_count_max c;
     hvdcp3_voltage_uv := hvdcp3_voltage_uv c;
     based_hvdcp_voltage_uv := based_hvdcp_voltage_uv c;
     pd_active := pd_active c |}.

(** [chip->charger_type = t; chip->usb_type = u;] *)
Definition set_types (t u : Z) (c : smb235x_chg_chip) : smb235x_chg_chip :=
  {| bms_psy := bms_psy c; tcpm_psy := tcpm_psy c;
     trickle_charge_current_ua := trickle_charge_current_ua c;
     max_pre_charge_current_ua := max_pre_charge_current_ua c;
     pre_charge_current_ua := pre_charge_current_ua c;
     termination_current_ua := termination_current_ua c;
     float_volt_uv := float_volt_uv c; fastchg_curr_ua := fastchg_curr_ua c;
     max_fcc_ua := max_fcc_ua c; sdp_icl_ua := sdp_icl_ua c;
     charger_type := t; usb_type := u;
     auto_recharge_soc := auto_recharge_soc c;
     hvdcp_pulse_count_max := hvdcp_pulse_count_max c;
     hvdcp3_voltage_uv := hvdcp3_voltage_uv c;
     based_hvdcp_voltage_uv := based_hvdcp_voltage_uv c;
     pd_active := pd_active c |}.

Definition set_hvdcp_pulse_count_max (v : Z) (c : smb235x_chg_chip) : smb235x_chg_chip :=
  {| bms_psy := bms_psy c; tcpm_psy := tcpm_psy c;
     trickle_charge_current_ua := trickle_charge_current_ua c;
     max_pre_charge_current_ua := max_pre_charge_current_ua c;
     pre_charge_current_ua := pre_charge_current_ua c;
     termination_current_ua := termination_current_ua c;
     float_volt_uv := float_volt_uv c; fastchg_curr_ua := fastchg_curr_ua c;
     max_fcc_ua := max_fcc_ua c; sdp_icl_ua := sdp_icl_ua c;
     charger_type := charger_type c; usb_type := usb_type c;
     auto_recharge_soc := auto_recharge_soc c;
     hvdcp_pulse_count_max := v;
     hvdcp3_voltage_uv := hvdcp3_voltage_uv c;
     based_hvdcp_voltage_uv := based_hvdcp_voltage_uv c;
     pd_active := pd_active c |}.

Definition set_hvdcp3_voltage_uv (v : Z) (c : smb235x_chg_chip) : smb235x_chg_chip :=
  {| bms_psy := bms_psy c; tcpm_psy := tcpm_psy c;
     trickle_charge_current_ua := trickle_charge_current_ua c;
     max_pre_charge_current_ua := max_pre_charge_current_ua c;
     pre_charge_current_ua := pre_charge_current_ua c;
     termination_current_ua := termination_current_ua c;
     float_volt_uv := float_volt_uv c; fastchg_curr_ua := fastchg_curr_ua c;
     max_fcc_ua := max_fcc_ua c; sdp_icl_ua := sdp_icl_ua c;
     charger_type := charger_type c; usb_type := usb_type c;
     auto_recharge_soc := auto_recharge_soc c;
     hvdcp_pulse_count_max := hvdcp_pulse_count_max c;
     hvdcp3_voltage_uv := v;
     based_hvdcp_voltage_uv := based_hvdcp_voltage_uv c;
     pd_active := pd_active c |}.

Definition set_based_hvdcp_voltage_uv (v : Z) (c : smb235x_chg_chip) : smb235x_chg_chip :=
  {| bms_psy := bms_psy c; tcpm_psy := tcpm_psy c;
     trickle_charge_current_ua := trickle_charge_current_ua c;
     max_pre_charge_current_ua := max_pre_charge_current_ua c;
     pre_charge_current_ua := pre_charge_current_ua c;
     termination_current_ua := termination_current_ua c;
     float_volt_uv := float_volt_uv c; fastchg_curr_ua := fastchg_curr_ua c;
     max_fcc_ua := max_fcc_ua c; sdp_icl_ua := sdp_icl_ua c;
     charger_type := charger_type c; usb_type := usb_type c;
     auto_recharge_soc := auto_recharge_soc c;
     hvdcp_pulse_count_max := hvdcp_pulse_count_max c;
     hvdcp3_voltage_uv := hvdcp3_voltage_uv c;
     based_hvdcp_voltage_uv := v;
     pd_active := pd_active c |}.

Definition set_pd_active (v : bool) (c : smb235x_chg_chip) : smb235x_chg_chip :=
  {| bms_psy := bms_psy c; tcpm_psy := tcpm_psy c;
     trickle_charge_current_ua := trickle_charge_current_ua c;
     max_pre_charge_current_ua := max_pre_charge_current_ua c;
     pre_charge_current_ua := pre_charge_current_ua c;
     termination_current_ua := termination_current_ua c;
     float_volt_uv := float_volt_uv c; fastchg_curr_ua := fastchg_curr_ua c;
     max_fcc_ua := max_fcc_ua c; sdp_icl_ua := sdp_icl_ua c;
     charger_type := charger_type c; usb_type := usb_type c;
     auto_recharge_soc := auto_recharge_soc c;
     hvdcp_pulse_count_max := hvdcp_pulse_count_max c;
     hvdcp3_voltage_uv := hvdcp3_voltage_uv c;
     based_hvdcp_voltage_uv := based_hvdcp_voltage_uv c;
     pd_active := v |}.

Definition with_chip (c : smb235x_chg_chip) (m : machine) : machine :=
  {| chip := c; bus := bus m;
     bms_supply := bms_supply m; tcpm_supply := tcpm_supply m |}.

Definition with_bus (b : regmap) (m : machine) : machine :=
  {| chip := chip m; bus := b;
     bms_supply := bms_supply m; tcpm_supply := tcpm_supply m |}.

(** ** Computations over the machine *)

Definition M (A : Type) : Type := machine -> A * machine.

Definition ret {A : Type} (a : A) : M A := fun m => (a, m).

Definition bind {A B : Type} (c : M A) (k : A -> M B) : M B :=
  fun m => let (a, m') := c m in k a m'.

Declare Scope drv_scope.
Delimit Scope drv_scope with drv.
Notation "x <- c ;; k" := (bind c (fun x => k))
  (at level 61, c at next level, right associativity) : drv_scope.
Notation "' pat <- c ;; k" := (bind c (fun x => match x with pat => k end))
  (at level 61, pat pattern, c at next level, right associativity) : drv_scope.
Notation "c ;; k" := (bind c (fun _ => k))
  (at level 61, right associativity) : drv_scope.
Open Scope drv_scope.

Definition get_chip : M smb235x_chg_chip := fun m => (chip m, m).

Definition update_chip (f : smb235x_chg_chip -> smb235x_chg_chip) : M unit :=
  fun m => (tt, with_chip (f (chip m)) m).

(** ** The regmap API *)

(** A transfer is logged and takes the next outcome of the bus. *)
Definition transfer (op : bus_op) (b : regmap) : option errno * regmap :=
  (hd None (faults b),
   {| regs := regs b; faults := tl (faults b); log := op :: log b |}).

Definition store (addr val : Z) (b : regmap) : regmap :=
  {| regs := fun a => if a =? addr then val else regs b a;
     faults := faults b; log := log b |}.

(** [rc = regmap_read(chip->regmap, addr, &stat)], returning [(rc, stat)].
    Every caller initialises [stat] to 0 or leaves on failure. *)
Definition regmap_read (addr : Z) : M (Z * Z) := fun m =>
  match transfer (RegRead addr) (bus m) with
  | (Some e, b) => ((Z.neg e, 0), with_bus b m)
  | (None, b) => ((0, to_u32 (regs b addr)), with_bus b m)
  end.

Definition regmap_write (addr val : Z) : M Z := fun m =>
  match transfer (RegWrite addr val) (bus m) with
  | (Some e, b) => (Z.neg e, with_bus b m)
  | (None, b) => (0, with_bus (store addr val b) m)
  end.

Definition regmap_update_bits (addr mask val : Z) : M Z := fun m =>
  match transfer (RegUpdateBits addr mask val) (bus m) with
  | (Some e, b) => (Z.neg e, with_bus b m)
  | (None, b) =>
      let orig := regs b addr in
      (0, with_bus (store addr (Z.lor (Z.land orig (Z.lnot mask)) (Z.land val mask)) b) m)
  end.

(** [power_supply_get_property(psy, prop, val)]: [val] is written on
    success only. *)
Definition power_supply_get_property (psy : power_supply)
    (prop : power_supply_property) (val : Z) : Z * Z :=
  match get_property psy prop with
  | Intval v => (0, v)
  | Enoprop e => (Z.neg e, val)
  end.

(** Modelled from the spec: the macro DIV_ROUND_CLOSEST of
    linux/kernel.h is not among the translated sources; the reconciler
    is specified to rescale "rounding to nearest".  Both operands are
    signed here: half the divisor is added when dividend and divisor
    have the same sign and subtracted otherwise, and the division
    truncates. *)
Definition DIV_ROUND_CLOSEST (x d : Z) : Z :=
  if Bool.eqb (0 <? x) (0 <? d) then (x + d // 2) // d else (x - d // 2) // d.

(** ** The driver *)

Section Driver.

Context {R : smb235x_reg} {P : power_supply_abi}.

(** smb235x_set_icl_sw (lines 103-129). *)
Definition smb235x_set_icl_sw (icl_ma : Z) : M Z :=
  let stat := to_u8 (icl_ma // CURRENT_STEP_MA) in
  rc <- regmap_update_bits USBIN_LOAD_CFG_REG
          ICL_OVERRIDE_AFTER_APSD_BIT ICL_OVERRIDE_AFTER_APSD_BIT ;;
  if rc <? 0 then ret rc else
  rc <- regmap_update_bits USB_CMD_ICL_OVERRIDE_REG ICL_OVERRIDE_BIT ICL_OVERRIDE_BIT ;;
  if rc <? 0 then ret rc else
  rc <- regmap_write USBIN_CURRENT_LIMIT_CFG_REG stat ;;
  ret rc.

(** smb235x_rerun_apsd (lines 144-154). *)
Definition smb235x_rerun_apsd : M Z :=
  regmap_update_bits USB_CMD_APSD_REG USB_APSD_RERUN_BIT USB_APSD_RERUN_BIT.

(** smb235x_enable_apsd (lines 156-192). *)
Definition smb235x_enable_apsd : M Z :=
  update_chip (set_hvdcp3_voltage_uv QC3_DEFAULT_VOLTAGE_UV) ;;
  update_chip (set_based_hvdcp_voltage_uv BASED_VOLTAGE_UV) ;;
  '(rc, stat) <- regmap_read USB_HVDCP_PULSE_COUNT_MAX ;;
  if rc <? 0 then ret rc else
  update_chip (set_hvdcp_pulse_count_max (Z.land stat HVDCP_PULSE_COUNT_MAX_QC3P0_BIT)) ;;
  rc <- regmap_update_bits USBIN_OPTIONS_1_CFG_REG
          (Z.lor (Z.lor (Z.lor USBIN_HVDCP_AUTH_ALG_EN_BIT
                               USBIN_HVDCP_AUTONOMOUS_MODE_EN_BIT)
                        USBIN_APSD_ENABLE_BIT)
                 USBIN_HVDCP_EN_BIT)
          (Z.lor (Z.lor (Z.lor USBIN_HVDCP_AUTH_ALG_EN_BIT
                               (lognot USBIN_HVDCP_AUTONOMOUS_MODE_EN_BIT))
                        USBIN_APSD_ENABLE_BIT)
                 USBIN_HVDCP_EN_BIT) ;;
  if rc <? 0 then ret rc else
  smb235x_rerun_apsd.

(** smb235x_get_prop_from_bms (lines 194-207); returns [(rc, val)]. *)
Definition smb235x_get_prop_from_bms (prop : power_supply_property) (val : Z)
    : M (Z * Z) := fun m =>
  match bms_psy (chip m) with
  | Some psy => (power_supply_get_property psy prop val, m)
  | None =>
      match bms_supply m with
      | None => ((Z.neg EINVAL, val), m)
      | Some psy =>
          (power_supply_get_property psy prop val,
           with_chip (set_bms_psy (Some psy) (chip m)) m)
      end
  end.

(** smb235x_get_prop_from_tcpm (lines 209-221); returns [(rc, val)]. *)
Definition smb235x_get_prop_from_tcpm (prop : power_supply_property) (val : Z)
    : M (Z * Z) := fun m =>
  match tcpm_psy (chip m) with
  | Some psy => (power_supply_get_property psy prop val, m)
  | None =>
      match tcpm_supply m with
      | None => ((Z.neg EINVAL, val), m)
      | Some psy =>
          (power_supply_get_property psy prop val,
           with_chip (set_tcpm_psy (Some psy) (chip m)) m)
      end
  end.

(** smb235x_get_usb_online (lines 223-235). *)
Definition smb235x_get_usb_online : M bool :=
  '(rc, stat) <- regmap_read DCDC_POWER_PATH_STATUS_REG ;;
  if rc <? 0 then ret false else
  ret (truthy (Z.land stat USE_USBIN_BIT)
       && truthy (Z.land stat VALID_INPUT_POWER_SOURCE_STS_BIT)).

(** One [if (stat & bit) { chip->charger_type = t; chip->usb_type = u; }]
    of smb235x_get_chg_type. *)
Definition apsd_result (stat bit t u : Z) : M unit :=
  if truthy (Z.land stat bit) then update_chip (set_types t u) else ret tt.

(** smb235x_get_chg_type (lines 237-300). *)
Definition smb235x_get_chg_type : M Z :=
  usb_online <- smb235x_get_usb_online ;;
  if negb usb_online then
    update_chip (set_types POWER_SUPPLY_TYPE_UNKNOWN POWER_SUPPLY_USB_TYPE_UNKNOWN) ;;
    ret 0
  else
  '(rc, pval) <- smb235x_get_prop_from_tcpm POWER_SUPPLY_PROP_USB_TYPE 0 ;;
  if (0 <=? rc) && negb (pval =? POWER_SUPPLY_USB_TYPE_C) then
    update_chip (set_types pval pval) ;;
    ret 0
  else
  '(rc, stat) <- regmap_read USB_APSP_RESULT_STATUS_REG ;;
  if rc <? 0 then ret rc else
  let stat := Z.land stat APSD_RESULT_STATUS_MASK in
  apsd_result stat FLOAT_CHARGER_BIT
    POWER_SUPPLY_TYPE_USB_FLOAT POWER_SUPPLY_USB_TYPE_UNKNOWN ;;
  apsd_result stat DCP_CHARGER_BIT
    POWER_SUPPLY_TYPE_USB_DCP POWER_SUPPLY_USB_TYPE_DCP ;;
  apsd_result stat OCP_CHARGER_BIT
    POWER_SUPPLY_TYPE_USB_DCP POWER_SUPPLY_USB_TYPE_DCP ;;
  apsd_result stat CDP_CHARGER_BIT
    POWER_SUPPLY_TYPE_USB_CDP POWER_SUPPLY_USB_TYPE_CDP ;;
  apsd_result stat SDP_CHARGER_BIT
    POWER_SUPPLY_TYPE_USB POWER_SUPPLY_USB_TYPE_SDP ;;
  apsd_result stat QC_3P0_BIT
    POWER_SUPPLY_TYPE_USB_HVDCP_3 POWER_SUPPLY_USB_TYPE_DCP ;;
  apsd_result stat QC_2P0_BIT
    POWER_SUPPLY_TYPE_USB_HVDCP POWER_SUPPLY_USB_TYPE_DCP ;;
  ret 0.

(** The loop [while (hvdcp_pulse_count--) { rc = regmap_update_bits(...,
    bit, bit); if (rc < 0) return rc; usleep_range(500, 1000); }] with
    [n] iterations left; the sleep has no effect on the machine.  The
    result is the failing [rc], or 0 when the loop runs to its end. *)
Fixpoint hvdcp_pulses (n : nat) (bit : Z) : M Z :=
  match n with
  | O => ret 0
  | S n' =>
      rc <- regmap_update_bits USB_CMD_HVDCP_2_REG bit bit ;;
      if rc <? 0 then ret rc else hvdcp_pulses n' bit
  end.

(** Number of iterations of [while (hvdcp_pulse_count--)]: the counter
    is tested against zero and decremented, so a non-negative counter
    runs that many times and a negative one runs down through the
    wrap-around. *)
Definition pulse_iterations (hvdcp_pulse_count : Z) : nat :=
  Z.to_nat (to_u32 hvdcp_pulse_count).

(** smb235x_set_hvdcp3_voltage (lines 442-489).  The mutex is taken
    and released on every path after the first test; calls are
    sequential in this model. *)
Definition smb235x_set_hvdcp3_voltage (voltage_uv : Z) : M Z :=
  if voltage_uv <? BASED_VOLTAGE_UV then ret 0 else
  c <- get_chip ;;
  rc <- (if voltage_uv >? based_hvdcp_voltage_uv c then
           let hvdcp_pulse_count :=
             wrap_int (voltage_uv - based_hvdcp_voltage_uv c) // QC3_VOLTAGE_STEPS_UV in
           let hvdcp_pulse_count :=
             if hvdcp_pulse_count >? hvdcp_pulse_count_max c
             then hvdcp_pulse_count_max c else hvdcp_pulse_count in
           hvdcp_pulses (pulse_iterations hvdcp_pulse_count) SINGLE_INCREMENT_BIT
         else
           let hvdcp_pulse_count :=
             wrap_int (hvdcp3_voltage_uv c - voltage_uv) // QC3_VOLTAGE_STEPS_UV in
           hvdcp_pulses (pulse_iterations hvdcp_pulse_count) SINGLE_DECREMENT_BIT) ;;
  if rc <? 0 then ret rc else
  update_chip (set_hvdcp3_voltage_uv voltage_uv) ;;
  update_chip (set_based_hvdcp_voltage_uv voltage_uv) ;;
  ret 0.

(** The [switch (chip->charger_type)] of smb235x_handle_apsd_done
    (lines 508-541): [Some icl_ma], or [None] where the handler returns. *)
Definition apsd_type_icl : M (option Z) :=
  c <- get_chip ;;
  let t := charger_type c in
  if t =? POWER_SUPPLY_TYPE_USB then
    if truthy (sdp_icl_ua c) then ret (Some (sdp_icl_ua c // MICRO_TO_MILLI))
    else ret (Some (SDP_500_MA // MICRO_TO_MILLI))
  else if t =? POWER_SUPPLY_TYPE_USB_CDP then
    ret (Some (CDP_CURRENT_UA // MICRO_TO_MILLI))
  else if t =? POWER_SUPPLY_TYPE_USB_DCP then
    ret (Some (DCP_CURRENT_UA // MICRO_TO_MILLI))
  else if t =? POWER_SUPPLY_TYPE_USB_FLOAT then
    ret (Some (SDP_500_MA // MICRO_TO_MILLI))
  else if t =? POWER_SUPPLY_TYPE_USB_HVDCP then
    rc <- regmap_update_bits USB_CMD_HVDCP_2_REG FORCE_9V_BIT FORCE_9V_BIT ;;
    if rc <? 0 then ret None else ret (Some (HVDCP_CURRENT_UA // MICRO_TO_MILLI))
  else if t =? POWER_SUPPLY_TYPE_USB_HVDCP_3 then
    _ <- smb235x_set_hvdcp3_voltage (hvdcp3_voltage_uv c) ;;
    ret (Some (HVDCP_CURRENT_UA // MICRO_TO_MILLI))
  else
    ret (Some (SDP_500_MA // MICRO_TO_MILLI)).

(** smb235x_handle_apsd_done up to the call of smb235x_set_icl_sw
    (lines 499-552): the [icl_ma] that is about to be programmed, or
    [None] where the handler returns before programming anything. *)
Definition apsd_select_icl : M (option Z) :=
  rc <- smb235x_get_chg_type ;;
  if rc <? 0 then ret None else
  c <- get_chip ;;
  (if negb (charger_type c =? POWER_SUPPLY_TYPE_USB_HVDCP_3)
   then update_chip (set_based_hvdcp_voltage_uv BASED_VOLTAGE_UV)
   else ret tt) ;;
  sel <- apsd_type_icl ;;
  match sel with
  | None => ret None
  | Some icl_ma =>
      c <- get_chip ;;
      if pd_active c then
        '(rc, pval) <- smb235x_get_prop_from_tcpm POWER_SUPPLY_PROP_CURRENT_MAX 0 ;;
        if rc <? 0 then ret None else ret (Some (pval // MICRO_TO_MILLI))
      else ret (Some icl_ma)
  end.

(** smb235x_handle_apsd_done (lines 491-559). *)
Definition smb235x_handle_apsd_done (done : bool) : M unit :=
  if negb done then ret tt else
  sel <- apsd_select_icl ;;
  match sel with
  | None => ret tt
  | Some icl_ma => _ <- smb235x_set_icl_sw icl_ma ;; ret tt
  end.

(** smb235x_config_chg_current_voltage (lines 817-871). *)
Definition smb235x_config_chg_current_voltage : M Z :=
  c <- get_chip ;;
  let reg_val := to_u8 (fastchg_curr_ua c // MICRO_TO_MILLI // CURRENT_STEP_MA + 1) in
  rc <- regmap_write CHGR_FAST_CHARGE_CURRENT_CFG_REG reg_val ;;
  if rc <? 0 then ret rc else
  let reg_val := to_u8 (max_fcc_ua c // MICRO_TO_MILLI // CURRENT_STEP_MA + 1) in
  rc <- regmap_write CHGR_MAX_FAST_CHARGE_CURRENT_CFG_REG reg_val ;;
  if rc <? 0 then ret rc else
  let reg_val :=
    to_u8 ((float_volt_uv c // MICRO_TO_MILLI - FLOAT_VOLTAGE_BASE_MV)
           // FLOAT_VOLTAGE_STEP_MV) in
  rc <- regmap_write CHGR_FLOAT_VOLTAGE_CFG_REG reg_val ;;
  if rc <? 0 then ret rc else
  let reg_val := to_u8 (trickle_charge_current_ua c // MICRO_TO_MILLI // CURRENT_STEP_MA) in
  rc <- regmap_write CHGR_TRICKLE_CHARGE_CURRENT_CFG_REG reg_val ;;
  if rc <? 0 then ret rc else
  let reg_val := to_u8 (pre_charge_current_ua c // MICRO_TO_MILLI // CURRENT_STEP_MA) in
  rc <- regmap_write CHGR_PRE_CHARGE_CURRENT_CFG_REG reg_val ;;
  if rc <? 0 then ret rc else
  let reg_val := to_u8 (max_pre_charge_current_ua c // MICRO_TO_MILLI // CURRENT_STEP_MA) in
  rc <- regmap_write CHGR_MAX_PRE_CHARGER_CURRENT_CFG_REG reg_val ;;
  if rc <? 0 then ret rc else
  ret rc.

(** smb235x_get_prop_usb_present (lines 1118-1132). *)
Definition smb235x_get_prop_usb_present (val : Z) : M (Z * Z) :=
  '(rc, stat) <- regmap_read USB_INT_RT_STS_OFFSET_REG ;;
  if rc <? 0 then ret (rc, val) else
  ret (0, if truthy (Z.land stat USBIN_PLUGIN_RT_STS_BIT) then 1 else 0).

(** smb235x_get_prop_usb_icl (lines 1134-1177). *)
Definition smb235x_get_prop_usb_icl (val : Z) : M (Z * Z) :=
  usb_online <- smb235x_get_usb_online ;;
  if negb usb_online then ret (0, 0) else
  '(rc, override_stat) <- regmap_read USB_CMD_ICL_OVERRIDE_REG ;;
  if rc <? 0 then ret (rc, val) else
  let override_stat := Z.land override_stat ICL_OVERRIDE_BIT in
  '(rc, stat) <- regmap_read (if override_stat =? 1
                              then USBIN_CURRENT_LIMIT_CFG_REG
                              else DCDC_ICL_MAX_STATUS_REG) ;;
  if rc <? 0 then ret (rc, val) else
  let intval := wrap_int (stat * CURRENT_STEP_MA) in
  ret (rc, wrap_int (intval * MICRO_TO_MILLI)).

(** smb235x_get_hvdcp2_voltage (lines 1179-1201). *)
Definition smb235x_get_hvdcp2_voltage : M Z :=
  '(rc, stat) <- regmap_read USB_QC_CHANGE_STATUS_REG ;;
  if rc <? 0 then ret rc else
  if truthy (Z.land stat QC_12V_BIT) then ret VOLTAGE_FORCE_12V_UV
  else if truthy (Z.land stat QC_9V_BIT) then ret VOLTAGE_FORCE_9V_UV
  else if truthy (Z.land stat QC_5V_BTI) then ret VOLTAGE_FORCE_5V_UV
  else ret VOLTAGE_FORCE_5V_UV.

(** smb235x_get_prop_usb_voltage (lines 1203-1241). *)
Definition smb235x_get_prop_usb_voltage (val : Z) : M (Z * Z) :=
  usb_online <- smb235x_get_usb_online ;;
  if negb usb_online then ret (0, 0) else
  c <- get_chip ;;
  let t := charger_type c in
  intval <-
    (if (t =? POWER_SUPPLY_TYPE_USB_FLOAT) || (t =? POWER_SUPPLY_TYPE_USB_DCP)
        || (t =? POWER_SUPPLY_TYPE_USB_CDP) || (t =? POWER_SUPPLY_TYPE_USB)
     then ret VOLTAGE_FORCE_5V_UV
     else if t =? POWER_SUPPLY_TYPE_USB_HVDCP_3 then ret (hvdcp3_voltage_uv c)
     else if t =? POWER_SUPPLY_TYPE_USB_HVDCP then smb235x_get_hvdcp2_voltage
     else ret VOLTAGE_FORCE_5V_UV) ;;
  if pd_active c then
    smb235x_get_prop_from_tcpm POWER_SUPPLY_PROP_VOLTAGE_NOW intval
  else ret (0, intval).

(** smb235x_usb_get_prop (lines 1243-1306). *)
Definition smb235x_usb_get_prop (prop : power_supply_property) (pval : Z)
    : M (Z * Z) :=
  let finish (r : Z * Z) : M (Z * Z) :=
    if fst r <? 0 then ret (Z.neg ENODATA, snd r) else ret r in
  match prop with
  | POWER_SUPPLY_PROP_PRESENT =>
      r <- smb235x_get_prop_usb_present pval ;; finish r
  | POWER_SUPPLY_PROP_ONLINE =>
      usb_online <- smb235x_get_usb_online ;;
      finish (0, if usb_online then 1 else 0)
  | POWER_SUPPLY_PROP_CURRENT_MAX =>
      r <- smb235x_get_prop_usb_icl pval ;; finish r
  | POWER_SUPPLY_PROP_VOLTAGE_MAX =>
      r <- smb235x_get_prop_usb_voltage pval ;; finish r
  | POWER_SUPPLY_PROP_VOLTAGE_NOW =>
      r <- smb235x_get_prop_usb_voltage pval ;; finish r
  | POWER_SUPPLY_PROP_CURRENT_NOW =>
      usb_online <- smb235x_get_usb_online ;;
      if negb usb_online then ret (0, 0) else
      r <- smb235x_get_prop_from_tcpm prop pval ;; finish r
  | POWER_SUPPLY_PROP_SDP_CURRENT_MAX =>
      c <- get_chip ;;
      finish (0, if truthy (sdp_icl_ua c) then sdp_icl_ua c else SDP_500_MA)
  | POWER_SUPPLY_PROP_REAL_TYPE =>
      rc <- smb235x_get_chg_type ;;
      c <- get_chip ;;
      finish (rc, if rc =? 0 then charger_type c else POWER_SUPPLY_TYPE_UNKNOWN)
  | POWER_SUPPLY_PROP_USB_TYPE =>
      rc <- smb235x_get_chg_type ;;
      c <- get_chip ;;
      finish (rc, if rc =? 0 then usb_type c else POWER_SUPPLY_TYPE_UNKNOWN)
  | _ => ret (Z.neg EINVAL, pval)
  end.

(** smb235x_get_prop_battery_status (lines 1507-1564). *)
Definition smb235x_get_prop_battery_status (pval : Z) : M (Z * Z) :=
  usb_online <- smb235x_get_usb_online ;;
  '(rc, stat) <- regmap_read BATTERY_CHARGER_STATUS_1_REG ;;
  if rc <? 0 then ret (rc, pval) else
  let stat := Z.land stat BATTERY_CHARGER_STATUS_MASK in
  if negb usb_online then
    if (stat =? TERMINATE_CHARGE) || (stat =? INHIBIT_CHARGE)
    then ret (rc, POWER_SUPPLY_STATUS_FULL)
    else ret (rc, POWER_SUPPLY_STATUS_DISCHARGING)
  else
  if (stat =? TRICKLE_CHARGE) || (stat =? PRE_CHARGE)
     || (stat =? FULLON_CHARGE) || (stat =? TAPER_CHARGE)
  then ret (rc, POWER_SUPPLY_STATUS_CHARGING)
  else if stat =? TERMINATE_CHARGE then ret (rc, POWER_SUPPLY_STATUS_FULL)
  else if (stat =? INHIBIT_CHARGE) || (stat =? PAUSE_CHARGE)
          || (stat =? DISABLE_CHARGE)
  then ret (rc, POWER_SUPPLY_STATUS_NOT_CHARGING)
  else ret (rc, POWER_SUPPLY_STATUS_UNKNOWN).

(** smb235x_set_fv (lines 1628-1640). *)
Definition smb235x_set_fv (vfloat_uv : Z) : M Z :=
  let reg_val :=
    to_u8 ((vfloat_uv // MICRO_TO_MILLI - FLOAT_VOLTAGE_BASE_MV)
           // FLOAT_VOLTAGE_STEP_MV) in
  regmap_write CHGR_FLOAT_VOLTAGE_CFG_REG reg_val.

(** smb235x_set_fcc (lines 1642-1654). *)
Definition smb235x_set_fcc (fcc_ua : Z) : M Z :=
  let reg_val := to_u8 (fcc_ua // MICRO_TO_MILLI // CURRENT_STEP_MA + 1) in
  regmap_write CHGR_FAST_CHARGE_CURRENT_CFG_REG reg_val.

(** smb235x_batt_set_prop (lines 1656-1697); [pval] is [pval->intval]. *)
Definition smb235x_batt_set_prop (prop : power_supply_property) (pval : Z) : M Z :=
  '(rc, bms_val) <- smb235x_get_prop_from_bms prop 0 ;;
  let bms_prop_exist := negb (rc <? 0) in
  match prop with
  | POWER_SUPPLY_PROP_CONSTANT_CHARGE_VOLTAGE_MAX =>
      update_chip (set_float_volt_uv (if bms_prop_exist then bms_val else pval)) ;;
      c <- get_chip ;;
      smb235x_set_fv (float_volt_uv c)
  | POWER_SUPPLY_PROP_CONSTANT_CHARGE_CURRENT_MAX =>
      update_chip (set_fastchg_curr_ua (if bms_prop_exist then bms_val else pval)) ;;
      c <- get_chip ;;
      smb235x_set_fcc (fastchg_curr_ua c)
  | _ => ret (Z.neg EINVAL)
  end.

(** smb235x_tcpm_update_icl (lines 1756-1784).  The second peer query
    is not checked: on failure [pval] still holds the usb type. *)
Definition smb235x_tcpm_update_icl : M unit :=
  '(rc, pval) <- smb235x_get_prop_from_tcpm POWER_SUPPLY_PROP_USB_TYPE 0 ;;
  if rc <? 0 then ret tt else
  if pval =? POWER_SUPPLY_USB_TYPE_C then update_chip (set_pd_active false) else
  update_chip (set_pd_active true) ;;
  '(_, pval) <- smb235x_get_prop_from_tcpm POWER_SUPPLY_PROP_CURRENT_MAX pval ;;
  _ <- smb235x_set_icl_sw (pval // MICRO_TO_MILLI) ;;
  ret tt.

(** smb235x_update_fv_fcc (lines 1854-1884). *)
Definition smb235x_update_fv_fcc : M unit :=
  '(rc, pval) <- smb235x_get_prop_from_bms
                   POWER_SUPPLY_PROP_CONSTANT_CHARGE_CURRENT_MAX 0 ;;
  if rc <? 0 then ret tt else
  c <- get_chip ;;
  rc <- (if negb (fastchg_curr_ua c =? pval) then
           rc <- smb235x_set_fcc pval ;;
           if rc <? 0 then ret rc else
           update_chip (set_fastchg_curr_ua pval) ;; ret rc
         else ret rc) ;;
  if rc <? 0 then ret tt else
  '(rc, pval) <- smb235x_get_prop_from_bms
                   POWER_SUPPLY_PROP_CONSTANT_CHARGE_VOLTAGE_MAX pval ;;
  if rc <? 0 then ret tt else
  c <- get_chip ;;
  if negb (float_volt_uv c =? pval) then
    rc <- smb235x_set_fv pval ;;
    if rc <? 0 then ret tt else
    update_chip (set_float_volt_uv pval)
  else ret tt.

(** smb235x_update_soc (lines 1886-1912). *)
Definition smb235x_update_soc : M unit :=
  '(rc, pval) <- smb235x_get_prop_from_bms POWER_SUPPLY_PROP_CAPACITY 0 ;;
  if rc <? 0 then ret tt else
  let soc := to_u8 (DIV_ROUND_CLOSEST (wrap_int (pval * 255)) 100) in
  rc <- regmap_write CHGR_STEP_CHG_SOC_VBATT_V_REG soc ;;
  if rc <? 0 then ret tt else
  _ <- regmap_update_bits CHGR_STEP_CHG_SOC_VBATT_V_UPDATE_REG
         CHGR_STEP_SOC_VBATT_V_UPDATE_BIT CHGR_STEP_SOC_VBATT_V_UPDATE_BIT ;;
  ret tt.

(** The body of smb235x_update_work (lines 1914-1923), one cycle of the
    periodic task; rescheduling is left to the caller. *)
Definition smb235x_update_work : M unit :=
  smb235x_update_soc ;;
  smb235x_update_fv_fcc.

(** ** Vocabulary of the statements *)

(** The test of smb235x_get_usb_online on a value of the power-path
    status register. *)
Definition usb_online_bits (stat : Z) : bool :=
  truthy (Z.land stat USE_USBIN_BIT)
  && truthy (Z.land stat VALID_INPUT_POWER_SOURCE_STS_BIT).

(** The supply smb235x_get_prop_from_tcpm ends up asking: the cached
    pointer, or what the lookup by name finds. *)
Definition tcpm_peer (m : machine) : option power_supply :=
  match tcpm_psy (chip m) with
  | Some psy => Some psy
  | None => tcpm_supply m
  end.

Definition bms_peer (m : machine) : option power_supply :=
  match bms_psy (chip m) with
  | Some psy => Some psy
  | None => bms_supply m
  end.

(** The answer of a peer that may be absent. *)
Definition peer_answer (peer : option power_supply)
    (prop : power_supply_property) : propval :=
  match peer with
  | Some psy => get_property psy prop
  | None => Enoprop EINVAL
  end.

(** What a regmap call changes: the bus only, by one log entry and one
    consumed outcome. *)
Definition bus_step (op : bus_op) (m m' : machine) : Prop :=
  chip m' = chip m /\ bms_supply m' = bms_supply m /\
  tcpm_supply m' = tcpm_supply m /\
  log (bus m') = op :: log (bus m) /\
  faults (bus m') = tl (faults (bus m)).

(** The log of the second machine extends that of the first. *)
Definition log_grows (m m' : machine) : Prop :=
  exists l, log (bus m') = l ++ log (bus m).

(** The PD flag and the peer stay the same. *)
Definition peer_kept (m m' : machine) : Prop :=
  pd_active (chip m') = pd_active (chip m) /\ tcpm_peer m' = tcpm_peer m.

(** The negotiation peer leaves the detection to the charger: it is
    absent, its query fails, or it reports the generic Type-C type. *)
Definition peer_defers (answer : propval) : bool :=
  match answer with
  | Intval v => v =? POWER_SUPPLY_USB_TYPE_C
  | Enoprop _ => true
  end.

(** The detection result bits in the order smb235x_get_chg_type tests
    them, each with the charger type and usb type it stands for. *)
Definition apsd_table : list (Z * (Z * Z)) :=
  [ (FLOAT_CHARGER_BIT, (POWER_SUPPLY_TYPE_USB_FLOAT, POWER_SUPPLY_USB_TYPE_UNKNOWN));
    (DCP_CHARGER_BIT, (POWER_SUPPLY_TYPE_USB_DCP, POWER_SUPPLY_USB_TYPE_DCP));
    (OCP_CHARGER_BIT, (POWER_SUPPLY_TYPE_USB_DCP, POWER_SUPPLY_USB_TYPE_DCP));
    (CDP_CHARGER_BIT, (POWER_SUPPLY_TYPE_USB_CDP, POWER_SUPPLY_USB_TYPE_CDP));
    (SDP_CHARGER_BIT, (POWER_SUPPLY_TYPE_USB, POWER_SUPPLY_USB_TYPE_SDP));
    (QC_3P0_BIT, (POWER_SUPPLY_TYPE_USB_HVDCP_3, POWER_SUPPLY_USB_TYPE_DCP));
    (QC_2P0_BIT, (POWER_SUPPLY_TYPE_USB_HVDCP, POWER_SUPPLY_USB_TYPE_DCP)) ].

(** "The last matching status bit in the fixed order": the entries of a
    table whose bit is set in [stat], and the types of the last of them. *)
Definition matching (stat : Z) (table : list (Z * (Z * Z))) : list (Z * (Z * Z)) :=
  filter (fun e => truthy (Z.land stat (fst e))) table.

Definition last_matching (stat : Z) (table : list (Z * (Z * Z))) : option (Z * Z) :=
  last (map (fun e => Some (snd e)) (matching stat table)) None.

(** The machine after the detection result [tu] has been stored; [None]
    leaves the types as they were. *)
Definition store_types (tu : option (Z * Z)) (m : machine) : machine :=
  match tu with
  | Some (t, u) => with_chip (set_types t u (chip m)) m
  | None => m
  end.

(** The battery status the driver reports for a masked charger status
    while usb is offline (the first [switch] of
    smb235x_get_prop_battery_status). *)
Definition offline_battery_status (stat : Z) : Z :=
  if (stat =? TERMINATE_CHARGE) || (stat =? INHIBIT_CHARGE)
  then POWER_SUPPLY_STATUS_FULL
  else POWER_SUPPLY_STATUS_DISCHARGING.

(** The regmap calls a computation issues from [m], oldest first. *)
Definition issued {A : Type} (c : M A) (m : machine) : list bus_op :=
  let l := log (bus (snd (c m))) in
  rev (firstn (length l - length (log (bus m))) l).

(** A voltage step of the HVDCP3 protocol: setting the single-increment
    or the single-decrement bit of the command register. *)
Definition is_pulse (op : bus_op) : bool :=
  match op with
  | RegUpdateBits addr mask val =>
      (addr =? USB_CMD_HVDCP_2_REG)
      && ((mask =? SINGLE_INCREMENT_BIT) || (mask =? SINGLE_DECREMENT_BIT))
      && (val =? mask)
  | _ => false
  end.

Definition pulses_issued {A : Type} (c : M A) (m : machine) : Z :=
  Z.of_nat (length (filter is_pulse (issued c m))).

(** A value that a [u8] holds unchanged. *)
Definition fits_u8 (z : Z) : Prop := 0 <= z <= 255.

(** What the detection and the programming of the input current limit
    leave alone: the HVDCP3 bookkeeping, the PD flag, the SDP override
    and the peer the driver talks to. *)
Definition negotiation_kept (m m' : machine) : Prop :=
  hvdcp3_voltage_uv (chip m') = hvdcp3_voltage_uv (chip m) /\
  based_hvdcp_voltage_uv (chip m') = based_hvdcp_voltage_uv (chip m) /\
  hvdcp_pulse_count_max (chip m') = hvdcp_pulse_count_max (chip m) /\
  pd_active (chip m') = pd_active (chip m) /\
  sdp_icl_ua (chip m') = sdp_icl_ua (chip m) /\
  tcpm_peer m' = tcpm_peer m.

End Driver.

(** ** A concrete platform

    One assignment of the header constants (a register per address,
    one bit per detection result, charger-status codes 0 to 7) and of
    the power-supply enumerations, to run the driver on concrete
    machines.  The theorems of the section [Properties] hold for every
    assignment. *)

Module Sample.

#[export] Instance reg : smb235x_reg := {|
  CHARGING_ENABLE_CMD_REG := 0x2642;
  CHARGING_ENABLE_BIT := 1;
  CHGR_FAST_CHARGE_CURRENT_CFG_REG := 0x2654;
  CHGR_MAX_FAST_CHARGE_CURRENT_CFG_REG := 0x2666;
  CHGR_FLOAT_VOLTAGE_CFG_REG := 0x2658;
  CHGR_TRICKLE_CHARGE_CURRENT_CFG_REG := 0x2650;
  CHGR_PRE_CHARGE_CURRENT_CFG_REG := 0x2652;
  CHGR_MAX_PRE_CHARGER_CURRENT_CFG_REG := 0x2665;
  CHGR_STEP_CHG_SOC_VBATT_V_REG := 0x2646;
  CHGR_STEP_CHG_SOC_VBATT_V_UPDATE_REG := 0x2647;
  CHGR_STEP_SOC_VBATT_V_UPDATE_BIT := 1;
  BATTERY_CHARGER_STATUS_1_REG := 0x2606;
  BATTERY_CHARGER_STATUS_MASK := 7;
  INHIBIT_CHARGE := 0;
  TRICKLE_CHARGE := 1;
  PRE_CHARGE := 2;
  FULLON_CHARGE := 3;
  TAPER_CHARGE := 4;
  TERMINATE_CHARGE := 5;
  PAUSE_CHARGE := 6;
  DISABLE_CHARGE := 7;
  DCDC_POWER_PATH_STATUS_REG := 0x270B;
  USE_USBIN_BIT := 16;
  VALID_INPUT_POWER_SOURCE_STS_BIT := 1;
  DCDC_ICL_MAX_STATUS_REG := 0x2706;
  USBIN_LOAD_CFG_REG := 0x2965;
  ICL_OVERRIDE_AFTER_APSD_BIT := 16;
  USB_CMD_ICL_OVERRIDE_REG := 0x2942;
  ICL_OVERRIDE_BIT := 1;
  USBIN_CURRENT_LIMIT_CFG_REG := 0x2952;
  USB_CMD_APSD_REG := 0x2941;
  USB_APSD_RERUN_BIT := 1;
  USB_HVDCP_PULSE_COUNT_MAX := 0x295B;
  HVDCP_PULSE_COUNT_MAX_QC3P0_BIT := 63;
  USBIN_OPTIONS_1_CFG_REG := 0x2962;
  USBIN_HVDCP_AUTH_ALG_EN_BIT := 64;
  USBIN_HVDCP_AUTONOMOUS_MODE_EN_BIT := 32;
  USBIN_APSD_ENABLE_BIT := 4;
  USBIN_HVDCP_EN_BIT := 8;
  USB_APSP_RESULT_STATUS_REG := 0x2908;
  APSD_RESULT_STATUS_MASK := 127;
  FLOAT_CHARGER_BIT := 16;
  DCP_CHARGER_BIT := 8;
  OCP_CHARGER_BIT := 2;
  CDP_CHARGER_BIT := 4;
  SDP_CHARGER_BIT := 1;
  QC_3P0_BIT := 64;
  QC_2P0_BIT := 32;
  USB_CMD_HVDCP_2_REG := 0x2943;
  SINGLE_INCREMENT_BIT := 1;
  SINGLE_DECREMENT_BIT := 2;
  FORCE_9V_BIT := 16;
  USB_QC_CHANGE_STATUS_REG := 0x2909;
  QC_12V_BIT := 4;
  QC_9V_BIT := 2;
  QC_5V_BTI := 1;
  USB_INT_RT_STS_OFFSET_REG := 0x2910;
  USBIN_PLUGIN_RT_STS_BIT := 16;
  USB_APSD_STATUS_REG := 0x2907;
  APSD_DTC_STATUS_DONE_BIT := 1
|}.

#[export] Instance abi : power_supply_abi := {|
  POWER_SUPPLY_TYPE_UNKNOWN := 0;
  POWER_SUPPLY_TYPE_USB := 4;
  POWER_SUPPLY_TYPE_USB_DCP := 5;
  POWER_SUPPLY_TYPE_USB_CDP := 6;
  POWER_SUPPLY_TYPE_USB_HVDCP := 8;
  POWER_SUPPLY_TYPE_USB_HVDCP_3 := 9;
  POWER_SUPPLY_TYPE_USB_FLOAT := 13;
  POWER_SUPPLY_USB_TYPE_UNKNOWN := 0;
  POWER_SUPPLY_USB_TYPE_SDP := 1;
  POWER_SUPPLY_USB_TYPE_DCP := 2;
  POWER_SUPPLY_USB_TYPE_CDP := 3;
  POWER_SUPPLY_USB_TYPE_C := 5;
  POWER_SUPPLY_STATUS_UNKNOWN := 0;
  POWER_SUPPLY_STATUS_CHARGING := 1;
  POWER_SUPPLY_STATUS_DISCHARGING := 2;
  POWER_SUPPLY_STATUS_NOT_CHARGING := 3;
  POWER_SUPPLY_STATUS_FULL := 4
|}.

(** The chip as smb235x_parse_dt (lines 735-742) and smb235x_enable_apsd
    leave it when the device tree overrides nothing and the pulse-count
    register reads [pulse_max]. *)
Definition probed (pulse_max : Z) : smb235x_chg_chip :=
  {| bms_psy := None; tcpm_psy := None;
     trickle_charge_current_ua := 50000;
     max_pre_charge_current_ua := 1000000;
     pre_charge_current_ua := 750000;
     termination_current_ua := -325000;
     float_volt_uv := 8800000; fastchg_curr_ua := 3250000;
     max_fcc_ua := 3250000; sdp_icl_ua := 0;
     charger_type := 0; usb_type := 0;
     auto_recharge_soc := 98;
     hvdcp_pulse_count_max := pulse_max;
     hvdcp3_voltage_uv := QC3_DEFAULT_VOLTAGE_UV;
     based_hvdcp_voltage_uv := BASED_VOLTAGE_UV;
     pd_active := false |}.

(** A register file given by the registers that are not zero. *)
Fixpoint regfile (l : list (Z * Z)) (addr : Z) : Z :=
  match l with
  | [] => 0
  | (a, v) :: l' => if addr =? a then v else regfile l' addr
  end.

Definition board (c : smb235x_chg_chip) (r : list (Z * Z))
    (f : list (option errno)) (bms tcpm : option power_supply) : machine :=
  {| chip := c;
     bus := {| regs := regfile r; faults := f; log := [] |};
     bms_supply := bms; tcpm_supply := tcpm |}.

(** Power path: USB input in use and valid. *)
Definition plugged : Z * Z := (DCDC_POWER_PATH_STATUS_REG, 17).

(** A Type-C port manager that has not negotiated a contract. *)
Definition tcpm_typec (current_max : Z) : power_supply :=
  {| get_property := fun prop =>
       match prop with
       | POWER_SUPPLY_PROP_USB_TYPE => Intval POWER_SUPPLY_USB_TYPE_C
       | POWER_SUPPLY_PROP_CURRENT_MAX => Intval current_max
       | _ => Enoprop EINVAL
       end |}.

(** A fuel gauge. *)
Definition gauge (capacity fcc_ua fv_uv : Z) : power_supply :=
  {| get_property := fun prop =>
       match prop with
       | POWER_SUPPLY_PROP_CAPACITY => Intval capacity
       | POWER_SUPPLY_PROP_CONSTANT_CHARGE_CURRENT_MAX => Intval fcc_ua
       | POWER_SUPPLY_PROP_CONSTANT_CHARGE_VOLTAGE_MAX => Intval fv_uv
       | _ => Enoprop EINVAL
       end |}.

(** Machines used below.  The pulse-count register read 20 at probe. *)

(** Nothing plugged, no peer registered. *)
Definition idle : machine := board (probed 20) [] [] None None.

(** An HVDCP3 charger raised to 9 V and then to 12 V. *)
Definition raised_12v : machine :=
  snd ((smb235x_set_hvdcp3_voltage 9000000 ;;
        smb235x_set_hvdcp3_voltage 12000000) idle).

(** A charger plugged in; the detection result register reads [apsd]. *)
Definition plugged_in (c : smb235x_chg_chip) (apsd : Z)
    (f : list (option errno)) (tcpm : option power_supply) : machine :=
  board c [plugged; (USB_APSP_RESULT_STATUS_REG, apsd)] f None tcpm.

(** A DCP charger plugged in after an HVDCP3 charger had been raised to
    12 V. *)
Definition dcp_after_hvdcp3 : machine :=
  snd (smb235x_set_hvdcp3_voltage 12000000
         (plugged_in (probed 20) DCP_CHARGER_BIT [] None)).

(** A DCP charger behind a Type-C port whose manager offers 900 mA,
    with and without the PD flag. *)
Definition dcp_pd : machine :=
  plugged_in (set_pd_active true (probed 20)) DCP_CHARGER_BIT []
    (Some (tcpm_typec 900000)).

Definition dcp_no_pd : machine :=
  plugged_in (probed 20) DCP_CHARGER_BIT [] (Some (tcpm_typec 900000)).

(** Both the Float and the DCP result bits set. *)
Definition float_and_dcp : machine :=
  plugged_in (probed 20) (Z.lor FLOAT_CHARGER_BIT DCP_CHARGER_BIT) [] None.

(** A DCP charger plugged in; the first, respectively the second, bus
    transfer fails with -EIO. *)
Definition power_path_fault : machine :=
  plugged_in (probed 20) DCP_CHARGER_BIT [Some EIO] None.

Definition result_fault : machine :=
  plugged_in (probed 20) DCP_CHARGER_BIT [None; Some EIO] None.

(** Nothing plugged, charger status as given. *)
Definition offline (status : Z) : machine :=
  board (probed 20) [(BATTERY_CHARGER_STATUS_1_REG, status)] [] None None.

(** No fuel gauge; the next bus transfer fails with -EIO. *)
Definition write_fault : machine := board (probed 20) [] [Some EIO] None None.

(** A fuel gauge asking for 3.0 A and 8.4 V; the next bus transfer
    fails with -EIO. *)
Definition gauged_write_fault : machine :=
  board (probed 20) [] [Some EIO] (Some (gauge 50 3000000 8400000)) None.

(** A fuel gauge reporting [capacity]. *)
Definition gauged (capacity : Z) : machine :=
  board (probed 20) [] [] (Some (gauge capacity 3250000 8800000)) None.

End Sample.

(** * The rest of the driver

    Initialisation, the interrupt handlers and the remaining property
    handlers of smb235x-charger.c. *)

Definition ENOMEM : errno := 12%positive.

(** The constants of smb235x-charger.h these functions use, parameters
    like those of [smb235x_reg]. *)
Class smb235x_reg_init := {
  CHGR_CFG2_REG : Z;
  SOC_BASED_RECHG_BIT : Z;
  CHARGER_INHIBIT_BIT : Z;
  CHGR_RCHG_SOC_THRESHOLD_CFG_REG : Z;
  CHGR_CHARGE_CURRENT_TERMINATION_CFG_REG : Z;
  CHARGE_INHIBIT_THRESHOLD_CFG_REG : Z;
  CHARGE_INHIBIT_THRESHOLD_MASK : Z;
  INHIBIT_ANALOG_VFLT_MINUS_100MV : Z;
  INHIBIT_ANALOG_VFLT_MINUS_200MV : Z;
  INHIBIT_ANALOG_VFLT_MINUS_400MV : Z;
  INHIBIT_ANALOG_VFLT_MINUS_600MV : Z;
  BATTERY_CHARGER_STATUS_2_REG : Z;
  BATTERY_CHARGER_STATUS_7_REG : Z;
  BAT_TEMP_STATUS_TOO_COLD_BIT : Z;
  BAT_TEMP_STATUS_TOO_HOT_BIT : Z;
  BAT_TEMP_STATUS_COLD_SOFT_BIT : Z;
  BAT_TEMP_STATUS_HOT_SOFT_BIT : Z;
  BATIF_INT_RT_STS_OFFSET_REG : Z;
  BAT_TERMINAL_MISSING_RT_STS_BIT : Z;
  BAT_THERM_OR_ID_MISSING_RT_STS_BIT : Z;
  DCDC_AICL_ICL_STATUS_REG : Z;
  USBIN_AICL_OPTIONS_CFG_REG : Z;
  USBIN_AICL_PERIODIC_RERUN_EN_BIT : Z;
  USBIN_AICL_EN_BIT : Z;
  USBIN_OPTIONS_2_CFG_REG : Z;
  FLOAT_OPTIONS_MASK : Z;
  FORCE_FLOAT_SDP_CFG_BIT : Z;
  SUSPEND_FLOAT_CFG_BIT : Z;
  FLOAT_DIS_CHGING_CFG_BIT : Z;
  FLOAT_SDP : Z;
  DISABLE_CHARGING : Z;
  SUSPEND_INPUT : Z;
  MISC_WD_CFG_REG : Z;
  BARK_WDOG_INT_EN_BIT : Z;
  WDOG_TIMER_EN_ON_PLUGIN_BIT : Z;
  MISC_BARK_BITE_WDOG_PET_REG : Z;
  BARK_BITE_WDOG_PET_BIT : Z
}.

(** The charge-type and health values of linux/power_supply.h. *)
Class power_supply_abi_batt := {
  POWER_SUPPLY_CHARGE_TYPE_NONE : Z;
  POWER_SUPPLY_CHARGE_TYPE_TRICKLE : Z;
  POWER_SUPPLY_CHARGE_TYPE_FAST : Z;
  POWER_SUPPLY_CHARGE_TYPE_TAPER : Z;
  POWER_SUPPLY_HEALTH_GOOD : Z;
  POWER_SUPPLY_HEALTH_OVERHEAT : Z;
  POWER_SUPPLY_HEALTH_COLD : Z;
  POWER_SUPPLY_HEALTH_COOL : Z;
  POWER_SUPPLY_HEALTH_WARM : Z
}.

(** irqreturn_t, as far as the handlers use it. *)
Inductive irqreturn_t : Type := IRQ_NONE | IRQ_HANDLED.

(** The supplies the driver registers, [chip->batt_psy] and
    [chip->usb_psy]: the argument of power_supply_changed. *)
Inductive own_supply : Type := batt_psy | usb_psy.

(** What a handler gives back: its return value and the
    power_supply_changed calls it made, oldest first. *)
Definition irq_result : Type := (irqreturn_t * list own_supply)%type.

(** The index of smb235x_irqs (lines 621-728). *)
Inductive smb235x_irq_index : Type :=
  | CHRG_ERROR_IRQ | CHGR_STATE_CHANGE_IRQ
  | OTG_FAIL_IRQ | INPUT_CURRENT_LIMITING_IRQ
  | BAT_TEMP_IRQ | BAT_OV_IRQ | BAT_LOW_IRQ
  | BAT_THERM_OR_ID_MISSING_IRQ | BAT_TERMINAL_MISSING_IRQ
  | USBIN_COLLAPSE_IRQ | USBIN_VASHDN_IRQ | USBIN_UV_IRQ | USBIN_OV_IRQ
  | USBIN_PLUGIN_IRQ | USBIN_SRC_CHANGE_IRQ | USBIN_ICL_CHANGE_IRQ
  | AICL_DONE_IRQ | TEMP_CHANGE_IRQ | WDOG_BARK_IRQ.

(** struct smb235x_dt_props without the name of the tcpm supply, which
    only smb235x_init_psy reads. *)
Record smb235x_dt_props : Type := {
  dt_trickle_charge_current_ua : Z;
  dt_max_pre_charge_current_ua : Z;
  dt_pre_charge_current_ua : Z;
  dt_fast_charge_current_ua : Z;
  dt_max_fcc_ua : Z;
  dt_max_fv_uv : Z;
  dt_termination_current_ua : Z;
  dt_auto_recharge_soc : Z;
  dt_float_option : Z;
  dt_chg_inhibit_thr_uv : Z
}.

(** The chip with its eight configuration values replaced. *)
Definition set_config (trickle max_pre pre term fv fcc max_fcc soc : Z)
    (c : smb235x_chg_chip) : smb235x_chg_chip :=
  {| bms_psy := bms_psy c; tcpm_psy := tcpm_psy c;
     trickle_charge_current_ua := trickle;
     max_pre_charge_current_ua := max_pre;
     pre_charge_current_ua := pre;
     termination_current_ua := term;
     float_volt_uv := fv; fastchg_curr_ua := fcc;
     max_fcc_ua := max_fcc; sdp_icl_ua := sdp_icl_ua c;
     charger_type := charger_type c; usb_type := usb_type c;
     auto_recharge_soc := soc;
     hvdcp_pulse_count_max := hvdcp_pulse_count_max c;
     hvdcp3_voltage_uv := hvdcp3_voltage_uv c;
     based_hvdcp_voltage_uv := based_hvdcp_voltage_uv c;
     pd_active := pd_active c |}.

From Stdlib Require String.

Module DeviceTree.

Import String.
Local Open Scope string_scope.

(** The device node as the driver reads it: of_property_read_u32
    ([None]: the call fails) and of_property_read_string. *)
Record device_node : Type := {
  of_property_read_u32 : string -> option Z;
  of_property_read_string : string -> errno + string
}.

(** [chip->dt.x = -EINVAL; rc = of_property_read_u32(node, name,
    &chip->dt.x);]: the u32 read lands in an [int]. *)
Definition read_int (node : device_node) (name : string) : Z :=
  match of_property_read_u32 node name with
  | Some v => wrap_int v
  | None => Z.neg EINVAL
  end.

(** [if (!rc) chip->x = chip->dt.x;] over the default of [chip->x]. *)
Definition read_over (node : device_node) (name : string) (default : Z) : Z :=
  match of_property_read_u32 node name with
  | Some v => wrap_int v
  | None => default
  end.

(** smb235x_parse_dt (lines 730-815): the result code, the chip and
    [chip->dt].  [alloc] tells whether devm_kzalloc gives memory; the
    structure was zeroed by the allocation in smb235x_probe. *)
Definition smb235x_parse_dt (node : device_node) (alloc : bool)
    (c : smb235x_chg_chip) : Z * (smb235x_chg_chip * smb235x_dt_props) :=
  let zero :=
    {| dt_trickle_charge_current_ua := 0; dt_max_pre_charge_current_ua := 0;
       dt_pre_charge_current_ua := 0; dt_fast_charge_current_ua := 0;
       dt_max_fcc_ua := 0; dt_max_fv_uv := 0; dt_termination_current_ua := 0;
       dt_auto_recharge_soc := 0; dt_float_option := 0;
       dt_chg_inhibit_thr_uv := 0 |} in
  if negb alloc then
    (Z.neg ENOMEM,
     (set_config 50000 1000000 750000 (-325000) 8800000 3250000 3250000 98 c, zero))
  else
  let c' :=
    set_config
      (read_over node "qcom,trickle-current-ua" 50000)
      (read_over node "qcom,max-precharge-current-ua" 1000000)
      (read_over node "qcom,precharge-current-ua" 750000)
      (read_over node "qcom,termination-current-ma" (-325000))
      (read_over node "qcom,fv-max-uv" 8800000)
      (read_over node "qcom,fast-charge-current-ua" 3250000)
      (read_over node "qcom,fcc-max-ua" 3250000)
      (read_over node "qcom,auto-recharge-soc" 98) c in
  let dt :=
    {| dt_trickle_charge_current_ua := read_int node "qcom,trickle-current-ua";
       dt_max_pre_charge_current_ua := read_int node "qcom,max-precharge-current-ua";
       dt_pre_charge_current_ua := read_int node "qcom,precharge-current-ua";
       dt_fast_charge_current_ua := read_int node "qcom,fast-charge-current-ua";
       dt_max_fcc_ua := read_int node "qcom,fcc-max-ua";
       dt_max_fv_uv := read_int node "qcom,fv-max-uv";
       dt_termination_current_ua := read_int node "qcom,termination-current-ma";
       dt_auto_recharge_soc := read_int node "qcom,auto-recharge-soc";
       dt_float_option := read_int node "qcom,float-option";
       dt_chg_inhibit_thr_uv := read_int node "qcom,chg-inhibit-threshold-mv" |} in
  match of_property_read_string node "tcpm-psy-name" with
  | inl e => (Z.neg e, (c', dt))
  | inr _ => (0, (c', dt))
  end.

(** A node that sets the float voltage, the recharge threshold left
    out, and names the tcpm supply. *)
Definition sample_node : device_node :=
  {| of_property_read_u32 := fun name =>
       if String.eqb name "qcom,fv-max-uv" then Some 8400000
       else if String.eqb name "qcom,chg-inhibit-threshold-mv" then Some 100
       else None;
     of_property_read_string := fun name =>
       if String.eqb name "tcpm-psy-name" then inr "tcpm0" else inl EINVAL |}.

(** The same node without the name of the tcpm supply. *)
Definition nameless_node : device_node :=
  {| of_property_read_u32 := of_property_read_u32 sample_node;
     of_property_read_string := fun _ => inl EINVAL |}.

End DeviceTree.

Section DriverRest.

Context {R : smb235x_reg} {P : power_supply_abi}.
Context {R' : smb235x_reg_init} {P' : power_supply_abi_batt}.

(** smb235x_enable_charge (lines 131-142). *)
Definition smb235x_enable_charge (enable : bool) : M Z :=
  let val := to_u8 (if enable then CHARGING_ENABLE_BIT else 0) in
  regmap_update_bits CHARGING_ENABLE_CMD_REG CHARGING_ENABLE_BIT val.

(** smb235x_chg_state_change_irq_handler (lines 302-324). *)
Definition smb235x_chg_state_change_irq_handler : M irq_result :=
  '(rc, stat) <- regmap_read BATTERY_CHARGER_STATUS_1_REG ;;
  if rc <? 0 then ret (IRQ_NONE, []) else
  ret (IRQ_HANDLED, [batt_psy]).

(** smb235x_charge_err_irq_handler (lines 326-349); the status bits
    only choose what is logged. *)
Definition smb235x_charge_err_irq_handler : M irq_result :=
  '(rc, stat) <- regmap_read BATTERY_CHARGER_STATUS_2_REG ;;
  if rc <? 0 then ret (IRQ_NONE, []) else
  ret (IRQ_HANDLED, []).

(** smb235x_default_irq_handler (lines 351-359),
    smb235x_usbin_uv_irq_handler and smb235x_usbin_ov_irq_handler
    (lines 383-401). *)
Definition smb235x_default_irq_handler : M irq_result :=
  ret (IRQ_HANDLED, []).

Definition smb235x_usbin_uv_irq_handler : M irq_result :=
  ret (IRQ_HANDLED, []).

Definition smb235x_usbin_ov_irq_handler : M irq_result :=
  ret (IRQ_HANDLED, []).

(** smb235x_batt_temp_changed_irq_handler and
    smb235x_batt_psy_changed_irq_handler (lines 361-381). *)
Definition smb235x_batt_temp_changed_irq_handler : M irq_result :=
  ret (IRQ_HANDLED, [batt_psy]).

Definition smb235x_batt_psy_changed_irq_handler : M irq_result :=
  ret (IRQ_HANDLED, [batt_psy]).

(** smb235x_usb_plugin_irq_handler (lines 403-440). *)
Definition smb235x_usb_plugin_irq_handler : M irq_result :=
  '(rc, stat) <- regmap_read USB_INT_RT_STS_OFFSET_REG ;;
  if rc <? 0 then ret (IRQ_NONE, []) else
  let vbus_rising := truthy (Z.land stat USBIN_PLUGIN_RT_STS_BIT) in
  rc <- (if vbus_rising then smb235x_enable_charge true
         else smb235x_enable_charge false) ;;
  if rc <? 0 then ret (IRQ_HANDLED, []) else
  ret (IRQ_HANDLED, [usb_psy]).

(** smb235x_usb_source_change_irq_handler (lines 561-583). *)
Definition smb235x_usb_source_change_irq_handler : M irq_result :=
  '(rc, stat) <- regmap_read USB_APSD_STATUS_REG ;;
  if rc <? 0 then ret (IRQ_NONE, []) else
  smb235x_handle_apsd_done (truthy (Z.land stat APSD_DTC_STATUS_DONE_BIT)) ;;
  ret (IRQ_HANDLED, [usb_psy]).

(** smb235x_wdog_bark_irq_handler (lines 585-599). *)
Definition smb235x_wdog_bark_irq_handler : M irq_result :=
  _ <- regmap_write MISC_BARK_BITE_WDOG_PET_REG BARK_BITE_WDOG_PET_BIT ;;
  ret (IRQ_HANDLED, []).

(** smb235x_aicl_done_irq_handler (lines 601-619). *)
Definition smb235x_aicl_done_irq_handler : M irq_result :=
  '(rc, stat) <- regmap_read DCDC_AICL_ICL_STATUS_REG ;;
  if rc <? 0 then ret (IRQ_NONE, []) else
  ret (IRQ_HANDLED, []).

(** The [.handler] and [.wake] members of smb235x_irqs (lines 621-728). *)
Definition smb235x_irqs_handler (i : smb235x_irq_index) : M irq_result :=
  match i with
  | CHRG_ERROR_IRQ => smb235x_charge_err_irq_handler
  | CHGR_STATE_CHANGE_IRQ => smb235x_chg_state_change_irq_handler
  | OTG_FAIL_IRQ => smb235x_default_irq_handler
  | INPUT_CURRENT_LIMITING_IRQ => smb235x_default_irq_handler
  | BAT_TEMP_IRQ => smb235x_batt_temp_changed_irq_handler
  | BAT_OV_IRQ => smb235x_batt_psy_changed_irq_handler
  | BAT_LOW_IRQ => smb235x_batt_psy_changed_irq_handler
  | BAT_THERM_OR_ID_MISSING_IRQ => smb235x_batt_psy_changed_irq_handler
  | BAT_TERMINAL_MISSING_IRQ => smb235x_batt_psy_changed_irq_handler
  | USBIN_COLLAPSE_IRQ => smb235x_default_irq_handler
  | USBIN_VASHDN_IRQ => smb235x_default_irq_handler
  | USBIN_UV_IRQ => smb235x_usbin_uv_irq_handler
  | USBIN_OV_IRQ => smb235x_usbin_ov_irq_handler
  | USBIN_PLUGIN_IRQ => smb235x_usb_plugin_irq_handler
  | USBIN_SRC_CHANGE_IRQ => smb235x_usb_source_change_irq_handler
  | USBIN_ICL_CHANGE_IRQ => smb235x_default_irq_handler
  | AICL_DONE_IRQ => smb235x_aicl_done_irq_handler
  | TEMP_CHANGE_IRQ => smb235x_default_irq_handler
  | WDOG_BARK_IRQ => smb235x_wdog_bark_irq_handler
  end.

Definition smb235x_irqs_wake (i : smb235x_irq_index) : bool :=
  match i with
  | CHGR_STATE_CHANGE_IRQ | BAT_TEMP_IRQ | USBIN_UV_IRQ | USBIN_PLUGIN_IRQ
  | USBIN_SRC_CHANGE_IRQ | USBIN_ICL_CHANGE_IRQ | WDOG_BARK_IRQ => true
  | _ => false
  end.

(** smb235x_config_aicl (lines 873-887). *)
Definition smb235x_config_aicl : M Z :=
  let mask := to_u8 (Z.lor USBIN_AICL_PERIODIC_RERUN_EN_BIT USBIN_AICL_EN_BIT) in
  let val := mask in
  regmap_update_bits USBIN_AICL_OPTIONS_CFG_REG mask val.

(** smb235x_enable_watchdog (lines 889-901). *)
Definition smb235x_enable_watchdog : M Z :=
  let val := to_u8 (Z.lor BARK_WDOG_INT_EN_BIT WDOG_TIMER_EN_ON_PLUGIN_BIT) in
  regmap_update_bits MISC_WD_CFG_REG
    (Z.lor BARK_WDOG_INT_EN_BIT WDOG_TIMER_EN_ON_PLUGIN_BIT) val.

(** smb235x_config_charge_termination (lines 903-917); [reg_val] is an
    [int] passed as the unsigned value of regmap_write. *)
Definition smb235x_config_charge_termination : M Z :=
  c <- get_chip ;;
  let reg_val := termination_current_ua c // MICRO_TO_MILLI // CURRENT_STEP_MA in
  regmap_write CHGR_CHARGE_CURRENT_TERMINATION_CFG_REG (to_u32 reg_val).

(** smb235x_config_recharge (lines 919-938): the threshold written is
    [chip->dt.auto_recharge_soc]. *)
Definition smb235x_config_recharge (dt : smb235x_dt_props) : M Z :=
  rc <- regmap_update_bits CHGR_CFG2_REG SOC_BASED_RECHG_BIT 1 ;;
  if rc <? 0 then ret rc else
  rc <- regmap_write CHGR_RCHG_SOC_THRESHOLD_CFG_REG (to_u32 (dt_auto_recharge_soc dt)) ;;
  if rc <? 0 then ret rc else
  ret rc.

(** smb235x_config_float_charge (lines 940-969). *)
Definition smb235x_config_float_charge (dt : smb235x_dt_props) : M Z :=
  if dt_float_option dt =? Z.neg EINVAL then ret 0 else
  let o := dt_float_option dt in
  if o =? FLOAT_SDP then
    regmap_update_bits USBIN_OPTIONS_2_CFG_REG FLOAT_OPTIONS_MASK
      (to_u8 FORCE_FLOAT_SDP_CFG_BIT)
  else if o =? DISABLE_CHARGING then
    regmap_update_bits USBIN_OPTIONS_2_CFG_REG FLOAT_OPTIONS_MASK
      (to_u8 SUSPEND_FLOAT_CFG_BIT)
  else if o =? SUSPEND_INPUT then
    regmap_update_bits USBIN_OPTIONS_2_CFG_REG FLOAT_OPTIONS_MASK
      (to_u8 FLOAT_DIS_CHGING_CFG_BIT)
  else ret 0.

(** The [switch (chg_inhibit_thr_mv)] of smb235x_config_inhibit. *)
Definition inhibit_threshold_code (chg_inhibit_thr_mv : Z) : option Z :=
  if chg_inhibit_thr_mv =? 100 then Some (to_u8 INHIBIT_ANALOG_VFLT_MINUS_100MV)
  else if chg_inhibit_thr_mv =? 200 then Some (to_u8 INHIBIT_ANALOG_VFLT_MINUS_200MV)
  else if chg_inhibit_thr_mv =? 400 then Some (to_u8 INHIBIT_ANALOG_VFLT_MINUS_400MV)
  else if chg_inhibit_thr_mv =? 600 then Some (to_u8 INHIBIT_ANALOG_VFLT_MINUS_600MV)
  else None.

(** smb235x_config_inhibit (lines 971-1013). *)
Definition smb235x_config_inhibit (dt : smb235x_dt_props) : M Z :=
  if dt_chg_inhibit_thr_uv dt =? Z.neg EINVAL then ret 0 else
  rc <- regmap_update_bits CHGR_CFG2_REG CHARGER_INHIBIT_BIT
          (if truthy (dt_chg_inhibit_thr_uv dt) then CHARGER_INHIBIT_BIT else 0) ;;
  if rc <? 0 then ret rc else
  let chg_inhibit_thr_mv := dt_chg_inhibit_thr_uv dt // MICRO_TO_MILLI in
  match inhibit_threshold_code chg_inhibit_thr_mv with
  | None => ret (Z.neg EINVAL)
  | Some val =>
      regmap_update_bits CHARGE_INHIBIT_THRESHOLD_CFG_REG
        CHARGE_INHIBIT_THRESHOLD_MASK val
  end.

(** smb235x_chg_init (lines 1015-1074). *)
Definition smb235x_chg_init (dt : smb235x_dt_props) : M Z :=
  rc <- smb235x_config_chg_current_voltage ;;
  if rc <? 0 then ret rc else
  rc <- smb235x_enable_apsd ;;
  if rc <? 0 then ret rc else
  rc <- smb235x_config_aicl ;;
  if rc <? 0 then ret rc else
  rc <- smb235x_enable_watchdog ;;
  if rc <? 0 then ret rc else
  rc <- smb235x_config_charge_termination ;;
  if rc <? 0 then ret rc else
  rc <- smb235x_config_recharge dt ;;
  if rc <? 0 then ret rc else
  rc <- smb235x_config_float_charge dt ;;
  if rc <? 0 then ret rc else
  rc <- smb235x_config_inhibit dt ;;
  if rc <? 0 then ret rc else
  rc <- smb235x_enable_charge true ;;
  if rc <? 0 then ret rc else
  ret rc.

(** smb235x_set_prop_usb_input_current_limit (lines 1308-1320): the
    milliampere value is held in a [u8]. *)
Definition smb235x_set_prop_usb_input_current_limit (intval : Z) : M Z :=
  let icl_ma := to_u8 (intval // MICRO_TO_MILLI) in
  smb235x_set_icl_sw icl_ma.

(** smb235x_set_prop_usb_voltage_now (lines 1322-1337). *)
Definition smb235x_set_prop_usb_voltage_now (intval : Z) : M Z :=
  c <- get_chip ;;
  (if charger_type c =? POWER_SUPPLY_TYPE_USB_HVDCP_3
   then _ <- smb235x_set_hvdcp3_voltage intval ;; ret tt
   else ret tt) ;;
  ret 0.

(** smb235x_usb_set_prop (lines 1339-1364). *)
Definition smb235x_usb_set_prop (prop : power_supply_property) (intval : Z) : M Z :=
  match prop with
  | POWER_SUPPLY_PROP_CURRENT_MAX =>
      smb235x_set_prop_usb_input_current_limit intval
  | POWER_SUPPLY_PROP_VOLTAGE_NOW =>
      smb235x_set_prop_usb_voltage_now intval
  | POWER_SUPPLY_PROP_SDP_CURRENT_MAX =>
      update_chip (set_sdp_icl_ua intval) ;;
      smb235x_set_prop_usb_input_current_limit intval
  | _ => ret (Z.neg EINVAL)
  end.

(** smb235x_usb_prop_is_writeable (lines 1366-1379). *)
Definition smb235x_usb_prop_is_writeable (psp : power_supply_property) : Z :=
  match psp with
  | POWER_SUPPLY_PROP_CURRENT_MAX
  | POWER_SUPPLY_PROP_VOLTAGE_NOW
  | POWER_SUPPLY_PROP_SDP_CURRENT_MAX => 1
  | _ => 0
  end.

(** smb235x_usb_props (lines 1381-1391), the properties the usb supply
    advertises. *)
Definition smb235x_usb_props : list power_supply_property :=
  [ POWER_SUPPLY_PROP_PRESENT; POWER_SUPPLY_PROP_ONLINE;
    POWER_SUPPLY_PROP_CURRENT_MAX; POWER_SUPPLY_PROP_VOLTAGE_MAX;
    POWER_SUPPLY_PROP_VOLTAGE_NOW; POWER_SUPPLY_PROP_CURRENT_NOW;
    POWER_SUPPLY_PROP_SDP_CURRENT_MAX; POWER_SUPPLY_PROP_USB_TYPE;
    POWER_SUPPLY_PROP_REAL_TYPE ].

(** smb235x_get_prop_batt_present (lines 1432-1448). *)
Definition smb235x_get_prop_batt_present (val : Z) : M (Z * Z) :=
  '(rc, stat) <- regmap_read BATIF_INT_RT_STS_OFFSET_REG ;;
  if rc <? 0 then ret (rc, val) else
  ret (rc, lognot (Z.land stat (Z.lor BAT_TERMINAL_MISSING_RT_STS_BIT
                                      BAT_THERM_OR_ID_MISSING_RT_STS_BIT))).

(** smb235x_get_prop_batt_charge_type (lines 1450-1479). *)
Definition smb235x_get_prop_batt_charge_type (val : Z) : M (Z * Z) :=
  '(rc, stat) <- regmap_read BATTERY_CHARGER_STATUS_1_REG ;;
  if rc <? 0 then ret (rc, val) else
  let s := Z.land stat BATTERY_CHARGER_STATUS_MASK in
  if (s =? TRICKLE_CHARGE) || (s =? PRE_CHARGE)
  then ret (rc, POWER_SUPPLY_CHARGE_TYPE_TRICKLE)
  else if s =? FULLON_CHARGE then ret (rc, POWER_SUPPLY_CHARGE_TYPE_FAST)
  else if s =? TAPER_CHARGE then ret (rc, POWER_SUPPLY_CHARGE_TYPE_TAPER)
  else ret (rc, POWER_SUPPLY_CHARGE_TYPE_NONE).

(** smb235x_get_prop_batt_health (lines 1481-1505). *)
Definition smb235x_get_prop_batt_health (val : Z) : M (Z * Z) :=
  '(rc, stat) <- regmap_read BATTERY_CHARGER_STATUS_7_REG ;;
  if rc <? 0 then ret (rc, val) else
  if truthy (Z.land stat BAT_TEMP_STATUS_TOO_COLD_BIT)
  then ret (rc, POWER_SUPPLY_HEALTH_COLD)
  else if truthy (Z.land stat BAT_TEMP_STATUS_TOO_HOT_BIT)
  then ret (rc, POWER_SUPPLY_HEALTH_OVERHEAT)
  else if truthy (Z.land stat BAT_TEMP_STATUS_COLD_SOFT_BIT)
  then ret (rc, POWER_SUPPLY_HEALTH_COOL)
  else if truthy (Z.land stat BAT_TEMP_STATUS_HOT_SOFT_BIT)
  then ret (rc, POWER_SUPPLY_HEALTH_WARM)
  else ret (rc, POWER_SUPPLY_HEALTH_GOOD).

(** smb235x_batt_get_prop (lines 1566-1626). *)
Definition smb235x_batt_get_prop (prop : power_supply_property) (pval : Z)
    : M (Z * Z) :=
  let finish (r : Z * Z) : M (Z * Z) :=
    if fst r <? 0 then ret (Z.neg ENODATA, snd r) else ret (0, snd r) in
  match prop with
  | POWER_SUPPLY_PROP_PRESENT =>
      r <- smb235x_get_prop_batt_present pval ;; finish r
  | POWER_SUPPLY_PROP_STATUS =>
      r <- smb235x_get_prop_battery_status pval ;; finish r
  | POWER_SUPPLY_PROP_CHARGE_TYPE =>
      r <- smb235x_get_prop_batt_charge_type pval ;; finish r
  | POWER_SUPPLY_PROP_HEALTH =>
      r <- smb235x_get_prop_from_bms prop pval ;;
      if fst r <? 0 then
        r' <- smb235x_get_prop_batt_health (snd r) ;; finish r'
      else finish r
  | POWER_SUPPLY_PROP_TEMP
  | POWER_SUPPLY_PROP_VOLTAGE_NOW
  | POWER_SUPPLY_PROP_CURRENT_NOW
  | POWER_SUPPLY_PROP_CAPACITY =>
      r <- smb235x_get_prop_from_bms prop pval ;; finish r
  | POWER_SUPPLY_PROP_VOLTAGE_MAX =>
      c <- get_chip ;; finish (0, float_volt_uv c)
  | POWER_SUPPLY_PROP_CURRENT_MAX =>
      c <- get_chip ;; finish (0, fastchg_curr_ua c)
  | POWER_SUPPLY_PROP_CONSTANT_CHARGE_CURRENT_MAX =>
      r <- smb235x_get_prop_from_bms prop pval ;;
      c <- get_chip ;;
      finish (fst r, if fst r <? 0 then fastchg_curr_ua c else snd r)
  | POWER_SUPPLY_PROP_CONSTANT_CHARGE_VOLTAGE_MAX =>
      r <- smb235x_get_prop_from_bms prop pval ;;
      c <- get_chip ;;
      finish (fst r, if fst r <? 0 then float_volt_uv c else snd r)
  | POWER_SUPPLY_PROP_CHARGE_TERM_CURRENT =>
      c <- get_chip ;; finish (0, termination_current_ua c)
  | _ => finish (0, pval)
  end.

(** smb235x_batt_prop_is_writeable (lines 1699-1711). *)
Definition smb235x_batt_prop_is_writeable (psp : power_supply_property) : Z :=
  match psp with
  | POWER_SUPPLY_PROP_CONSTANT_CHARGE_VOLTAGE_MAX
  | POWER_SUPPLY_PROP_CONSTANT_CHARGE_CURRENT_MAX => 1
  | _ => 0
  end.

(** smb235x_batt_props (lines 1713-1727), the properties the battery
    supply advertises. *)
Definition smb235x_batt_props : list power_supply_property :=
  [ POWER_SUPPLY_PROP_PRESENT; POWER_SUPPLY_PROP_STATUS;
    POWER_SUPPLY_PROP_CHARGE_TYPE; POWER_SUPPLY_PROP_HEALTH;
    POWER_SUPPLY_PROP_TEMP; POWER_SUPPLY_PROP_VOLTAGE_MAX;
    POWER_SUPPLY_PROP_VOLTAGE_NOW; POWER_SUPPLY_PROP_CURRENT_MAX;
    POWER_SUPPLY_PROP_CURRENT_NOW;
    POWER_SUPPLY_PROP_CONSTANT_CHARGE_CURRENT_MAX;
    POWER_SUPPLY_PROP_CONSTANT_CHARGE_VOLTAGE_MAX;
    POWER_SUPPLY_PROP_CAPACITY; POWER_SUPPLY_PROP_CHARGE_TERM_CURRENT ].

(** ** Vocabulary of the statements *)

(** The temperature bits of the charger status in the order
    smb235x_get_prop_batt_health tests them, each with the health it
    stands for. *)
Definition batt_health_table : list (Z * Z) :=
  [ (BAT_TEMP_STATUS_TOO_COLD_BIT, POWER_SUPPLY_HEALTH_COLD);
    (BAT_TEMP_STATUS_TOO_HOT_BIT, POWER_SUPPLY_HEALTH_OVERHEAT);
    (BAT_TEMP_STATUS_COLD_SOFT_BIT, POWER_SUPPLY_HEALTH_COOL);
    (BAT_TEMP_STATUS_HOT_SOFT_BIT, POWER_SUPPLY_HEALTH_WARM) ].

(** The value of the first entry of a table whose bit is set in
    [stat], or [default] when none is. *)
Definition first_matching (stat : Z) (table : list (Z * Z)) (default : Z) : Z :=
  match find (fun e => truthy (Z.land stat (fst e))) table with
  | Some e => snd e
  | None => default
  end.

(** A transfer that cannot change a register. *)
Definition is_read (op : bus_op) : bool :=
  match op with
  | RegRead _ => true
  | _ => false
  end.

(** From [m] to [m'] the register file stayed as it was and the
    transfers made were reads. *)
Definition quiet (m m' : machine) : Prop :=
  regs (bus m') = regs (bus m) /\
  exists ops, log (bus m') = ops ++ log (bus m) /\ forallb is_read ops = true.

(** A computation that is quiet from every machine. *)
Definition read_only {A : Type} (c : M A) : Prop :=
  forall m, quiet m (snd (c m)).

(** A computation whose result satisfies [Q] from every machine. *)
Definition returns {A : Type} (c : M A) (Q : A -> Prop) : Prop :=
  forall m, Q (fst (c m)).

(** The outcomes a computation consumed from [m] to [m'] were all
    successes: no failed transfer lies between the two machines. *)
Definition clean_run (m m' : machine) : Prop :=
  exists l,
    log (bus m') = l ++ log (bus m) /\
    faults (bus m') = skipn (length l) (faults (bus m)) /\
    Forall (fun o => o = None) (firstn (length l) (faults (bus m))).

(** A computation that does not return success past a failed
    transfer. *)
Definition fail_fast (c : M Z) : Prop :=
  forall m, 0 <= fst (c m) -> clean_run m (snd (c m)).

(** The registers of the fast-charge current and of the float voltage
    hold the codes of the two cached limits. *)
Definition cache_programmed (m : machine) : Prop :=
  regs (bus m) CHGR_FAST_CHARGE_CURRENT_CFG_REG =
    to_u8 (fastchg_curr_ua (chip m) // MICRO_TO_MILLI // CURRENT_STEP_MA + 1) /\
  regs (bus m) CHGR_FLOAT_VOLTAGE_CFG_REG =
    to_u8 ((float_volt_uv (chip m) // MICRO_TO_MILLI - FLOAT_VOLTAGE_BASE_MV)
           // FLOAT_VOLTAGE_STEP_MV).

(** The handlers that start by reading a status register. *)
Definition reads_status_first (i : smb235x_irq_index) : bool :=
  match i with
  | CHRG_ERROR_IRQ | CHGR_STATE_CHANGE_IRQ | USBIN_PLUGIN_IRQ
  | USBIN_SRC_CHANGE_IRQ | AICL_DONE_IRQ => true
  | _ => false
  end.

End DriverRest.

Module SampleInit.

#[export] Instance reg_init : smb235x_reg_init := {|
  CHGR_CFG2_REG := 0x2651;
  SOC_BASED_RECHG_BIT := 2;
  CHARGER_INHIBIT_BIT := 1;
  CHGR_RCHG_SOC_THRESHOLD_CFG_REG := 0x2656;
  CHGR_CHARGE_CURRENT_TERMINATION_CFG_REG := 0x2655;
  CHARGE_INHIBIT_THRESHOLD_CFG_REG := 0x2657;
  CHARGE_INHIBIT_THRESHOLD_MASK := 3;
  INHIBIT_ANALOG_VFLT_MINUS_100MV := 0;
  INHIBIT_ANALOG_VFLT_MINUS_200MV := 1;
  INHIBIT_ANALOG_VFLT_MINUS_400MV := 2;
  INHIBIT_ANALOG_VFLT_MINUS_600MV := 3;
  BATTERY_CHARGER_STATUS_2_REG := 0x2607;
  BATTERY_CHARGER_STATUS_7_REG := 0x260C;
  BAT_TEMP_STATUS_TOO_COLD_BIT := 8;
  BAT_TEMP_STATUS_TOO_HOT_BIT := 4;
  BAT_TEMP_STATUS_COLD_SOFT_BIT := 2;
  BAT_TEMP_STATUS_HOT_SOFT_BIT := 1;
  BATIF_INT_RT_STS_OFFSET_REG := 0x2810;
  BAT_TERMINAL_MISSING_RT_STS_BIT := 32;
  BAT_THERM_OR_ID_MISSING_RT_STS_BIT := 16;
  DCDC_AICL_ICL_STATUS_REG := 0x2708;
  USBIN_AICL_OPTIONS_CFG_REG := 0x2980;
  USBIN_AICL_PERIODIC_RERUN_EN_BIT := 16;
  USBIN_AICL_EN_BIT := 4;
  USBIN_OPTIONS_2_CFG_REG := 0x2963;
  FLOAT_OPTIONS_MASK := 7;
  FORCE_FLOAT_SDP_CFG_BIT := 4;
  SUSPEND_FLOAT_CFG_BIT := 2;
  FLOAT_DIS_CHGING_CFG_BIT := 1;
  FLOAT_SDP := 1;
  DISABLE_CHARGING := 2;
  SUSPEND_INPUT := 3;
  MISC_WD_CFG_REG := 0x2A51;
  BARK_WDOG_INT_EN_BIT := 64;
  WDOG_TIMER_EN_ON_PLUGIN_BIT := 2;
  MISC_BARK_BITE_WDOG_PET_REG := 0x2A43;
  BARK_BITE_WDOG_PET_BIT := 1
|}.

#[export] Instance abi_batt : power_supply_abi_batt := {|
  POWER_SUPPLY_CHARGE_TYPE_NONE := 1;
  POWER_SUPPLY_CHARGE_TYPE_TRICKLE := 2;
  POWER_SUPPLY_CHARGE_TYPE_FAST := 3;
  POWER_SUPPLY_CHARGE_TYPE_TAPER := 4;
  POWER_SUPPLY_HEALTH_GOOD := 1;
  POWER_SUPPLY_HEALTH_OVERHEAT := 2;
  POWER_SUPPLY_HEALTH_COLD := 6;
  POWER_SUPPLY_HEALTH_COOL := 9;
  POWER_SUPPLY_HEALTH_WARM := 8
|}.

Import Sample.

(** A Type-C port manager under a PD contract: the usb type it reports
    is not the generic Type-C one. *)
Definition tcpm_pd (current_max voltage_now : Z) : power_supply :=
  {| get_property := fun prop =>
       match prop with
       | POWER_SUPPLY_PROP_USB_TYPE => Intval 6
       | POWER_SUPPLY_PROP_CURRENT_MAX => Intval current_max
       | POWER_SUPPLY_PROP_VOLTAGE_NOW => Intval voltage_now
       | _ => Enoprop EINVAL
       end |}.

(** A port manager that reports its usb type and nothing else. *)
Definition tcpm_type_only : power_supply :=
  {| get_property := fun prop =>
       match prop with
       | POWER_SUPPLY_PROP_USB_TYPE => Intval 6
       | _ => Enoprop EINVAL
       end |}.

(** A DCP charger plugged in, no peer, no fault. *)
Definition dcp_plain : machine := plugged_in (probed 20) DCP_CHARGER_BIT [] None.

(** A PD contract of 2 A at 9 V, the PD flag set or not yet set. *)
Definition pd_contract : machine :=
  plugged_in (set_pd_active true (probed 20)) DCP_CHARGER_BIT []
    (Some (tcpm_pd 2000000 9000000)).

Definition pd_announced : machine :=
  plugged_in (probed 20) DCP_CHARGER_BIT [] (Some (tcpm_pd 2000000 9000000)).

Definition pd_type_only : machine :=
  plugged_in (probed 20) DCP_CHARGER_BIT [] (Some tcpm_type_only).

(** An HVDCP charger online; the read of the QC status fails with
    -EIO. *)
Definition hvdcp2_read_fault : machine :=
  board (set_types POWER_SUPPLY_TYPE_USB_HVDCP POWER_SUPPLY_USB_TYPE_DCP (probed 20))
    [plugged] [None; Some EIO] None None.

(** A fuel gauge asking for 3.0 A and 8.4 V while the caches hold the
    defaults; no fault. *)
Definition gauge_behind : machine :=
  board (probed 20) [] [] (Some (gauge 50 3000000 8400000)) None.

(** The same with the two registers holding the codes of the defaults
    and the outcomes [f] to come. *)
Definition programmed (f : list (option errno)) : machine :=
  board (probed 20)
    [(CHGR_FAST_CHARGE_CURRENT_CFG_REG, 66); (CHGR_FLOAT_VOLTAGE_CFG_REG, 80)]
    f (Some (gauge 50 3000000 8400000)) None.

(** The plug-in bit set; the outcomes [f] to come. *)
Definition vbus_present (f : list (option errno)) : machine :=
  board (probed 20) [(USB_INT_RT_STS_OFFSET_REG, 16)] f None None.

(** The temperature status reads too hot and warm. *)
Definition overheated : machine :=
  board (probed 20) [(BATTERY_CHARGER_STATUS_7_REG, 5)] [] None None.

(** The thermistor is reported missing. *)
Definition therm_missing : machine :=
  board (probed 20) [(BATIF_INT_RT_STS_OFFSET_REG, 16)] [] None None.

(** The pulse limit register reads 0x54; detection was done. *)
Definition at_probe : machine :=
  board (probed 0) [(USB_HVDCP_PULSE_COUNT_MAX, 84); (USB_APSD_STATUS_REG, 0)]
    [] None None.

(** What smb235x_parse_dt makes of the sample node. *)
Definition sample_dt : smb235x_dt_props :=
  snd (snd (DeviceTree.smb235x_parse_dt DeviceTree.sample_node true (probed 20))).

(** The sample properties with an inhibit threshold the driver accepts
    and with none. *)
Definition with_inhibit (thr : Z) : smb235x_dt_props :=
  {| dt_trickle_charge_current_ua := dt_trickle_charge_current_ua sample_dt;
     dt_max_pre_charge_current_ua := dt_max_pre_charge_current_ua sample_dt;
     dt_pre_charge_current_ua := dt_pre_charge_current_ua sample_dt;
     dt_fast_charge_current_ua := dt_fast_charge_current_ua sample_dt;
     dt_max_fcc_ua := dt_max_fcc_ua sample_dt;
     dt_max_fv_uv := dt_max_fv_uv sample_dt;
     dt_termination_current_ua := dt_termination_current_ua sample_dt;
     dt_auto_recharge_soc := dt_auto_recharge_soc sample_dt;
     dt_float_option := dt_float_option sample_dt;
     dt_chg_inhibit_thr_uv := thr |}.

End SampleInit.

(** * Properties *)

Section Properties.

Context {R : smb235x_reg} {P : power_supply_abi}.

(** ** Running computations *)

Lemma bind_run {A B : Type} (c : M A) (k : A -> M B) (m : machine) :
  bind c k m = k (fst (c m)) (snd (c m)).
Proof. unfold bind. destruct (c m); reflexivity. Qed.

Lemma issued_of_log {A : Type} (c : M A) (m : machine) (l : list bus_op) :
  log (bus (snd (c m))) = l ++ log (bus m) -> issued c m = rev l.
Proof.
  intros E. unfold issued. cbv zeta. rewrite E, length_app.
  replace (length l + length (log (bus m)) - length (log (bus m)))%nat
    with (length l + 0)%nat by lia.
  rewrite firstn_app_2. simpl. now rewrite app_nil_r.
Qed.

(** ** The bus *)

Lemma regmap_read_step addr m :
  bus_step (RegRead addr) m (snd (regmap_read addr m)).
Proof.
  unfold bus_step, regmap_read, transfer.
  destruct (hd None (faults (bus m))); simpl; auto.
Qed.

Lemma regmap_write_step addr val m :
  bus_step (RegWrite addr val) m (snd (regmap_write addr val m)).
Proof.
  unfold bus_step, regmap_write, transfer.
  destruct (hd None (faults (bus m))); simpl; auto.
Qed.

Lemma regmap_update_bits_step addr mask val m :
  bus_step (RegUpdateBits addr mask val) m (snd (regmap_update_bits addr mask val m)).
Proof.
  unfold bus_step, regmap_update_bits, transfer.
  destruct (hd None (faults (bus m))); simpl; auto.
Qed.

(** The result code of a transfer is decided by the next outcome. *)
Lemma regmap_read_rc addr m :
  fst (regmap_read addr m) =
  match hd None (faults (bus m)) with
  | Some e => (Z.neg e, 0)
  | None => (0, to_u32 (regs (bus m) addr))
  end.
Proof.
  unfold regmap_read, transfer. destruct (hd None (faults (bus m))); reflexivity.
Qed.

Lemma regmap_write_rc addr val m :
  fst (regmap_write addr val m) =
  match hd None (faults (bus m)) with Some e => Z.neg e | None => 0 end.
Proof.
  unfold regmap_write, transfer. destruct (hd None (faults (bus m))); reflexivity.
Qed.

Lemma regmap_update_bits_rc addr mask val m :
  fst (regmap_update_bits addr mask val m) =
  match hd None (faults (bus m)) with Some e => Z.neg e | None => 0 end.
Proof.
  unfold regmap_update_bits, transfer.
  destruct (hd None (faults (bus m))); reflexivity.
Qed.

(** A read leaves the register file as it is. *)
Lemma regmap_read_regs addr m :
  regs (bus (snd (regmap_read addr m))) = regs (bus m).
Proof.
  unfold regmap_read, transfer. destruct (hd None (faults (bus m))); reflexivity.
Qed.

(** ** The HVDCP3 pulse train *)

Lemma repeat_shift {A : Type} (x : A) (k : nat) (l : list A) :
  repeat x k ++ x :: l = x :: repeat x k ++ l.
Proof.
  change (x :: repeat x k ++ l) with ((x :: repeat x k) ++ l).
  now rewrite repeat_cons, <- app_assoc.
Qed.

Lemma hvdcp_pulses_spec n bit : forall m,
  let r := hvdcp_pulses n bit m in
  chip (snd r) = chip m /\ bms_supply (snd r) = bms_supply m /\
  tcpm_supply (snd r) = tcpm_supply m /\
  exists k, (k <= n)%nat /\
    log (bus (snd r)) =
      repeat (RegUpdateBits USB_CMD_HVDCP_2_REG bit bit) k ++ log (bus m) /\
    (faults (bus m) = [] -> k = n /\ fst r = 0 /\ faults (bus (snd r)) = []).
Proof.
  induction n as [|n IH]; intros m; cbv zeta.
  - simpl. repeat split; auto. exists 0%nat. simpl. auto.
  - simpl. rewrite bind_run.
    pose proof (regmap_update_bits_step USB_CMD_HVDCP_2_REG bit bit m)
      as (Hc & Hb & Ht & Hl & Hf).
    pose proof (regmap_update_bits_rc USB_CMD_HVDCP_2_REG bit bit m) as Hrc.
    set (m1 := snd (regmap_update_bits USB_CMD_HVDCP_2_REG bit bit m)) in *.
    destruct (fst (regmap_update_bits USB_CMD_HVDCP_2_REG bit bit m) <? 0) eqn:Hneg.
    + simpl. repeat split; auto. exists 1%nat. split; [lia|]. split; [exact Hl|].
      intros Hnil. rewrite Hnil in Hrc. simpl in Hrc. rewrite Hrc in Hneg. discriminate.
    + specialize (IH m1). cbv zeta in IH.
      destruct IH as (Ic & Ib & It & k & Hk & Il & Inil).
      repeat split; try congruence.
      exists (S k). split; [lia|]. split.
      * rewrite Il, Hl. simpl. apply repeat_shift.
      * intros Hnil. assert (Hnil1 : faults (bus m1) = []) by (rewrite Hf, Hnil; reflexivity).
        destruct (Inil Hnil1) as (-> & ? & ?). auto.
Qed.

Lemma is_pulse_increment :
  is_pulse (RegUpdateBits USB_CMD_HVDCP_2_REG SINGLE_INCREMENT_BIT SINGLE_INCREMENT_BIT) = true.
Proof. unfold is_pulse. now rewrite !Z.eqb_refl. Qed.

Lemma is_pulse_decrement :
  is_pulse (RegUpdateBits USB_CMD_HVDCP_2_REG SINGLE_DECREMENT_BIT SINGLE_DECREMENT_BIT) = true.
Proof. unfold is_pulse. rewrite !Z.eqb_refl. now rewrite orb_true_r. Qed.

Lemma filter_repeat_true {A : Type} (f : A -> bool) (x : A) (k : nat) :
  f x = true -> filter f (repeat x k) = repeat x k.
Proof. intros H. induction k; simpl; [reflexivity|]. now rewrite H, IHk. Qed.

Lemma rev_repeat {A : Type} (x : A) (k : nat) : rev (repeat x k) = repeat x k.
Proof.
  induction k; simpl; [reflexivity|]. rewrite IHk. now rewrite <- repeat_cons.
Qed.

Lemma wrap_int_id z : INT_MIN <= z <= INT_MAX -> wrap_int z = z.
Proof.
  unfold wrap_int, INT_MIN, INT_MAX. intros H.
  rewrite Z.mod_small; lia.
Qed.

Lemma to_u32_id z : 0 <= z <= INT_MAX -> to_u32 z = z.
Proof. unfold to_u32, INT_MAX. intros H. apply Z.mod_small. lia. Qed.

Lemma quot_steps_bounds z :
  0 <= z <= INT_MAX -> 0 <= z // QC3_VOLTAGE_STEPS_UV <= INT_MAX.
Proof.
  intros H. unfold QC3_VOLTAGE_STEPS_UV. rewrite Z.quot_div_nonneg by lia.
  split; [apply Z.div_pos; lia|].
  apply Z.le_trans with z; [|lia]. apply Z.div_le_upper_bound; lia.
Qed.

(** The calls smb235x_set_hvdcp3_voltage adds to the log are the pulses
    of its loop: at most [n] of them, all [n] on a bus without faults. *)
Lemma set_hvdcp3_voltage_log m voltage_uv :
  BASED_VOLTAGE_UV <= voltage_uv ->
  let c := chip m in
  let up := voltage_uv >? based_hvdcp_voltage_uv c in
  let count_up := wrap_int (voltage_uv - based_hvdcp_voltage_uv c) // QC3_VOLTAGE_STEPS_UV in
  let count :=
    if up
    then (if count_up >? hvdcp_pulse_count_max c then hvdcp_pulse_count_max c else count_up)
    else wrap_int (hvdcp3_voltage_uv c - voltage_uv) // QC3_VOLTAGE_STEPS_UV in
  let bit := if up then SINGLE_INCREMENT_BIT else SINGLE_DECREMENT_BIT in
  exists k, (k <= pulse_iterations count)%nat /\
    log (bus (snd (smb235x_set_hvdcp3_voltage voltage_uv m))) =
      repeat (RegUpdateBits USB_CMD_HVDCP_2_REG bit bit) k ++ log (bus m) /\
    (faults (bus m) = [] -> k = pulse_iterations count).
Proof.
  intros Hv. cbv zeta. unfold smb235x_set_hvdcp3_voltage.
  destruct (voltage_uv <? BASED_VOLTAGE_UV) eqn:Hlt; [apply Z.ltb_lt in Hlt; lia|].
  rewrite bind_run. unfold get_chip. cbn [fst snd].
  rewrite bind_run.
  destruct (voltage_uv >? based_hvdcp_voltage_uv (chip m)).
  - match goal with |- context [hvdcp_pulses ?n ?b m] =>
      pose proof (hvdcp_pulses_spec n b m) as Hp; cbv zeta in Hp;
      destruct Hp as (_ & _ & _ & k & Hk & Hl & Hn);
      exists k; split; [exact Hk|]; split; [|intros F; apply (Hn F)];
      destruct (fst (hvdcp_pulses n b m) <? 0); simpl; exact Hl
    end.
  - match goal with |- context [hvdcp_pulses ?n ?b m] =>
      pose proof (hvdcp_pulses_spec n b m) as Hp; cbv zeta in Hp;
      destruct Hp as (_ & _ & _ & k & Hk & Hl & Hn);
      exists k; split; [exact Hk|]; split; [|intros F; apply (Hn F)];
      destruct (fst (hvdcp_pulses n b m) <? 0); simpl; exact Hl
    end.
Qed.

Lemma pulses_of_log {A : Type} (c : M A) (m : machine) (bit : Z) (k : nat) :
  is_pulse (RegUpdateBits USB_CMD_HVDCP_2_REG bit bit) = true ->
  log (bus (snd (c m))) =
    repeat (RegUpdateBits USB_CMD_HVDCP_2_REG bit bit) k ++ log (bus m) ->
  pulses_issued c m = Z.of_nat k.
Proof.
  intros Hp Hl. unfold pulses_issued.
  rewrite (issued_of_log _ _ _ Hl), rev_repeat, filter_repeat_true by exact Hp.
  now rewrite repeat_length.
Qed.

Lemma pulse_iterations_id z : 0 <= z <= INT_MAX -> Z.of_nat (pulse_iterations z) = z.
Proof.
  intros H. unfold pulse_iterations. rewrite to_u32_id by exact H. lia.
Qed.

(** C1 (as the code has it).  A call of smb235x_set_hvdcp3_voltage with
    a target of at least 5.0 V issues, when the target is above the
    base voltage, at most [hvdcp_pulse_count_max] increment pulses: the
    count [(target - base) / 200 mV] is clamped to that maximum, and on
    a bus without faults exactly the clamped count is issued.  When the
    target is not above the base, the decrement count is
    [(hvdcp3_voltage_uv - target) / 200 mV] and is not clamped. *)
Theorem C1_hvdcp3_pulse_count (m : machine) (voltage_uv : Z) :
  BASED_VOLTAGE_UV <= voltage_uv ->
  let c := chip m in
  let n := pulses_issued (smb235x_set_hvdcp3_voltage voltage_uv) m in
  (based_hvdcp_voltage_uv c < voltage_uv ->
   voltage_uv - based_hvdcp_voltage_uv c <= INT_MAX ->
   0 <= hvdcp_pulse_count_max c ->
   n <= hvdcp_pulse_count_max c /\
   (faults (bus m) = [] ->
    n = Z.min ((voltage_uv - based_hvdcp_voltage_uv c) // QC3_VOLTAGE_STEPS_UV)
              (hvdcp_pulse_count_max c))) /\
  (voltage_uv <= based_hvdcp_voltage_uv c ->
   0 <= hvdcp3_voltage_uv c - voltage_uv <= INT_MAX ->
   n <= (hvdcp3_voltage_uv c - voltage_uv) // QC3_VOLTAGE_STEPS_UV /\
   (faults (bus m) = [] ->
    n = (hvdcp3_voltage_uv c - voltage_uv) // QC3_VOLTAGE_STEPS_UV)).
Proof.
  intros Hv. cbv zeta.
  destruct (set_hvdcp3_voltage_log m voltage_uv Hv) as (k & Hk & Hl & Hn).
  split.
  - intros Hup Hov Hmax.
    assert (Hgt : (voltage_uv >? based_hvdcp_voltage_uv (chip m)) = true)
      by (apply Z.gtb_lt; lia).
    rewrite Hgt in Hk, Hl, Hn.
    rewrite (pulses_of_log _ _ _ _ is_pulse_increment Hl).
    assert (Hd : 0 <= voltage_uv - based_hvdcp_voltage_uv (chip m) <= INT_MAX) by lia.
    rewrite wrap_int_id in Hk, Hn by (unfold INT_MIN; lia).
    pose proof (quot_steps_bounds _ Hd) as Hq.
    set (q := (voltage_uv - based_hvdcp_voltage_uv (chip m)) // QC3_VOLTAGE_STEPS_UV) in *.
    destruct (q >? hvdcp_pulse_count_max (chip m)) eqn:Hc.
    + apply Z.gtb_lt in Hc.
      assert (Hb : 0 <= hvdcp_pulse_count_max (chip m) <= INT_MAX) by lia.
      pose proof (pulse_iterations_id _ Hb) as Hi.
      split; [lia|]. intros F. rewrite (Hn F). lia.
    + assert (Hc' : q <= hvdcp_pulse_count_max (chip m))
        by (destruct (Z.gtb_spec q (hvdcp_pulse_count_max (chip m))); [discriminate|lia]).
      pose proof (pulse_iterations_id _ Hq) as Hi.
      split; [lia|]. intros F. rewrite (Hn F). lia.
  - intros Hdown Hov.
    assert (Hgt : (voltage_uv >? based_hvdcp_voltage_uv (chip m)) = false)
      by (destruct (Z.gtb_spec voltage_uv (based_hvdcp_voltage_uv (chip m))); [lia|reflexivity]).
    rewrite Hgt in Hk, Hl, Hn.
    rewrite (pulses_of_log _ _ _ _ is_pulse_decrement Hl).
    rewrite wrap_int_id in Hk, Hn by (unfold INT_MIN; lia).
    pose proof (quot_steps_bounds _ Hov) as Hq.
    pose proof (pulse_iterations_id _ Hq) as Hi.
    split; [lia|]. intros F. rewrite (Hn F). lia.
Qed.

(** ** Frames *)

Lemma negotiation_kept_refl m : negotiation_kept m m.
Proof. unfold negotiation_kept; auto 10. Qed.

Lemma negotiation_kept_trans m1 m2 m3 :
  negotiation_kept m1 m2 -> negotiation_kept m2 m3 -> negotiation_kept m1 m3.
Proof.
  unfold negotiation_kept.
  intros (A1 & A2 & A3 & A4 & A5 & A6) (B1 & B2 & B3 & B4 & B5 & B6).
  repeat split; congruence.
Qed.

Lemma bus_step_kept op m m' : bus_step op m m' -> negotiation_kept m m'.
Proof.
  intros (Hc & Hb & Ht & _). unfold negotiation_kept, tcpm_peer.
  rewrite Hc, Ht. auto 10.
Qed.

Lemma set_types_kept t u m :
  negotiation_kept m (snd (update_chip (set_types t u) m)).
Proof. unfold negotiation_kept, tcpm_peer; simpl; auto 10. Qed.

(** The peer query: the answer is the peer's, and only the cached
    pointer may change. *)
Lemma get_prop_from_tcpm_run prop val m :
  fst (smb235x_get_prop_from_tcpm prop val m) =
    match peer_answer (tcpm_peer m) prop with
    | Intval v => (0, v)
    | Enoprop e => (Z.neg e, val)
    end /\
  negotiation_kept m (snd (smb235x_get_prop_from_tcpm prop val m)) /\
  bus (snd (smb235x_get_prop_from_tcpm prop val m)) = bus m /\
  charger_type (chip (snd (smb235x_get_prop_from_tcpm prop val m))) = charger_type (chip m) /\
  usb_type (chip (snd (smb235x_get_prop_from_tcpm prop val m))) = usb_type (chip m).
Proof.
  unfold smb235x_get_prop_from_tcpm, peer_answer, negotiation_kept, tcpm_peer,
    power_supply_get_property.
  destruct (tcpm_psy (chip m)) as [psy|] eqn:Hc.
  - simpl. rewrite ?Hc. auto 10.
  - destruct (tcpm_supply m) as [psy|] eqn:Hs; simpl; rewrite ?Hc, ?Hs; auto 10.
Qed.

Lemma get_prop_from_bms_run prop val m :
  fst (smb235x_get_prop_from_bms prop val m) =
    match peer_answer (bms_peer m) prop with
    | Intval v => (0, v)
    | Enoprop e => (Z.neg e, val)
    end /\
  bus (snd (smb235x_get_prop_from_bms prop val m)) = bus m /\
  float_volt_uv (chip (snd (smb235x_get_prop_from_bms prop val m))) = float_volt_uv (chip m) /\
  fastchg_curr_ua (chip (snd (smb235x_get_prop_from_bms prop val m))) = fastchg_curr_ua (chip m).
Proof.
  unfold smb235x_get_prop_from_bms, peer_answer, bms_peer, power_supply_get_property.
  destruct (bms_psy (chip m)) as [psy|] eqn:Hc.
  - simpl. auto.
  - destruct (bms_supply m) as [psy|] eqn:Hs; simpl; auto.
Qed.

(** smb235x_get_usb_online is one read of the power-path status. *)
Lemma get_usb_online_run m :
  smb235x_get_usb_online m =
    (match hd None (faults (bus m)) with
     | Some _ => false
     | None => usb_online_bits (to_u32 (regs (bus m) DCDC_POWER_PATH_STATUS_REG))
     end,
     snd (regmap_read DCDC_POWER_PATH_STATUS_REG m)).
Proof.
  unfold smb235x_get_usb_online. rewrite bind_run.
  pose proof (regmap_read_rc DCDC_POWER_PATH_STATUS_REG m) as Hrc.
  destruct (fst (regmap_read DCDC_POWER_PATH_STATUS_REG m)) as [rc stat].
  destruct (hd None (faults (bus m))) as [e|]; inversion Hrc; subst; reflexivity.
Qed.

Lemma apsd_result_run stat bit t u m :
  apsd_result stat bit t u m =
    (tt, if truthy (Z.land stat bit)
         then with_chip (set_types t u (chip m)) m else m).
Proof. unfold apsd_result. destruct (truthy (Z.land stat bit)); reflexivity. Qed.

Lemma apsd_result_kept stat bit t u m :
  negotiation_kept m (snd (apsd_result stat bit t u m)) /\
  bus (snd (apsd_result stat bit t u m)) = bus m.
Proof.
  rewrite apsd_result_run. destruct (truthy (Z.land stat bit)); simpl.
  - split; [apply set_types_kept | reflexivity].
  - split; [apply negotiation_kept_refl | reflexivity].
Qed.

(** ** Charger detection *)

Lemma last_default_shift {A : Type} (l : list A) (x d : A) :
  last (x :: l) d = last l x.
Proof.
  revert x d. induction l as [|y l IH]; intros x d; [reflexivity|].
  change (last (x :: y :: l) d) with (last (y :: l) d).
  now rewrite (IH y d), (IH y x).
Qed.

Lemma last_some_default {A B : Type} (g : A -> B) (l : list A) (d : option B) :
  last (map (fun e => Some (g e)) l) d =
    match last (map (fun e => Some (g e)) l) None with
    | Some b => Some b
    | None => d
    end.
Proof.
  destruct l as [|x l]; [reflexivity|].
  simpl map. rewrite !last_default_shift.
  generalize (g x). clear x. induction l as [|y l IH]; intros b; [reflexivity|].
  simpl map. rewrite !last_default_shift. apply IH.
Qed.

Lemma last_matching_cons stat e table :
  last_matching stat (e :: table) =
    match last_matching stat table with
    | Some tu => Some tu
    | None => if truthy (Z.land stat (fst e)) then Some (snd e) else None
    end.
Proof.
  unfold last_matching, matching. simpl filter.
  destruct (truthy (Z.land stat (fst e))).
  - simpl map. rewrite last_default_shift. apply last_some_default.
  - destruct (last _ None); reflexivity.
Qed.

(** Storing the results of a table one after the other, as the chain
    of [if]s does, ends with the last matching entry stored. *)
Lemma apsd_results_fold stat table : forall m,
  fold_left (fun m' e => snd (apsd_result stat (fst e) (fst (snd e)) (snd (snd e)) m'))
            table m =
  store_types (last_matching stat table) m.
Proof.
  induction table as [|[bit [t u]] table IH]; intros m; [reflexivity|].
  simpl fold_left. rewrite IH, last_matching_cons, apsd_result_run.
  cbn [fst snd].
  destruct (last_matching stat table) as [[t' u']|];
    destruct (truthy (Z.land stat bit)); reflexivity.
Qed.

(** smb235x_get_chg_type, path by path. *)
Lemma get_chg_type_run m :
  let online := fst (smb235x_get_usb_online m) in
  let m1 := snd (regmap_read DCDC_POWER_PATH_STATUS_REG m) in
  let q := smb235x_get_prop_from_tcpm POWER_SUPPLY_PROP_USB_TYPE 0 m1 in
  let r := regmap_read USB_APSP_RESULT_STATUS_REG (snd q) in
  smb235x_get_chg_type m =
    if negb online then
      (0, store_types (Some (POWER_SUPPLY_TYPE_UNKNOWN, POWER_SUPPLY_USB_TYPE_UNKNOWN)) m1)
    else if (0 <=? fst (fst q)) && negb (snd (fst q) =? POWER_SUPPLY_USB_TYPE_C) then
      (0, store_types (Some (snd (fst q), snd (fst q))) (snd q))
    else if fst (fst r) <? 0 then (fst (fst r), snd r)
    else
      (0, store_types
            (last_matching (Z.land (snd (fst r)) APSD_RESULT_STATUS_MASK) apsd_table)
            (snd r)).
Proof.
  cbv zeta. unfold smb235x_get_chg_type. rewrite bind_run.
  rewrite get_usb_online_run. cbn [fst snd].
  set (online := match hd None (faults (bus m)) with
                 | Some _ => false
                 | None => usb_online_bits (to_u32 (regs (bus m) DCDC_POWER_PATH_STATUS_REG))
                 end).
  set (m1 := snd (regmap_read DCDC_POWER_PATH_STATUS_REG m)).
  destruct online; cbn [negb]; [|reflexivity].
  rewrite bind_run.
  set (q := smb235x_get_prop_from_tcpm POWER_SUPPLY_PROP_USB_TYPE 0 m1).
  destruct (fst q) as [rc pval] eqn:Hq. cbn [fst snd].
  destruct ((0 <=? rc) && negb (pval =? POWER_SUPPLY_USB_TYPE_C)); [reflexivity|].
  rewrite bind_run.
  set (r := regmap_read USB_APSP_RESULT_STATUS_REG (snd q)).
  destruct (fst r) as [rc' stat] eqn:Hr. cbn [fst snd].
  destruct (rc' <? 0); [reflexivity|].
  rewrite <- apsd_results_fold.
  repeat rewrite bind_run. reflexivity.
Qed.

Lemma store_types_kept tu m : negotiation_kept m (store_types tu m).
Proof.
  destruct tu as [[t u]|]; [apply set_types_kept | apply negotiation_kept_refl].
Qed.

Lemma get_chg_type_kept m : negotiation_kept m (snd (smb235x_get_chg_type m)).
Proof.
  rewrite get_chg_type_run. cbv zeta.
  pose proof (bus_step_kept _ _ _ (regmap_read_step DCDC_POWER_PATH_STATUS_REG m)) as K1.
  set (m1 := snd (regmap_read DCDC_POWER_PATH_STATUS_REG m)) in *.
  destruct (get_prop_from_tcpm_run POWER_SUPPLY_PROP_USB_TYPE 0 m1) as (_ & K2 & _).
  set (q := smb235x_get_prop_from_tcpm POWER_SUPPLY_PROP_USB_TYPE 0 m1) in *.
  pose proof (bus_step_kept _ _ _ (regmap_read_step USB_APSP_RESULT_STATUS_REG (snd q))) as K3.
  set (r := regmap_read USB_APSP_RESULT_STATUS_REG (snd q)) in *.
  destruct (negb _); cbn [snd].
  { eapply negotiation_kept_trans; [exact K1 | apply store_types_kept]. }
  destruct (_ && _); cbn [snd].
  { eapply negotiation_kept_trans; [exact K1|].
    eapply negotiation_kept_trans; [exact K2 | apply store_types_kept]. }
  assert (K : negotiation_kept m (snd r)).
  { eapply negotiation_kept_trans; [exact K1|].
    eapply negotiation_kept_trans; [exact K2 | exact K3]. }
  destruct (_ <? 0); cbn [snd]; [exact K|].
  eapply negotiation_kept_trans; [exact K | apply store_types_kept].
Qed.

(** The same in terms of what the machine holds before the call. *)
Lemma get_chg_type_inputs m :
  let m1 := snd (regmap_read DCDC_POWER_PATH_STATUS_REG m) in
  let m2 := snd (smb235x_get_prop_from_tcpm POWER_SUPPLY_PROP_USB_TYPE 0 m1) in
  let m3 := snd (regmap_read USB_APSP_RESULT_STATUS_REG m2) in
  let stat := Z.land (to_u32 (regs (bus m) USB_APSP_RESULT_STATUS_REG))
                     APSD_RESULT_STATUS_MASK in
  let autonomous :=
    match hd None (tl (faults (bus m))) with
    | Some e => (Z.neg e, m3)
    | None => (0, store_types (last_matching stat apsd_table) m3)
    end in
  smb235x_get_chg_type m =
    match hd None (faults (bus m)) with
    | Some _ =>
        (0, store_types (Some (POWER_SUPPLY_TYPE_UNKNOWN, POWER_SUPPLY_USB_TYPE_UNKNOWN)) m1)
    | None =>
        if negb (usb_online_bits (to_u32 (regs (bus m) DCDC_POWER_PATH_STATUS_REG))) then
          (0, store_types (Some (POWER_SUPPLY_TYPE_UNKNOWN, POWER_SUPPLY_USB_TYPE_UNKNOWN)) m1)
        else
          match peer_answer (tcpm_peer m) POWER_SUPPLY_PROP_USB_TYPE with
          | Intval v =>
              if v =? POWER_SUPPLY_USB_TYPE_C then autonomous
              else (0, store_types (Some (v, v)) m2)
          | Enoprop _ => autonomous
          end
    end.
Proof.
  cbv zeta. rewrite get_chg_type_run. cbv zeta.
  rewrite get_usb_online_run. cbn [fst].
  destruct (regmap_read_step DCDC_POWER_PATH_STATUS_REG m) as (Hc & Hb & Ht & Hl & Hf).
  pose proof (bus_step_kept _ _ _ (regmap_read_step DCDC_POWER_PATH_STATUS_REG m))
    as (_ & _ & _ & _ & _ & Hpeer).
  pose proof (regmap_read_regs DCDC_POWER_PATH_STATUS_REG m) as Hregs.
  set (m1 := snd (regmap_read DCDC_POWER_PATH_STATUS_REG m)) in *.
  destruct (get_prop_from_tcpm_run POWER_SUPPLY_PROP_USB_TYPE 0 m1) as (Hq & _ & Hbus & _).
  set (q := smb235x_get_prop_from_tcpm POWER_SUPPLY_PROP_USB_TYPE 0 m1) in *.
  pose proof (regmap_read_rc USB_APSP_RESULT_STATUS_REG (snd q)) as Hr.
  rewrite Hbus, Hf, Hregs in Hr.
  set (r := regmap_read USB_APSP_RESULT_STATUS_REG (snd q)) in *.
  rewrite Hpeer in Hq.
  destruct (hd None (faults (bus m))) as [e|]; [reflexivity|].
  destruct (usb_online_bits _); cbn [negb]; [|reflexivity].
  rewrite Hq, Hr.
  assert (Hauto :
    (if fst match hd None (tl (faults (bus m))) with
            | Some e => (Z.neg e, 0)
            | None => (0, to_u32 (regs (bus m) USB_APSP_RESULT_STATUS_REG))
            end <? 0
     then (fst match hd None (tl (faults (bus m))) with
               | Some e => (Z.neg e, 0)
               | None => (0, to_u32 (regs (bus m) USB_APSP_RESULT_STATUS_REG))
               end, snd r)
     else (0, store_types
                (last_matching
                   (Z.land (snd match hd None (tl (faults (bus m))) with
                                | Some e => (Z.neg e, 0)
                                | None => (0, to_u32 (regs (bus m) USB_APSP_RESULT_STATUS_REG))
                                end) APSD_RESULT_STATUS_MASK) apsd_table) (snd r))) =
    match hd None (tl (faults (bus m))) with
    | Some e => (Z.neg e, snd r)
    | None => (0, store_types
                    (last_matching
                       (Z.land (to_u32 (regs (bus m) USB_APSP_RESULT_STATUS_REG))
                               APSD_RESULT_STATUS_MASK) apsd_table) (snd r))
    end).
  { destruct (hd None (tl (faults (bus m)))); reflexivity. }
  destruct (peer_answer (tcpm_peer m) POWER_SUPPLY_PROP_USB_TYPE) as [v|e]; cbn [fst snd].
  - change (0 <=? 0) with true. cbn [andb].
    destruct (v =? POWER_SUPPLY_USB_TYPE_C); cbn [negb]; [exact Hauto | reflexivity].
  - change (0 <=? Z.neg e) with false. cbn [andb]. exact Hauto.
Qed.

Lemma store_types_some t u m :
  charger_type (chip (store_types (Some (t, u)) m)) = t /\
  usb_type (chip (store_types (Some (t, u)) m)) = u.
Proof. split; reflexivity. Qed.

(** C4.  When the charger detects on its own (the power-path read
    succeeds and reports usb online, the negotiation peer is absent,
    fails or reports the generic Type-C type, and the result register is
    read), smb235x_get_chg_type succeeds and the types it stores are
    those of the last entry of [apsd_table] (Float, DCP, over-current
    DCP, CDP, SDP, QC3.0, QC2.0 in this order) whose bit is set in the
    masked result; with no bit set the types stay as they were.  In
    particular, with the Float and DCP bits set and none of the CDP,
    SDP, QC3.0 and QC2.0 bits, the charger type is DCP. *)
Theorem C4_autonomous_detection_last_match (m : machine) :
  hd None (faults (bus m)) = None ->
  usb_online_bits (to_u32 (regs (bus m) DCDC_POWER_PATH_STATUS_REG)) = true ->
  peer_defers (peer_answer (tcpm_peer m) POWER_SUPPLY_PROP_USB_TYPE) = true ->
  hd None (tl (faults (bus m))) = None ->
  let stat := Z.land (to_u32 (regs (bus m) USB_APSP_RESULT_STATUS_REG))
                     APSD_RESULT_STATUS_MASK in
  let c' := chip (snd (smb235x_get_chg_type m)) in
  fst (smb235x_get_chg_type m) = 0 /\
  (charger_type c', usb_type c') =
    match last_matching stat apsd_table with
    | Some tu => tu
    | None => (charger_type (chip m), usb_type (chip m))
    end /\
  (truthy (Z.land stat FLOAT_CHARGER_BIT) = true ->
   truthy (Z.land stat DCP_CHARGER_BIT) = true ->
   truthy (Z.land stat CDP_CHARGER_BIT) = false ->
   truthy (Z.land stat SDP_CHARGER_BIT) = false ->
   truthy (Z.land stat QC_3P0_BIT) = false ->
   truthy (Z.land stat QC_2P0_BIT) = false ->
   charger_type c' = POWER_SUPPLY_TYPE_USB_DCP /\
   usb_type c' = POWER_SUPPLY_USB_TYPE_DCP).
Proof.
  intros Hf1 Honline Hpeer Hf2. cbv zeta.
  rewrite get_chg_type_inputs. cbv zeta. rewrite Hf1, Honline, Hf2. cbn [negb].
  set (stat := Z.land (to_u32 (regs (bus m) USB_APSP_RESULT_STATUS_REG))
                      APSD_RESULT_STATUS_MASK).
  set (m1 := snd (regmap_read DCDC_POWER_PATH_STATUS_REG m)).
  set (m2 := snd (smb235x_get_prop_from_tcpm POWER_SUPPLY_PROP_USB_TYPE 0 m1)).
  set (m3 := snd (regmap_read USB_APSP_RESULT_STATUS_REG m2)).
  assert (Htypes : charger_type (chip m3) = charger_type (chip m) /\
                   usb_type (chip m3) = usb_type (chip m)).
  { destruct (regmap_read_step USB_APSP_RESULT_STATUS_REG m2) as (Hc3 & _).
    destruct (get_prop_from_tcpm_run POWER_SUPPLY_PROP_USB_TYPE 0 m1) as (_ & _ & _ & Ht & Hu).
    destruct (regmap_read_step DCDC_POWER_PATH_STATUS_REG m) as (Hc1 & _).
    fold m1 in Hc1, Ht, Hu. fold m2 in Hc3, Ht, Hu. fold m3 in Hc3.
    rewrite Hc3, Ht, Hu, Hc1. split; reflexivity. }
  assert (Hrun :
    match peer_answer (tcpm_peer m) POWER_SUPPLY_PROP_USB_TYPE with
    | Intval v =>
        if v =? POWER_SUPPLY_USB_TYPE_C
        then (0, store_types (last_matching stat apsd_table) m3)
        else (0, store_types (Some (v, v)) m2)
    | Enoprop _ => (0, store_types (last_matching stat apsd_table) m3)
    end = (0, store_types (last_matching stat apsd_table) m3)).
  { destruct (peer_answer (tcpm_peer m) POWER_SUPPLY_PROP_USB_TYPE) as [v|e];
      [|reflexivity].
    simpl in Hpeer. now rewrite Hpeer. }
  rewrite Hrun. cbn [fst snd].
  split; [reflexivity|]. split.
  - destruct (last_matching stat apsd_table) as [[t u]|]; simpl.
    + reflexivity.
    + destruct Htypes as [-> ->]. reflexivity.
  - intros Bf Bd Bc Bs B3 B2.
    assert (Hlast : last_matching stat apsd_table =
                    Some (POWER_SUPPLY_TYPE_USB_DCP, POWER_SUPPLY_USB_TYPE_DCP)).
    { unfold last_matching, matching, apsd_table. simpl filter.
      rewrite Bf, Bd, Bc, Bs, B3, B2.
      destruct (truthy (Z.land stat OCP_CHARGER_BIT)); reflexivity. }
    rewrite Hlast. split; reflexivity.
Qed.

(** C5 (as the code has it).  smb235x_get_chg_type returns a negative
    errno exactly when it gets as far as reading the detection result
    (the power-path read succeeded and reported usb online, and the peer
    left the detection to the charger) and that read fails.  A failure of
    the power-path status read is not returned: the call then succeeds
    and stores the unknown charger and usb types. *)
Theorem C5_detect_io_error (m : machine) :
  (fst (smb235x_get_chg_type m) < 0 <->
   hd None (faults (bus m)) = None /\
   usb_online_bits (to_u32 (regs (bus m) DCDC_POWER_PATH_STATUS_REG)) = true /\
   peer_defers (peer_answer (tcpm_peer m) POWER_SUPPLY_PROP_USB_TYPE) = true /\
   hd None (tl (faults (bus m))) <> None) /\
  (hd None (faults (bus m)) <> None ->
   fst (smb235x_get_chg_type m) = 0 /\
   charger_type (chip (snd (smb235x_get_chg_type m))) = POWER_SUPPLY_TYPE_UNKNOWN /\
   usb_type (chip (snd (smb235x_get_chg_type m))) = POWER_SUPPLY_USB_TYPE_UNKNOWN).
Proof.
  rewrite get_chg_type_inputs. cbv zeta.
  destruct (hd None (faults (bus m))) as [e|] eqn:Hf1.
  - split.
    + cbn [fst]. split; [lia|]. intros (H & _). discriminate.
    + intros _. repeat split; reflexivity.
  - split; [|intros H; now elim H].
    destruct (usb_online_bits (to_u32 (regs (bus m) DCDC_POWER_PATH_STATUS_REG)));
      cbn [negb].
    2: { cbn [fst]. split; [lia|]. intros (_ & H & _). discriminate. }
    unfold peer_defers.
    destruct (peer_answer (tcpm_peer m) POWER_SUPPLY_PROP_USB_TYPE) as [v|e].
    + destruct (v =? POWER_SUPPLY_USB_TYPE_C).
      * destruct (hd None (tl (faults (bus m)))) as [e|]; cbn [fst].
        -- split; [intros _; repeat split; discriminate | lia].
        -- split; [lia|]. intros (_ & _ & _ & H). now elim H.
      * cbn [fst]. split; [lia|]. intros (_ & _ & H & _). discriminate.
    + destruct (hd None (tl (faults (bus m)))) as [e'|]; cbn [fst].
      * split; [intros _; repeat split; discriminate | lia].
      * split; [lia|]. intros (_ & _ & _ & H). now elim H.
Qed.

(** ** The APSD-done handler *)

Lemma negotiation_peer_kept m m' : negotiation_kept m m' -> peer_kept m m'.
Proof. intros (_ & _ & _ & Hp & _ & Ht). split; assumption. Qed.

Lemma peer_kept_trans m1 m2 m3 :
  peer_kept m1 m2 -> peer_kept m2 m3 -> peer_kept m1 m3.
Proof. intros (A1 & A2) (B1 & B2). split; congruence. Qed.

Lemma set_icl_sw_chip icl_ma m :
  chip (snd (smb235x_set_icl_sw icl_ma m)) = chip m.
Proof.
  unfold smb235x_set_icl_sw. cbv zeta. rewrite bind_run.
  destruct (regmap_update_bits_step USBIN_LOAD_CFG_REG
              ICL_OVERRIDE_AFTER_APSD_BIT ICL_OVERRIDE_AFTER_APSD_BIT m) as (H1 & _).
  set (m1 := snd (regmap_update_bits USBIN_LOAD_CFG_REG _ _ m)) in *.
  destruct (_ <? 0); [exact H1|].
  rewrite bind_run.
  destruct (regmap_update_bits_step USB_CMD_ICL_OVERRIDE_REG
              ICL_OVERRIDE_BIT ICL_OVERRIDE_BIT m1) as (H2 & _).
  set (m2 := snd (regmap_update_bits USB_CMD_ICL_OVERRIDE_REG _ _ m1)) in *.
  destruct (_ <? 0); [cbn [snd ret]; congruence|].
  rewrite bind_run. cbn [snd ret].
  destruct (regmap_write_step USBIN_CURRENT_LIMIT_CFG_REG
              (to_u8 (icl_ma // CURRENT_STEP_MA)) m2) as (H3 & _).
  congruence.
Qed.

Lemma set_hvdcp3_voltage_peer_kept voltage_uv m :
  peer_kept m (snd (smb235x_set_hvdcp3_voltage voltage_uv m)).
Proof.
  unfold smb235x_set_hvdcp3_voltage.
  destruct (voltage_uv <? BASED_VOLTAGE_UV); [split; reflexivity|].
  rewrite bind_run. unfold get_chip. cbn [fst snd]. rewrite bind_run.
  match goal with |- context [fst (?c m) <? 0] =>
    assert (H : chip (snd (c m)) = chip m /\ tcpm_supply (snd (c m)) = tcpm_supply m);
      [|set (r := c m) in *]
  end.
  { destruct (voltage_uv >? based_hvdcp_voltage_uv (chip m));
      match goal with |- context [hvdcp_pulses ?n ?b m] =>
        pose proof (hvdcp_pulses_spec n b m) as Hp; cbv zeta in Hp;
        destruct Hp as (Hc & _ & Ht & _); split; assumption
      end. }
  destruct H as (Hc & Ht).
  unfold peer_kept, tcpm_peer.
  destruct (fst r <? 0); simpl; rewrite Hc, Ht; auto.
Qed.

(** The type switch of the handler leaves the chip alone unless the
    type is HVDCP3. *)
Lemma apsd_type_icl_chip m :
  charger_type (chip m) <> POWER_SUPPLY_TYPE_USB_HVDCP_3 ->
  chip (snd (apsd_type_icl m)) = chip m.
Proof.
  intros Hne. unfold apsd_type_icl. rewrite bind_run. unfold get_chip.
  cbn [fst snd]. cbv zeta.
  destruct (charger_type (chip m) =? POWER_SUPPLY_TYPE_USB).
  { destruct (truthy (sdp_icl_ua (chip m))); reflexivity. }
  destruct (charger_type (chip m) =? POWER_SUPPLY_TYPE_USB_CDP); [reflexivity|].
  destruct (charger_type (chip m) =? POWER_SUPPLY_TYPE_USB_DCP); [reflexivity|].
  destruct (charger_type (chip m) =? POWER_SUPPLY_TYPE_USB_FLOAT); [reflexivity|].
  destruct (charger_type (chip m) =? POWER_SUPPLY_TYPE_USB_HVDCP).
  { rewrite bind_run.
    destruct (regmap_update_bits_step USB_CMD_HVDCP_2_REG FORCE_9V_BIT FORCE_9V_BIT m)
      as (Hc & _).
    destruct (_ <? 0); exact Hc. }
  destruct (charger_type (chip m) =? POWER_SUPPLY_TYPE_USB_HVDCP_3) eqn:E;
    [apply Z.eqb_eq in E; contradiction | reflexivity].
Qed.

Lemma apsd_type_icl_peer_kept m : peer_kept m (snd (apsd_type_icl m)).
Proof.
  unfold apsd_type_icl. rewrite bind_run. unfold get_chip.
  cbn [fst snd]. cbv zeta.
  destruct (charger_type (chip m) =? POWER_SUPPLY_TYPE_USB).
  { destruct (truthy (sdp_icl_ua (chip m))); split; reflexivity. }
  destruct (charger_type (chip m) =? POWER_SUPPLY_TYPE_USB_CDP); [split; reflexivity|].
  destruct (charger_type (chip m) =? POWER_SUPPLY_TYPE_USB_DCP); [split; reflexivity|].
  destruct (charger_type (chip m) =? POWER_SUPPLY_TYPE_USB_FLOAT); [split; reflexivity|].
  destruct (charger_type (chip m) =? POWER_SUPPLY_TYPE_USB_HVDCP).
  { rewrite bind_run.
    pose proof (negotiation_peer_kept _ _ (bus_step_kept _ _ _
      (regmap_update_bits_step USB_CMD_HVDCP_2_REG FORCE_9V_BIT FORCE_9V_BIT m))) as K.
    destruct (_ <? 0); exact K. }
  destruct (charger_type (chip m) =? POWER_SUPPLY_TYPE_USB_HVDCP_3);
    [|split; reflexivity].
  rewrite bind_run. cbn [snd ret]. apply set_hvdcp3_voltage_peer_kept.
Qed.

(** The handler ends in smb235x_set_icl_sw on what [apsd_select_icl]
    selected, which leaves the chip as the selection left it. *)
Lemma handle_apsd_done_chip m :
  chip (snd (smb235x_handle_apsd_done true m)) = chip (snd (apsd_select_icl m)).
Proof.
  unfold smb235x_handle_apsd_done. cbn [negb]. rewrite bind_run.
  destruct (fst (apsd_select_icl m)) as [icl_ma|]; [|reflexivity].
  rewrite bind_run. cbn [snd ret]. apply set_icl_sw_chip.
Qed.

(** After a successful detection of anything but HVDCP3 the selection
    has reset the base voltage and kept the stored HVDCP3 voltage. *)
Lemma apsd_select_icl_rebaseline m :
  0 <= fst (smb235x_get_chg_type m) ->
  charger_type (chip (snd (smb235x_get_chg_type m))) <> POWER_SUPPLY_TYPE_USB_HVDCP_3 ->
  based_hvdcp_voltage_uv (chip (snd (apsd_select_icl m))) = BASED_VOLTAGE_UV /\
  hvdcp3_voltage_uv (chip (snd (apsd_select_icl m))) = hvdcp3_voltage_uv (chip m).
Proof.
  intros Hrc Hne. unfold apsd_select_icl. rewrite bind_run.
  destruct (get_chg_type_kept m) as (Hv & _).
  set (r0 := smb235x_get_chg_type m) in *.
  destruct (fst r0 <? 0) eqn:Hneg; [apply Z.ltb_lt in Hneg; lia|].
  rewrite bind_run. unfold get_chip. cbn [fst snd].
  assert (Hcond : negb (charger_type (chip (snd r0)) =? POWER_SUPPLY_TYPE_USB_HVDCP_3) = true).
  { apply negb_true_iff. apply Z.eqb_neq. exact Hne. }
  rewrite Hcond. rewrite bind_run. cbn [fst snd update_chip].
  set (m2 := with_chip (set_based_hvdcp_voltage_uv BASED_VOLTAGE_UV (chip (snd r0))) (snd r0)).
  assert (H2 : based_hvdcp_voltage_uv (chip m2) = BASED_VOLTAGE_UV /\
               hvdcp3_voltage_uv (chip m2) = hvdcp3_voltage_uv (chip m)).
  { split; [reflexivity | exact Hv]. }
  assert (Hne2 : charger_type (chip m2) <> POWER_SUPPLY_TYPE_USB_HVDCP_3) by exact Hne.
  pose proof (apsd_type_icl_chip m2 Hne2) as H3.
  rewrite bind_run.
  set (r3 := apsd_type_icl m2) in *.
  destruct (fst r3) as [icl_ma|]; [|cbn [snd ret]; rewrite H3; exact H2].
  rewrite bind_run. unfold get_chip. cbn [fst snd].
  destruct (pd_active (chip (snd r3))); [|cbn [snd ret]; rewrite H3; exact H2].
  rewrite bind_run.
  destruct (get_prop_from_tcpm_run POWER_SUPPLY_PROP_CURRENT_MAX 0 (snd r3))
    as (_ & (K1 & K2 & _) & _).
  set (r4 := smb235x_get_prop_from_tcpm POWER_SUPPLY_PROP_CURRENT_MAX 0 (snd r3)) in *.
  destruct (fst r4) as [rc pval].
  destruct (rc <? 0); cbn [snd ret]; rewrite K1, K2, H3; exact H2.
Qed.


(** C2 (as the code has it).  When the APSD-done handler runs the
    detection and the charger type that results is not HVDCP3, the base
    voltage [based_hvdcp_voltage_uv] is reset to 5.0 V, and the stored
    HVDCP3 voltage [hvdcp3_voltage_uv] is left as it was. *)
Theorem C2_apsd_done_rebaseline (m : machine) :
  0 <= fst (smb235x_get_chg_type m) ->
  charger_type (chip (snd (smb235x_get_chg_type m))) <> POWER_SUPPLY_TYPE_USB_HVDCP_3 ->
  let c' := chip (snd (smb235x_handle_apsd_done true m)) in
  based_hvdcp_voltage_uv c' = BASED_VOLTAGE_UV /\
  hvdcp3_voltage_uv c' = hvdcp3_voltage_uv (chip m).
Proof.
  intros Hrc Hne. cbv zeta. rewrite handle_apsd_done_chip.
  apply apsd_select_icl_rebaseline; assumption.
Qed.

(** With PD active and the peer answering the CURRENT_MAX query, a
    selection that is made is the peer's value in mA. *)
Lemma apsd_select_icl_pd m v icl_ma :
  pd_active (chip m) = true ->
  peer_answer (tcpm_peer m) POWER_SUPPLY_PROP_CURRENT_MAX = Intval v ->
  fst (apsd_select_icl m) = Some icl_ma ->
  icl_ma = v // MICRO_TO_MILLI.
Proof.
  intros Hpd Hpeer. unfold apsd_select_icl. rewrite bind_run.
  pose proof (negotiation_peer_kept _ _ (get_chg_type_kept m)) as K0.
  set (r0 := smb235x_get_chg_type m) in *.
  destruct (fst r0 <? 0); [discriminate|].
  rewrite bind_run. unfold get_chip. cbn [fst snd]. rewrite bind_run.
  rewrite bind_run.
  match goal with |- context [apsd_type_icl (snd (?c (snd r0)))] =>
    assert (K1 : peer_kept (snd r0) (snd (c (snd r0))))
      by (destruct (negb _); split; reflexivity);
    set (m2 := snd (c (snd r0))) in *
  end.
  pose proof (apsd_type_icl_peer_kept m2) as K2.
  set (r3 := apsd_type_icl m2) in *.
  destruct (peer_kept_trans _ _ _ K0 (peer_kept_trans _ _ _ K1 K2)) as (Kp & Kt).
  destruct (fst r3) as [icl0|]; [|discriminate].
  rewrite bind_run. unfold get_chip. cbn [fst snd].
  rewrite Kp, Hpd. rewrite bind_run.
  destruct (get_prop_from_tcpm_run POWER_SUPPLY_PROP_CURRENT_MAX 0 (snd r3)) as (Hq & _).
  rewrite Kt, Hpeer in Hq. rewrite Hq. cbn [fst snd].
  change (0 <? 0) with false. cbn [fst ret]. intros E. now inversion E.
Qed.

(** C3.  In the APSD-done handler, with PD active and the peer
    answering the CURRENT_MAX query with [v] uA, an input current limit
    that gets programmed is [v / 1000] mA: the value of the per-type
    table is dropped, and the handler ends by running
    smb235x_set_icl_sw on the peer's value. *)
Theorem C3_pd_peer_overrides_icl (m : machine) (v icl_ma : Z) :
  pd_active (chip m) = true ->
  peer_answer (tcpm_peer m) POWER_SUPPLY_PROP_CURRENT_MAX = Intval v ->
  fst (apsd_select_icl m) = Some icl_ma ->
  icl_ma = v // MICRO_TO_MILLI /\
  snd (smb235x_handle_apsd_done true m) =
    snd (smb235x_set_icl_sw (v // MICRO_TO_MILLI) (snd (apsd_select_icl m))).
Proof.
  intros Hpd Hpeer Hsel.
  pose proof (apsd_select_icl_pd m v icl_ma Hpd Hpeer Hsel) as ->.
  split; [reflexivity|].
  unfold smb235x_handle_apsd_done. cbn [negb]. rewrite bind_run, Hsel.
  rewrite bind_run. reflexivity.
Qed.

(** ** Operations gated on usb online *)

Lemma get_usb_online_offline m :
  fst (smb235x_get_usb_online m) = false ->
  smb235x_get_usb_online m = (false, snd (regmap_read DCDC_POWER_PATH_STATUS_REG m)).
Proof.
  intros H. rewrite get_usb_online_run in *. cbn [fst] in H. now rewrite H.
Qed.

(** What the gated operations do once usb online is false, whatever
    made it false. *)
Lemma offline_results m pval :
  fst (smb235x_get_usb_online m) = false ->
  let m1 := snd (regmap_read DCDC_POWER_PATH_STATUS_REG m) in
  smb235x_get_chg_type m =
    (0, store_types (Some (POWER_SUPPLY_TYPE_UNKNOWN, POWER_SUPPLY_USB_TYPE_UNKNOWN)) m1) /\
  smb235x_usb_get_prop POWER_SUPPLY_PROP_ONLINE pval m = ((0, 0), m1) /\
  smb235x_usb_get_prop POWER_SUPPLY_PROP_CURRENT_MAX pval m = ((0, 0), m1) /\
  smb235x_usb_get_prop POWER_SUPPLY_PROP_VOLTAGE_MAX pval m = ((0, 0), m1) /\
  smb235x_usb_get_prop POWER_SUPPLY_PROP_VOLTAGE_NOW pval m = ((0, 0), m1) /\
  smb235x_get_prop_battery_status pval m =
    (match fst (regmap_read BATTERY_CHARGER_STATUS_1_REG m1) with
     | (rc, stat) =>
         if rc <? 0 then (rc, pval)
         else (rc, offline_battery_status (Z.land stat BATTERY_CHARGER_STATUS_MASK))
     end,
     snd (regmap_read BATTERY_CHARGER_STATUS_1_REG m1)).
Proof.
  intros Hoff. cbv zeta. pose proof (get_usb_online_offline m Hoff) as Hrun.
  repeat split.
  - rewrite get_chg_type_run. cbv zeta. rewrite Hoff. reflexivity.
  - unfold smb235x_usb_get_prop. rewrite bind_run, Hrun. reflexivity.
  - unfold smb235x_usb_get_prop, smb235x_get_prop_usb_icl.
    rewrite !bind_run, Hrun. reflexivity.
  - unfold smb235x_usb_get_prop, smb235x_get_prop_usb_voltage.
    rewrite !bind_run, Hrun. reflexivity.
  - unfold smb235x_usb_get_prop, smb235x_get_prop_usb_voltage.
    rewrite !bind_run, Hrun. reflexivity.
  - unfold smb235x_get_prop_battery_status, offline_battery_status.
    rewrite bind_run, Hrun. cbn [fst snd]. rewrite bind_run.
    destruct (fst (regmap_read BATTERY_CHARGER_STATUS_1_REG
                     (snd (regmap_read DCDC_POWER_PATH_STATUS_REG m)))) as [rc stat].
    destruct (rc <? 0); [reflexivity|]. cbn [negb].
    destruct ((Z.land stat BATTERY_CHARGER_STATUS_MASK =? TERMINATE_CHARGE)
              || (Z.land stat BATTERY_CHARGER_STATUS_MASK =? INHIBIT_CHARGE));
      reflexivity.
Qed.

(** C7 (as the code has it).  With usb offline and the charger status
    read, the battery status is Full when the masked status is
    TERMINATE_CHARGE or INHIBIT_CHARGE, and Discharging for every other
    value. *)
Theorem C7_offline_battery_status (m : machine) (pval : Z) :
  fst (smb235x_get_usb_online m) = false ->
  hd None (tl (faults (bus m))) = None ->
  let stat := Z.land (to_u32 (regs (bus m) BATTERY_CHARGER_STATUS_1_REG))
                     BATTERY_CHARGER_STATUS_MASK in
  fst (smb235x_get_prop_battery_status pval m) =
    (0, if (stat =? TERMINATE_CHARGE) || (stat =? INHIBIT_CHARGE)
        then POWER_SUPPLY_STATUS_FULL
        else POWER_SUPPLY_STATUS_DISCHARGING).
Proof.
  intros Hoff Hf. cbv zeta.
  destruct (offline_results m pval Hoff) as (_ & _ & _ & _ & _ & ->).
  cbn [fst].
  destruct (regmap_read_step DCDC_POWER_PATH_STATUS_REG m) as (_ & _ & _ & _ & Hfs).
  rewrite regmap_read_rc, Hfs, Hf, regmap_read_regs. reflexivity.
Qed.

(** C10.  When the read of the power-path status register fails,
    smb235x_get_usb_online answers false instead of passing the error
    on, and the operations gated on it report success as for an
    unplugged cable: the detection stores the unknown types and returns
    0, the usb online, current-max and voltage getters return 0 with
    value 0, and the battery status is read off the offline table (Full
    or Discharging) when the charger-status read succeeds.  A machine
    [u] whose power-path read succeeds and reports usb offline, and
    which is otherwise in the same state, gives the very same results. *)
Theorem C10_power_path_failure_as_unplugged (m : machine) (e : errno) (pval : Z) :
  hd None (faults (bus m)) = Some e ->
  let m1 := snd (regmap_read DCDC_POWER_PATH_STATUS_REG m) in
  fst (fst (regmap_read DCDC_POWER_PATH_STATUS_REG m)) < 0 /\
  fst (smb235x_get_usb_online m) = false /\
  (fst (smb235x_get_chg_type m) = 0 /\
   charger_type (chip (snd (smb235x_get_chg_type m))) = POWER_SUPPLY_TYPE_UNKNOWN /\
   usb_type (chip (snd (smb235x_get_chg_type m))) = POWER_SUPPLY_USB_TYPE_UNKNOWN) /\
  fst (smb235x_usb_get_prop POWER_SUPPLY_PROP_ONLINE pval m) = (0, 0) /\
  fst (smb235x_usb_get_prop POWER_SUPPLY_PROP_CURRENT_MAX pval m) = (0, 0) /\
  fst (smb235x_usb_get_prop POWER_SUPPLY_PROP_VOLTAGE_MAX pval m) = (0, 0) /\
  fst (smb235x_usb_get_prop POWER_SUPPLY_PROP_VOLTAGE_NOW pval m) = (0, 0) /\
  (hd None (tl (faults (bus m))) = None ->
   fst (smb235x_get_prop_battery_status pval m) =
     (0, offline_battery_status
           (Z.land (to_u32 (regs (bus m) BATTERY_CHARGER_STATUS_1_REG))
                   BATTERY_CHARGER_STATUS_MASK))) /\
  (forall u : machine,
     hd None (faults (bus u)) = None ->
     usb_online_bits (to_u32 (regs (bus u) DCDC_POWER_PATH_STATUS_REG)) = false ->
     snd (regmap_read DCDC_POWER_PATH_STATUS_REG u) = m1 ->
     smb235x_get_chg_type u = smb235x_get_chg_type m /\
     smb235x_usb_get_prop POWER_SUPPLY_PROP_ONLINE pval u =
       smb235x_usb_get_prop POWER_SUPPLY_PROP_ONLINE pval m /\
     smb235x_usb_get_prop POWER_SUPPLY_PROP_CURRENT_MAX pval u =
       smb235x_usb_get_prop POWER_SUPPLY_PROP_CURRENT_MAX pval m /\
     smb235x_usb_get_prop POWER_SUPPLY_PROP_VOLTAGE_MAX pval u =
       smb235x_usb_get_prop POWER_SUPPLY_PROP_VOLTAGE_MAX pval m /\
     smb235x_usb_get_prop POWER_SUPPLY_PROP_VOLTAGE_NOW pval u =
       smb235x_usb_get_prop POWER_SUPPLY_PROP_VOLTAGE_NOW pval m /\
     smb235x_get_prop_battery_status pval u =
       smb235x_get_prop_battery_status pval m).
Proof.
  intros Hf. cbv zeta.
  assert (Hoff : fst (smb235x_get_usb_online m) = false).
  { rewrite get_usb_online_run. cbn [fst]. now rewrite Hf. }
  destruct (offline_results m pval Hoff) as (E1 & E2 & E3 & E4 & E5 & E6).
  split. { rewrite regmap_read_rc, Hf. cbn [fst]. lia. }
  split; [exact Hoff|].
  split. { rewrite E1. repeat split; reflexivity. }
  split. { now rewrite E2. }
  split. { now rewrite E3. }
  split. { now rewrite E4. }
  split. { now rewrite E5. }
  split.
  - intros Hf2. rewrite E6. cbn [fst].
    destruct (regmap_read_step DCDC_POWER_PATH_STATUS_REG m) as (_ & _ & _ & _ & Hfs).
    rewrite regmap_read_rc, Hfs, Hf2, regmap_read_regs. reflexivity.
  - intros u Hu Hbits Hsame.
    assert (Hoffu : fst (smb235x_get_usb_online u) = false).
    { rewrite get_usb_online_run. cbn [fst]. now rewrite Hu. }
    destruct (offline_results u pval Hoffu) as (U1 & U2 & U3 & U4 & U5 & U6).
    rewrite Hsame in U1, U2, U3, U4, U5, U6.
    rewrite E1, E2, E3, E4, E5, E6, U1, U2, U3, U4, U5, U6. repeat split; reflexivity.
Qed.

(** ** Register codes *)

Lemma issued_chrono {A : Type} (c : M A) (m : machine) (ops : list bus_op) :
  log (bus (snd (c m))) = rev ops ++ log (bus m) -> issued c m = ops.
Proof. intros E. rewrite (issued_of_log _ _ _ E). apply rev_involutive. Qed.

Lemma to_u8_id z : fits_u8 z -> to_u8 z = z.
Proof. unfold fits_u8, to_u8. intros H. apply Z.mod_small. lia. Qed.

(** C8.  On a bus without faults, and for currents whose code fits the
    8-bit register, the code written for the fast-charge current and
    for the maximum fast-charge current is [ua / 1000 / 50 + 1], the
    code written for the trickle, pre-charge and maximum pre-charge
    currents is [ua / 1000 / 50], and the code written for the input
    current limit is [ma / 50].  The float voltage code sits between
    them in the configuration sequence. *)
Theorem C8_register_codes (m : machine) (fcc_ua icl_ma : Z) :
  faults (bus m) = [] ->
  let c := chip m in
  fits_u8 (fastchg_curr_ua c // MICRO_TO_MILLI // CURRENT_STEP_MA + 1) ->
  fits_u8 (max_fcc_ua c // MICRO_TO_MILLI // CURRENT_STEP_MA + 1) ->
  fits_u8 (trickle_charge_current_ua c // MICRO_TO_MILLI // CURRENT_STEP_MA) ->
  fits_u8 (pre_charge_current_ua c // MICRO_TO_MILLI // CURRENT_STEP_MA) ->
  fits_u8 (max_pre_charge_current_ua c // MICRO_TO_MILLI // CURRENT_STEP_MA) ->
  fits_u8 (fcc_ua // MICRO_TO_MILLI // CURRENT_STEP_MA + 1) ->
  fits_u8 (icl_ma // CURRENT_STEP_MA) ->
  issued smb235x_config_chg_current_voltage m =
    [ RegWrite CHGR_FAST_CHARGE_CURRENT_CFG_REG
        (fastchg_curr_ua c // MICRO_TO_MILLI // CURRENT_STEP_MA + 1);
      RegWrite CHGR_MAX_FAST_CHARGE_CURRENT_CFG_REG
        (max_fcc_ua c // MICRO_TO_MILLI // CURRENT_STEP_MA + 1);
      RegWrite CHGR_FLOAT_VOLTAGE_CFG_REG
        (to_u8 ((float_volt_uv c // MICRO_TO_MILLI - FLOAT_VOLTAGE_BASE_MV)
                // FLOAT_VOLTAGE_STEP_MV));
      RegWrite CHGR_TRICKLE_CHARGE_CURRENT_CFG_REG
        (trickle_charge_current_ua c // MICRO_TO_MILLI // CURRENT_STEP_MA);
      RegWrite CHGR_PRE_CHARGE_CURRENT_CFG_REG
        (pre_charge_current_ua c // MICRO_TO_MILLI // CURRENT_STEP_MA);
      RegWrite CHGR_MAX_PRE_CHARGER_CURRENT_CFG_REG
        (max_pre_charge_current_ua c // MICRO_TO_MILLI // CURRENT_STEP_MA) ] /\
  issued (smb235x_set_fcc fcc_ua) m =
    [ RegWrite CHGR_FAST_CHARGE_CURRENT_CFG_REG
        (fcc_ua // MICRO_TO_MILLI // CURRENT_STEP_MA + 1) ] /\
  issued (smb235x_set_icl_sw icl_ma) m =
    [ RegUpdateBits USBIN_LOAD_CFG_REG
        ICL_OVERRIDE_AFTER_APSD_BIT ICL_OVERRIDE_AFTER_APSD_BIT;
      RegUpdateBits USB_CMD_ICL_OVERRIDE_REG ICL_OVERRIDE_BIT ICL_OVERRIDE_BIT;
      RegWrite USBIN_CURRENT_LIMIT_CFG_REG (icl_ma // CURRENT_STEP_MA) ].
Proof.
  intros Hf. cbv zeta. intros H1 H2 H3 H4 H5 H6 H7.
  destruct m as [c [r f l] bs ts]. cbn [chip bus faults] in *. subst f.
  split; [|split]; apply issued_chrono.
  - unfold smb235x_config_chg_current_voltage.
    rewrite bind_run. unfold get_chip. cbn [fst snd chip].
    rewrite (to_u8_id _ H1), (to_u8_id _ H2), (to_u8_id _ H3), (to_u8_id _ H4),
      (to_u8_id _ H5).
    reflexivity.
  - unfold smb235x_set_fcc. cbv zeta. rewrite (to_u8_id _ H6). reflexivity.
  - unfold smb235x_set_icl_sw. cbv zeta. rewrite (to_u8_id _ H7). reflexivity.
Qed.

(** ** State of charge *)

Lemma div_round_closest_percent x :
  0 <= x -> DIV_ROUND_CLOSEST x 100 = (x + 50) / 100.
Proof.
  intros Hx. unfold DIV_ROUND_CLOSEST.
  change (100 // 2) with 50. change (0 <? 100) with true.
  destruct (Z.ltb_spec 0 x) as [Hpos|Hzero]; cbn [Bool.eqb].
  - apply Z.quot_div_nonneg; lia.
  - assert (x = 0) by lia. subst x. reflexivity.
Qed.

Lemma log_grows_refl m : log_grows m m.
Proof. exists []. reflexivity. Qed.

Lemma log_grows_trans m1 m2 m3 : log_grows m1 m2 -> log_grows m2 m3 -> log_grows m1 m3.
Proof.
  intros (l1 & H1) (l2 & H2). exists (l2 ++ l1). now rewrite H2, H1, app_assoc.
Qed.

Lemma log_grows_bus m m' : bus m' = bus m -> log_grows m m'.
Proof. intros E. exists []. now rewrite E. Qed.

Lemma log_grows_step op m m' : bus_step op m m' -> log_grows m m'.
Proof. intros (_ & _ & _ & Hl & _). exists [op]. exact Hl. Qed.

(** The reconciliation of current and voltage only adds to the log. *)
Lemma update_fv_fcc_log m : log_grows m (snd (smb235x_update_fv_fcc m)).
Proof.
  unfold smb235x_update_fv_fcc. rewrite bind_run.
  destruct (get_prop_from_bms_run POWER_SUPPLY_PROP_CONSTANT_CHARGE_CURRENT_MAX 0 m)
    as (_ & Hb1 & _).
  pose proof (log_grows_bus _ _ Hb1) as G1.
  set (q1 := smb235x_get_prop_from_bms _ 0 m) in *.
  destruct (fst q1) as [rc1 pval1]. cbn [fst snd].
  destruct (rc1 <? 0); [exact G1|].
  rewrite bind_run. unfold get_chip. cbn [fst snd]. rewrite bind_run.
  match goal with |- context [fst (?c (snd q1)) <? 0] =>
    assert (G2 : log_grows (snd q1) (snd (c (snd q1))));
      [|set (r2 := c (snd q1)) in *]
  end.
  { destruct (negb _); [|apply log_grows_refl].
    rewrite bind_run. unfold smb235x_set_fcc. cbv zeta.
    match goal with |- context [regmap_write ?a ?x (snd q1)] =>
      pose proof (log_grows_step _ _ _ (regmap_write_step a x (snd q1))) as G;
      set (w := regmap_write a x (snd q1)) in *
    end.
    destruct (fst w <? 0); [exact G|].
    rewrite bind_run. exact G. }
  pose proof (log_grows_trans _ _ _ G1 G2) as G12. clearbody r2.
  destruct (fst r2 <? 0); [exact G12|].
  rewrite bind_run.
  destruct (get_prop_from_bms_run POWER_SUPPLY_PROP_CONSTANT_CHARGE_VOLTAGE_MAX
              pval1 (snd r2)) as (_ & Hb3 & _).
  pose proof (log_grows_trans _ _ _ G12 (log_grows_bus _ _ Hb3)) as G3.
  set (q3 := smb235x_get_prop_from_bms _ pval1 (snd r2)) in *.
  destruct (fst q3) as [rc3 pval3]. cbn [fst snd].
  destruct (rc3 <? 0); [exact G3|].
  rewrite bind_run. unfold get_chip. cbn [fst snd].
  destruct (negb _); [|exact G3].
  rewrite bind_run. unfold smb235x_set_fv. cbv zeta.
  match goal with |- context [regmap_write ?a ?x (snd q3)] =>
    pose proof (log_grows_trans _ _ _ G3
                  (log_grows_step _ _ _ (regmap_write_step a x (snd q3)))) as G4;
    set (w := regmap_write a x (snd q3)) in *
  end.
  destruct (fst w <? 0); exact G4.
Qed.

(** With the fuel gauge reporting a capacity between 0 and 100,
    smb235x_update_soc starts by writing the rescaled value. *)
Lemma update_soc_log m capacity :
  peer_answer (bms_peer m) POWER_SUPPLY_PROP_CAPACITY = Intval capacity ->
  0 <= capacity <= 100 ->
  exists rest,
    log (bus (snd (smb235x_update_soc m))) =
    rev (RegWrite CHGR_STEP_CHG_SOC_VBATT_V_REG ((capacity * 255 + 50) / 100) :: rest)
      ++ log (bus m).
Proof.
  intros Hpeer Hcap.
  assert (Hsoc : fits_u8 ((capacity * 255 + 50) / 100)).
  { split; [apply Z.div_pos; lia|].
    assert ((capacity * 255 + 50) / 100 < 256) by (apply Z.div_lt_upper_bound; lia).
    lia. }
  destruct (get_prop_from_bms_run POWER_SUPPLY_PROP_CAPACITY 0 m) as (Hq & Hbus & _).
  rewrite Hpeer in Hq.
  assert (Hcode : to_u8 (DIV_ROUND_CLOSEST (wrap_int (capacity * 255)) 100) =
                  (capacity * 255 + 50) / 100).
  { rewrite wrap_int_id by (unfold INT_MIN, INT_MAX; lia).
    rewrite div_round_closest_percent by lia.
    apply to_u8_id. exact Hsoc. }
  unfold smb235x_update_soc. rewrite bind_run.
  set (q := smb235x_get_prop_from_bms POWER_SUPPLY_PROP_CAPACITY 0 m) in *.
  rewrite Hq. cbn [fst snd]. change (0 <? 0) with false.
  cbv beta iota zeta. rewrite bind_run, Hcode.
  destruct (regmap_write_step CHGR_STEP_CHG_SOC_VBATT_V_REG
              ((capacity * 255 + 50) / 100) (snd q)) as (_ & _ & _ & Hl1 & _).
  rewrite Hbus in Hl1.
  set (w := regmap_write CHGR_STEP_CHG_SOC_VBATT_V_REG
              ((capacity * 255 + 50) / 100) (snd q)) in *.
  destruct (fst w <? 0).
  - exists []. cbn [snd ret rev app]. exact Hl1.
  - rewrite bind_run. cbn [snd ret].
    destruct (regmap_update_bits_step CHGR_STEP_CHG_SOC_VBATT_V_UPDATE_REG
                CHGR_STEP_SOC_VBATT_V_UPDATE_BIT CHGR_STEP_SOC_VBATT_V_UPDATE_BIT
                (snd w)) as (_ & _ & _ & Hl2 & _).
    exists [RegUpdateBits CHGR_STEP_CHG_SOC_VBATT_V_UPDATE_REG
              CHGR_STEP_SOC_VBATT_V_UPDATE_BIT CHGR_STEP_SOC_VBATT_V_UPDATE_BIT].
    rewrite Hl2, Hl1. reflexivity.
Qed.

(** C9.  With the fuel gauge reporting a capacity between 0 and 100,
    the first thing a cycle of the periodic task (smb235x_update_work,
    through smb235x_update_soc) does on the bus is to write the
    step-charge SOC register with [soc = (capacity * 255 + 50) / 100],
    the integer nearest to [capacity * 255 / 100]; it lies between 0 and
    255, capacity 100 gives 255 and capacity 50 gives 128. *)
Theorem C9_soc_rescale (m : machine) (capacity : Z) :
  peer_answer (bms_peer m) POWER_SUPPLY_PROP_CAPACITY = Intval capacity ->
  0 <= capacity <= 100 ->
  let soc := (capacity * 255 + 50) / 100 in
  hd_error (issued smb235x_update_soc m) =
    Some (RegWrite CHGR_STEP_CHG_SOC_VBATT_V_REG soc) /\
  hd_error (issued smb235x_update_work m) =
    Some (RegWrite CHGR_STEP_CHG_SOC_VBATT_V_REG soc) /\
  0 <= soc <= 255 /\
  Z.abs (100 * soc - 255 * capacity) <= 50 /\
  (capacity = 100 -> soc = 255) /\
  (capacity = 50 -> soc = 128).
Proof.
  intros Hpeer Hcap. cbv zeta.
  destruct (update_soc_log m capacity Hpeer Hcap) as (rest & Hlog).
  split; [rewrite (issued_chrono _ _ _ Hlog); reflexivity|].
  split.
  { destruct (update_fv_fcc_log (snd (smb235x_update_soc m))) as (l & Hl).
    assert (Hw : log (bus (snd (smb235x_update_work m))) =
                 rev ((RegWrite CHGR_STEP_CHG_SOC_VBATT_V_REG
                         ((capacity * 255 + 50) / 100) :: rest) ++ rev l)
                 ++ log (bus m)).
    { unfold smb235x_update_work. rewrite bind_run, Hl, Hlog.
      now rewrite rev_app_distr, rev_involutive, app_assoc. }
    rewrite (issued_chrono _ _ _ Hw). reflexivity. }
  split.
  { split; [apply Z.div_pos; lia|].
    assert ((capacity * 255 + 50) / 100 < 256) by (apply Z.div_lt_upper_bound; lia).
    lia. }
  split.
  { pose proof (Z.div_mod (capacity * 255 + 50) 100 ltac:(lia)) as Hdm.
    pose proof (Z.mod_pos_bound (capacity * 255 + 50) 100 ltac:(lia)) as Hmb.
    lia. }
  split; intros ->; reflexivity.
Qed.

(** ** Setting the charge voltage and current *)

(** What smb235x_batt_set_prop leaves in the cache: the value of the
    fuel gauge when it answers, the caller's otherwise, whether or not
    the register write succeeds; the result code is that of the write. *)
Lemma batt_set_prop_cache m pval :
  let chosen prop :=
    match peer_answer (bms_peer m) prop with
    | Intval v => v
    | Enoprop _ => pval
    end in
  let rc := match hd None (faults (bus m)) with Some e => Z.neg e | None => 0 end in
  (let r := smb235x_batt_set_prop POWER_SUPPLY_PROP_CONSTANT_CHARGE_VOLTAGE_MAX pval m in
   fst r = rc /\
   float_volt_uv (chip (snd r)) =
     chosen POWER_SUPPLY_PROP_CONSTANT_CHARGE_VOLTAGE_MAX) /\
  (let r := smb235x_batt_set_prop POWER_SUPPLY_PROP_CONSTANT_CHARGE_CURRENT_MAX pval m in
   fst r = rc /\
   fastchg_curr_ua (chip (snd r)) =
     chosen POWER_SUPPLY_PROP_CONSTANT_CHARGE_CURRENT_MAX).
Proof.
  cbv zeta. split.
  - unfold smb235x_batt_set_prop. rewrite bind_run.
    destruct (get_prop_from_bms_run POWER_SUPPLY_PROP_CONSTANT_CHARGE_VOLTAGE_MAX 0 m)
      as (Hq & Hbus & _).
    set (q := smb235x_get_prop_from_bms _ 0 m) in *.
    rewrite Hq. unfold smb235x_set_fv.
    destruct (peer_answer (bms_peer m) _) as [v|e]; cbn [fst snd];
      rewrite !bind_run; unfold get_chip, update_chip; cbn [fst snd];
      match goal with |- context [regmap_write ?a ?v ?mm] =>
        destruct (regmap_write_step a v mm) as (Hc & _);
        pose proof (regmap_write_rc a v mm) as Hrc;
        cbn [bus with_chip] in Hrc; rewrite Hbus in Hrc
      end;
      (split; [exact Hrc | rewrite Hc; reflexivity]).
  - unfold smb235x_batt_set_prop. rewrite bind_run.
    destruct (get_prop_from_bms_run POWER_SUPPLY_PROP_CONSTANT_CHARGE_CURRENT_MAX 0 m)
      as (Hq & Hbus & _).
    set (q := smb235x_get_prop_from_bms _ 0 m) in *.
    rewrite Hq. unfold smb235x_set_fcc.
    destruct (peer_answer (bms_peer m) _) as [v|e]; cbn [fst snd];
      rewrite !bind_run; unfold get_chip, update_chip; cbn [fst snd];
      match goal with |- context [regmap_write ?a ?v ?mm] =>
        destruct (regmap_write_step a v mm) as (Hc & _);
        pose proof (regmap_write_rc a v mm) as Hrc;
        cbn [bus with_chip] in Hrc; rewrite Hbus in Hrc
      end;
      (split; [exact Hrc | rewrite Hc; reflexivity]).
Qed.

(** The periodic reconciler keeps the cached fast-charge current when
    the write of a new value fails. *)
Lemma update_fv_fcc_failed_write m v e :
  peer_answer (bms_peer m) POWER_SUPPLY_PROP_CONSTANT_CHARGE_CURRENT_MAX = Intval v ->
  fastchg_curr_ua (chip m) <> v ->
  hd None (faults (bus m)) = Some e ->
  fastchg_curr_ua (chip (snd (smb235x_update_fv_fcc m))) = fastchg_curr_ua (chip m) /\
  float_volt_uv (chip (snd (smb235x_update_fv_fcc m))) = float_volt_uv (chip m).
Proof.
  intros Hpeer Hne Hf. unfold smb235x_update_fv_fcc. rewrite bind_run.
  destruct (get_prop_from_bms_run POWER_SUPPLY_PROP_CONSTANT_CHARGE_CURRENT_MAX 0 m)
    as (Hq & Hbus & Hfv & Hfcc).
  rewrite Hpeer in Hq.
  set (q := smb235x_get_prop_from_bms _ 0 m) in *.
  rewrite Hq. cbn [fst snd]. change (0 <? 0) with false. cbv beta iota zeta.
  rewrite bind_run. unfold get_chip. cbn [fst snd].
  rewrite Hfcc.
  assert (Hneq : negb (fastchg_curr_ua (chip m) =? v) = true)
    by (apply negb_true_iff, Z.eqb_neq; exact Hne).
  rewrite Hneq. rewrite !bind_run. unfold smb235x_set_fcc. cbv zeta.
  match goal with |- context [regmap_write ?a ?x (snd q)] =>
    destruct (regmap_write_step a x (snd q)) as (Hc & _);
    pose proof (regmap_write_rc a x (snd q)) as Hrc;
    rewrite Hbus, Hf in Hrc;
    set (w := regmap_write a x (snd q)) in *
  end.
  rewrite Hrc. change (Z.neg e <? 0) with true. cbv beta iota.
  cbn [fst snd ret]. change (Z.neg e <? 0) with true. cbv beta iota.
  cbn [snd ret]. rewrite Hc. split; assumption.
Qed.

End Properties.

(** * Scenarios on the sample platform *)

Import Sample.

(** C1, counterexample.  After the charger has been raised to 9 V and
    to 12 V, a request for 5.0 V issues 35 decrement pulses although the
    maximum pulse count is 20. *)
Lemma C1_counterexample :
  BASED_VOLTAGE_UV <= 5000000 /\
  hvdcp_pulse_count_max (chip raised_12v) = 20 /\
  pulses_issued (smb235x_set_hvdcp3_voltage 5000000) raised_12v = 35 /\
  ~ pulses_issued (smb235x_set_hvdcp3_voltage 5000000) raised_12v
      <= hvdcp_pulse_count_max (chip raised_12v).
Proof.
  assert (H : pulses_issued (smb235x_set_hvdcp3_voltage 5000000) raised_12v = 35)
    by (vm_compute; reflexivity).
  assert (Hmax : hvdcp_pulse_count_max (chip raised_12v) = 20)
    by (vm_compute; reflexivity).
  split; [unfold BASED_VOLTAGE_UV; lia|]. split; [exact Hmax|]. split; [exact H|].
  rewrite H, Hmax. lia.
Qed.

(** C1 on the sample platform: 20 increments from 5 V to 9 V (the
    clamp and the count agree), 35 decrements from 12 V to 5 V. *)
Lemma C1_witness :
  pulses_issued (smb235x_set_hvdcp3_voltage 9000000) idle <= 20 /\
  pulses_issued (smb235x_set_hvdcp3_voltage 9000000) idle = 20 /\
  pulses_issued (smb235x_set_hvdcp3_voltage 5000000) raised_12v = 35.
Proof.
  assert (Hv : BASED_VOLTAGE_UV <= 9000000) by (unfold BASED_VOLTAGE_UV; lia).
  assert (Hv' : BASED_VOLTAGE_UV <= 5000000) by (unfold BASED_VOLTAGE_UV; lia).
  destruct (C1_hvdcp3_pulse_count idle 9000000 Hv) as (Hup & _).
  destruct (C1_hvdcp3_pulse_count raised_12v 5000000 Hv') as (_ & Hdown).
  destruct Hup as (Hle & Heq).
  - vm_compute. reflexivity.
  - vm_compute. discriminate.
  - vm_compute. discriminate.
  - destruct Hdown as (_ & Heq').
    + vm_compute. discriminate.
    + vm_compute. split; discriminate.
    + split; [exact Hle|]. split.
      * rewrite Heq by reflexivity. vm_compute. reflexivity.
      * rewrite Heq' by reflexivity. vm_compute. reflexivity.
Defined.

(** C2, counterexample.  A DCP charger is detected after an HVDCP3
    charger had been raised to 12 V: the handler resets the base to
    5.0 V, and the stored HVDCP3 voltage stays at 12 V instead of going
    back to the 9.0 V default. *)
Lemma C2_counterexample :
  0 <= fst (smb235x_get_chg_type dcp_after_hvdcp3) /\
  charger_type (chip (snd (smb235x_handle_apsd_done true dcp_after_hvdcp3)))
    = POWER_SUPPLY_TYPE_USB_DCP /\
  POWER_SUPPLY_TYPE_USB_DCP <> POWER_SUPPLY_TYPE_USB_HVDCP_3 /\
  based_hvdcp_voltage_uv (chip (snd (smb235x_handle_apsd_done true dcp_after_hvdcp3)))
    = BASED_VOLTAGE_UV /\
  hvdcp3_voltage_uv (chip (snd (smb235x_handle_apsd_done true dcp_after_hvdcp3)))
    = 12000000 /\
  hvdcp3_voltage_uv (chip (snd (smb235x_handle_apsd_done true dcp_after_hvdcp3)))
    <> QC3_DEFAULT_VOLTAGE_UV.
Proof.
  split; [vm_compute; discriminate|].
  split; [vm_compute; reflexivity|].
  split; [vm_compute; discriminate|].
  split; [vm_compute; reflexivity|].
  split; [vm_compute; reflexivity|].
  vm_compute. discriminate.
Qed.

(** C2 on the sample platform: the DCP charger detected after the
    12 V session. *)
Lemma C2_witness :
  based_hvdcp_voltage_uv (chip (snd (smb235x_handle_apsd_done true dcp_after_hvdcp3)))
    = BASED_VOLTAGE_UV /\
  hvdcp3_voltage_uv (chip (snd (smb235x_handle_apsd_done true dcp_after_hvdcp3)))
    = hvdcp3_voltage_uv (chip dcp_after_hvdcp3).
Proof.
  apply (C2_apsd_done_rebaseline dcp_after_hvdcp3).
  - vm_compute. discriminate.
  - vm_compute. discriminate.
Defined.

(** C3, the scenario of the specification: PD active, the peer offers
    900000 uA, the charger detects a DCP.  The limit programmed is
    900 mA, code 18; without the PD flag the table value 1500 mA, code
    30, is programmed. *)
Lemma C3_witness :
  fst (apsd_select_icl dcp_pd) = Some 900 /\
  fst (apsd_select_icl dcp_no_pd) = Some 1500 /\
  last (issued (smb235x_handle_apsd_done true) dcp_pd) (RegRead 0)
    = RegWrite USBIN_CURRENT_LIMIT_CFG_REG 18 /\
  last (issued (smb235x_handle_apsd_done true) dcp_no_pd) (RegRead 0)
    = RegWrite USBIN_CURRENT_LIMIT_CFG_REG 30 /\
  900 = 900000 // MICRO_TO_MILLI /\
  snd (smb235x_handle_apsd_done true dcp_pd) =
    snd (smb235x_set_icl_sw (900000 // MICRO_TO_MILLI) (snd (apsd_select_icl dcp_pd))).
Proof.
  split; [vm_compute; reflexivity|].
  split; [vm_compute; reflexivity|].
  split; [vm_compute; reflexivity|].
  split; [vm_compute; reflexivity|].
  apply (C3_pd_peer_overrides_icl dcp_pd 900000 900).
  - reflexivity.
  - reflexivity.
  - vm_compute. reflexivity.
Defined.

(** C4 on the sample platform: Float and DCP bits both set. *)
Lemma C4_witness :
  fst (smb235x_get_chg_type float_and_dcp) = 0 /\
  charger_type (chip (snd (smb235x_get_chg_type float_and_dcp)))
    = POWER_SUPPLY_TYPE_USB_DCP /\
  usb_type (chip (snd (smb235x_get_chg_type float_and_dcp)))
    = POWER_SUPPLY_USB_TYPE_DCP.
Proof.
  assert (H1 : hd None (faults (bus float_and_dcp)) = None) by reflexivity.
  assert (H2 : usb_online_bits
                 (to_u32 (regs (bus float_and_dcp) DCDC_POWER_PATH_STATUS_REG)) = true)
    by (vm_compute; reflexivity).
  assert (H3 : peer_defers
                 (peer_answer (tcpm_peer float_and_dcp) POWER_SUPPLY_PROP_USB_TYPE) = true)
    by reflexivity.
  assert (H4 : hd None (tl (faults (bus float_and_dcp))) = None) by reflexivity.
  destruct (C4_autonomous_detection_last_match float_and_dcp H1 H2 H3 H4)
    as (Hrc & _ & Hfd).
  split; [exact Hrc|].
  apply Hfd; vm_compute; reflexivity.
Defined.

(** C5, counterexample.  The read of the power-path status fails with
    -EIO, and the detection returns 0. *)
Lemma C5_counterexample :
  fst (fst (regmap_read DCDC_POWER_PATH_STATUS_REG power_path_fault)) = Z.neg EIO /\
  fst (smb235x_get_chg_type power_path_fault) = 0 /\
  ~ fst (smb235x_get_chg_type power_path_fault) < 0.
Proof.
  split; [vm_compute; reflexivity|].
  split; [vm_compute; reflexivity|].
  vm_compute. discriminate.
Qed.

(** The failure of the result read, in contrast, is returned. *)
Lemma C5_witness :
  fst (smb235x_get_chg_type result_fault) < 0 /\
  fst (smb235x_get_chg_type power_path_fault) = 0.
Proof.
  destruct (C5_detect_io_error result_fault) as (Hiff & _).
  destruct (C5_detect_io_error power_path_fault) as (_ & Hpp).
  split.
  - apply Hiff. repeat split; try reflexivity. vm_compute. discriminate.
  - apply Hpp. vm_compute. discriminate.
Defined.

(** C6, at the failing input.  No fuel gauge, the cached float voltage
    is 8.8 V, the caller asks for 8.4 V and the register write fails
    with -EIO: the call returns -EIO and the cache holds 8.4 V.  The
    periodic reconciler, on the same failure, keeps its caches. *)
Lemma C6_batt_set_prop_failed_write :
  float_volt_uv (chip write_fault) = 8800000 /\
  fst (smb235x_batt_set_prop POWER_SUPPLY_PROP_CONSTANT_CHARGE_VOLTAGE_MAX
         8400000 write_fault) = Z.neg EIO /\
  float_volt_uv
    (chip (snd (smb235x_batt_set_prop POWER_SUPPLY_PROP_CONSTANT_CHARGE_VOLTAGE_MAX
                  8400000 write_fault))) = 8400000 /\
  fastchg_curr_ua (chip gauged_write_fault) = 3250000 /\
  fastchg_curr_ua (chip (snd (smb235x_update_fv_fcc gauged_write_fault))) = 3250000.
Proof. repeat split; vm_compute; reflexivity. Qed.

(** C7, counterexample.  Usb offline and the charger status is
    INHIBIT_CHARGE, which is not TERMINATE_CHARGE: the battery status
    is Full, not Discharging. *)
Lemma C7_counterexample :
  fst (smb235x_get_usb_online (offline INHIBIT_CHARGE)) = false /\
  INHIBIT_CHARGE <> TERMINATE_CHARGE /\
  fst (smb235x_get_prop_battery_status 0 (offline INHIBIT_CHARGE))
    = (0, POWER_SUPPLY_STATUS_FULL) /\
  POWER_SUPPLY_STATUS_FULL <> POWER_SUPPLY_STATUS_DISCHARGING.
Proof.
  split; [vm_compute; reflexivity|].
  split; [vm_compute; discriminate|].
  split; [vm_compute; reflexivity|].
  vm_compute. discriminate.
Qed.

(** C7 on the sample platform: TERMINATE_CHARGE reads Full,
    FULLON_CHARGE reads Discharging. *)
Lemma C7_witness :
  fst (smb235x_get_prop_battery_status 0 (offline TERMINATE_CHARGE))
    = (0, POWER_SUPPLY_STATUS_FULL) /\
  fst (smb235x_get_prop_battery_status 0 (offline FULLON_CHARGE))
    = (0, POWER_SUPPLY_STATUS_DISCHARGING).
Proof.
  split.
  - rewrite (C7_offline_battery_status (offline TERMINATE_CHARGE) 0)
      by (vm_compute; reflexivity).
    vm_compute. reflexivity.
  - rewrite (C7_offline_battery_status (offline FULLON_CHARGE) 0)
      by (vm_compute; reflexivity).
    vm_compute. reflexivity.
Defined.

(** C8 on the sample platform: the codes of the compiled-in defaults,
    of a 3.0 A fast-charge current and of a 1500 mA input limit. *)
Lemma C8_witness :
  issued smb235x_config_chg_current_voltage idle =
    [ RegWrite CHGR_FAST_CHARGE_CURRENT_CFG_REG 66;
      RegWrite CHGR_MAX_FAST_CHARGE_CURRENT_CFG_REG 66;
      RegWrite CHGR_FLOAT_VOLTAGE_CFG_REG 80;
      RegWrite CHGR_TRICKLE_CHARGE_CURRENT_CFG_REG 1;
      RegWrite CHGR_PRE_CHARGE_CURRENT_CFG_REG 15;
      RegWrite CHGR_MAX_PRE_CHARGER_CURRENT_CFG_REG 20 ] /\
  issued (smb235x_set_fcc 3000000) idle =
    [ RegWrite CHGR_FAST_CHARGE_CURRENT_CFG_REG 61 ] /\
  issued (smb235x_set_icl_sw 1500) idle =
    [ RegUpdateBits USBIN_LOAD_CFG_REG
        ICL_OVERRIDE_AFTER_APSD_BIT ICL_OVERRIDE_AFTER_APSD_BIT;
      RegUpdateBits USB_CMD_ICL_OVERRIDE_REG ICL_OVERRIDE_BIT ICL_OVERRIDE_BIT;
      RegWrite USBIN_CURRENT_LIMIT_CFG_REG 30 ].
Proof.
  apply (C8_register_codes idle 3000000 1500);
    first [ reflexivity | vm_compute; split; discriminate ].
Defined.

(** C9 on the sample platform: capacity 50 is written as 128,
    capacity 100 as 255. *)
Lemma C9_witness :
  hd_error (issued smb235x_update_soc (gauged 50)) =
    Some (RegWrite CHGR_STEP_CHG_SOC_VBATT_V_REG 128) /\
  hd_error (issued smb235x_update_soc (gauged 100)) =
    Some (RegWrite CHGR_STEP_CHG_SOC_VBATT_V_REG 255).
Proof.
  split.
  - apply (C9_soc_rescale (gauged 50) 50); [reflexivity | lia].
  - apply (C9_soc_rescale (gauged 100) 100); [reflexivity | lia].
Defined.

(** C10 on the sample platform: a DCP charger is plugged in and the
    power-path read fails with -EIO. *)
Lemma C10_witness :
  fst (smb235x_get_usb_online power_path_fault) = false /\
  fst (smb235x_get_chg_type power_path_fault) = 0 /\
  fst (smb235x_usb_get_prop POWER_SUPPLY_PROP_ONLINE 0 power_path_fault) = (0, 0) /\
  fst (smb235x_get_prop_battery_status 0 power_path_fault)
    = (0, POWER_SUPPLY_STATUS_FULL).
Proof.
  assert (Hf : hd None (faults (bus power_path_fault)) = Some EIO) by reflexivity.
  destruct (C10_power_path_failure_as_unplugged power_path_fault EIO 0 Hf)
    as (_ & Hoff & (Hrc & _) & Honl & _ & _ & _ & Hbat & _).
  split; [exact Hoff|]. split; [exact Hrc|]. split; [exact Honl|].
  rewrite Hbat by reflexivity. vm_compute. reflexivity.
Defined.

(** * Further properties of the driver *)

Section RestProperties.

Context {R : smb235x_reg} {P : power_supply_abi}.
Context {R' : smb235x_reg_init} {P' : power_supply_abi_batt}.

(** ** smb235x_set_hvdcp3_voltage *)

Lemma hvdcp_pulses_rc n bit : forall m, fst (hvdcp_pulses n bit m) <= 0.
Proof.
  induction n as [|n IH]; intros m; simpl; [lia|].
  rewrite bind_run.
  destruct (fst (regmap_update_bits USB_CMD_HVDCP_2_REG bit bit m) <? 0) eqn:E.
  - apply Z.ltb_lt in E. cbn [fst ret]. lia.
  - apply IH.
Qed.

(** The shape of a call with a target of at least 5.0 V: a pulse train
    [p] from the machine, then the two stores when it did not fail. *)
Lemma set_hvdcp3_voltage_shape m voltage_uv :
  BASED_VOLTAGE_UV <= voltage_uv ->
  exists p : Z * machine,
    fst p <= 0 /\ chip (snd p) = chip m /\
    smb235x_set_hvdcp3_voltage voltage_uv m =
      if fst p <? 0 then (fst p, snd p)
      else (0, with_chip
                 (set_based_hvdcp_voltage_uv voltage_uv
                    (set_hvdcp3_voltage_uv voltage_uv (chip (snd p))))
                 (snd p)).
Proof.
  intros Hv. unfold smb235x_set_hvdcp3_voltage.
  destruct (voltage_uv <? BASED_VOLTAGE_UV) eqn:Hlt; [apply Z.ltb_lt in Hlt; lia|].
  rewrite bind_run. unfold get_chip. cbn [fst snd]. rewrite bind_run.
  match goal with |- context [fst (?c m) <? 0] => exists (c m) end.
  split; [|split].
  - destruct (voltage_uv >? based_hvdcp_voltage_uv (chip m)); apply hvdcp_pulses_rc.
  - destruct (voltage_uv >? based_hvdcp_voltage_uv (chip m));
      match goal with |- context [hvdcp_pulses ?n ?b m] =>
        pose proof (hvdcp_pulses_spec n b m) as Hp; cbv zeta in Hp;
        destruct Hp as (Hc & _); exact Hc
      end.
  - match goal with |- context [fst ?r <? 0] => destruct (fst r <? 0) end;
      reflexivity.
Qed.

(** X1.  smb235x_set_hvdcp3_voltage never returns a positive code.  A
    target below 5.0 V changes nothing and returns 0.  A call that
    fails leaves [hvdcp3_voltage_uv] and [based_hvdcp_voltage_uv] as
    they were; a call with a target of at least 5.0 V that succeeds has
    stored the target in both. *)
Theorem set_hvdcp3_voltage_outcome (m : machine) (voltage_uv : Z) :
  let r := smb235x_set_hvdcp3_voltage voltage_uv m in
  fst r <= 0 /\
  (voltage_uv < BASED_VOLTAGE_UV -> r = (0, m)) /\
  (fst r < 0 ->
   hvdcp3_voltage_uv (chip (snd r)) = hvdcp3_voltage_uv (chip m) /\
   based_hvdcp_voltage_uv (chip (snd r)) = based_hvdcp_voltage_uv (chip m)) /\
  (BASED_VOLTAGE_UV <= voltage_uv -> fst r = 0 ->
   hvdcp3_voltage_uv (chip (snd r)) = voltage_uv /\
   based_hvdcp_voltage_uv (chip (snd r)) = voltage_uv).
Proof.
  cbv zeta.
  destruct (Z.ltb_spec voltage_uv BASED_VOLTAGE_UV) as [Hlt|Hge].
  - assert (E : smb235x_set_hvdcp3_voltage voltage_uv m = (0, m)).
    { unfold smb235x_set_hvdcp3_voltage.
      apply Z.ltb_lt in Hlt. now rewrite Hlt. }
    rewrite E. cbn [fst snd]. repeat split; try lia; auto.
  - destruct (set_hvdcp3_voltage_shape m voltage_uv Hge) as (p & Hp & Hc & E).
    rewrite E.
    destruct (fst p <? 0) eqn:Hneg; cbn [fst snd].
    + apply Z.ltb_lt in Hneg. repeat split; try lia; now rewrite Hc.
    + repeat split; try lia; reflexivity.
Qed.

(** X2.  After a call with a target of at least 5.0 V has succeeded, a
    second call with the same target issues no pulse and leaves the
    machine as it is. *)
Theorem set_hvdcp3_voltage_again (m : machine) (voltage_uv : Z) :
  BASED_VOLTAGE_UV <= voltage_uv ->
  fst (smb235x_set_hvdcp3_voltage voltage_uv m) = 0 ->
  smb235x_set_hvdcp3_voltage voltage_uv (snd (smb235x_set_hvdcp3_voltage voltage_uv m))
    = (0, snd (smb235x_set_hvdcp3_voltage voltage_uv m)).
Proof.
  intros Hv Hok.
  destruct (set_hvdcp3_voltage_shape m voltage_uv Hv) as (p & Hp & Hc & E).
  rewrite E in *.
  destruct (fst p <? 0) eqn:Hneg; cbn [fst snd] in *.
  { apply Z.ltb_lt in Hneg. lia. }
  unfold smb235x_set_hvdcp3_voltage.
  destruct (voltage_uv <? BASED_VOLTAGE_UV) eqn:Hlt; [apply Z.ltb_lt in Hlt; lia|].
  rewrite bind_run. unfold get_chip. cbn [fst snd chip with_chip].
  cbn [based_hvdcp_voltage_uv hvdcp3_voltage_uv set_based_hvdcp_voltage_uv
       set_hvdcp3_voltage_uv].
  assert (Hgt : (voltage_uv >? voltage_uv) = false)
    by (destruct (Z.gtb_spec voltage_uv voltage_uv); [lia|reflexivity]).
  rewrite Hgt, Z.sub_diag. reflexivity.
Qed.

(** X3.  Setting the usb VOLTAGE_NOW property always returns 0, also
    when the pulse train failed.  Unless the charger type is HVDCP3 the
    machine is left as it is; for HVDCP3 the effect is that of
    smb235x_set_hvdcp3_voltage. *)
Theorem usb_set_voltage_now (m : machine) (intval : Z) :
  let r := smb235x_usb_set_prop POWER_SUPPLY_PROP_VOLTAGE_NOW intval m in
  fst r = 0 /\
  (charger_type (chip m) <> POWER_SUPPLY_TYPE_USB_HVDCP_3 -> snd r = m) /\
  (charger_type (chip m) = POWER_SUPPLY_TYPE_USB_HVDCP_3 ->
   snd r = snd (smb235x_set_hvdcp3_voltage intval m)).
Proof.
  cbv zeta. unfold smb235x_usb_set_prop, smb235x_set_prop_usb_voltage_now.
  rewrite !bind_run. unfold get_chip. cbn [fst snd ret].
  split; [reflexivity|]. split.
  - intros Hne. apply Z.eqb_neq in Hne. rewrite Hne. reflexivity.
  - intros He. apply Z.eqb_eq in He. rewrite He. rewrite bind_run. reflexivity.
Qed.

(** ** Setting and reading the input current limit *)

Lemma to_u8_range z : 0 <= to_u8 z <= 255.
Proof. unfold to_u8. pose proof (Z.mod_pos_bound z (2 ^ 8) ltac:(lia)). lia. Qed.

Lemma quot_step_u8 z : 0 <= z <= 255 -> 0 <= z // CURRENT_STEP_MA <= 5.
Proof.
  intros H. unfold CURRENT_STEP_MA. rewrite Z.quot_div_nonneg by lia.
  split; [apply Z.div_pos; lia|].
  assert (z / 50 < 6) by (apply Z.div_lt_upper_bound; lia). lia.
Qed.

(** smb235x_set_icl_sw on a bus without faults. *)
Lemma set_icl_sw_ok icl_ma m :
  faults (bus m) = [] ->
  fst (smb235x_set_icl_sw icl_ma m) = 0 /\
  faults (bus (snd (smb235x_set_icl_sw icl_ma m))) = [] /\
  log (bus (snd (smb235x_set_icl_sw icl_ma m))) =
    rev [ RegUpdateBits USBIN_LOAD_CFG_REG
            ICL_OVERRIDE_AFTER_APSD_BIT ICL_OVERRIDE_AFTER_APSD_BIT;
          RegUpdateBits USB_CMD_ICL_OVERRIDE_REG ICL_OVERRIDE_BIT ICL_OVERRIDE_BIT;
          RegWrite USBIN_CURRENT_LIMIT_CFG_REG (to_u8 (icl_ma // CURRENT_STEP_MA)) ]
    ++ log (bus m) /\
  regs (bus (snd (smb235x_set_icl_sw icl_ma m))) USBIN_CURRENT_LIMIT_CFG_REG =
    to_u8 (icl_ma // CURRENT_STEP_MA) /\
  (USBIN_CURRENT_LIMIT_CFG_REG <> USB_CMD_ICL_OVERRIDE_REG ->
   exists orig,
     regs (bus (snd (smb235x_set_icl_sw icl_ma m))) USB_CMD_ICL_OVERRIDE_REG =
       Z.lor (Z.land orig (Z.lnot ICL_OVERRIDE_BIT))
             (Z.land ICL_OVERRIDE_BIT ICL_OVERRIDE_BIT)).
Proof.
  intros Hf. destruct m as [c [r f l] bs ts]. cbn [bus faults] in Hf. subst f.
  unfold smb235x_set_icl_sw. cbv zeta.
  split; [reflexivity|]. split; [reflexivity|]. split; [reflexivity|]. split.
  - cbn. now rewrite Z.eqb_refl.
  - intros Hne. cbn. apply Z.eqb_neq in Hne. rewrite Z.eqb_sym in Hne.
    rewrite Hne, Z.eqb_refl. eexists. reflexivity.
Qed.

(** X4.  Setting the usb CURRENT_MAX property holds the milliampere
    value in a [u8] before it is divided by the 50 mA step: on a bus
    without faults the limit code written is [((uA / 1000) mod 256) / 50],
    which is never above 5. *)
Theorem usb_set_current_max_code (m : machine) (intval : Z) :
  faults (bus m) = [] ->
  let code := to_u8 (intval // MICRO_TO_MILLI) // CURRENT_STEP_MA in
  issued (smb235x_usb_set_prop POWER_SUPPLY_PROP_CURRENT_MAX intval) m =
    [ RegUpdateBits USBIN_LOAD_CFG_REG
        ICL_OVERRIDE_AFTER_APSD_BIT ICL_OVERRIDE_AFTER_APSD_BIT;
      RegUpdateBits USB_CMD_ICL_OVERRIDE_REG ICL_OVERRIDE_BIT ICL_OVERRIDE_BIT;
      RegWrite USBIN_CURRENT_LIMIT_CFG_REG code ] /\
  0 <= code <= 5.
Proof.
  intros Hf. cbv zeta.
  pose proof (quot_step_u8 _ (to_u8_range (intval // MICRO_TO_MILLI))) as Hc.
  split; [|exact Hc].
  apply issued_chrono.
  unfold smb235x_usb_set_prop, smb235x_set_prop_usb_input_current_limit. cbv zeta.
  destruct (set_icl_sw_ok (to_u8 (intval // MICRO_TO_MILLI)) m Hf) as (_ & _ & Hl & _).
  rewrite Hl. rewrite (to_u8_id (to_u8 (intval // MICRO_TO_MILLI) // CURRENT_STEP_MA)).
  - reflexivity.
  - unfold fits_u8. lia.
Qed.

(** X5.  Setting the usb SDP_CURRENT_MAX property stores the value
    whether or not the limit could be programmed: reading the property
    back gives the value set, or 500000 when it was 0. *)
Theorem usb_sdp_current_max_round_trip (m : machine) (intval pval : Z) :
  fst (smb235x_usb_get_prop POWER_SUPPLY_PROP_SDP_CURRENT_MAX pval
         (snd (smb235x_usb_set_prop POWER_SUPPLY_PROP_SDP_CURRENT_MAX intval m))) =
    (0, if intval =? 0 then SDP_500_MA else intval).
Proof.
  unfold smb235x_usb_set_prop, smb235x_set_prop_usb_input_current_limit. cbv zeta.
  rewrite bind_run. unfold update_chip at 1. cbn [fst snd].
  match goal with |- context [smb235x_set_icl_sw ?i ?mm] =>
    pose proof (set_icl_sw_chip i mm) as Hc;
    set (w := smb235x_set_icl_sw i mm) in *
  end.
  unfold smb235x_usb_get_prop. rewrite bind_run. unfold get_chip. cbn [fst snd].
  rewrite Hc. cbn [chip with_chip sdp_icl_ua set_sdp_icl_ua]. unfold truthy.
  destruct (intval =? 0); reflexivity.
Qed.

Lemma land_after_set_bit0 x :
  Z.land (to_u32 (Z.lor (Z.land x (Z.lnot 1)) (Z.land 1 1))) 1 = 1.
Proof.
  unfold to_u32. change 1 with (Z.ones 1) at 4.
  rewrite Z.land_ones by lia. change (2 ^ 1) with 2.
  rewrite Zdiv.Z.mod_mod_divide by (exists (2 ^ 31); reflexivity).
  change 2 with (2 ^ 1) at 1. rewrite <- Z.land_ones by lia. change (Z.ones 1) with 1.
  rewrite Z.land_lor_distr_l, <- Z.land_assoc.
  change (Z.land (Z.lnot 1) 1) with 0. change (Z.land (Z.land 1 1) 1) with 1.
  now rewrite Z.land_0_r.
Qed.

(** X6.  Where the override bit is bit 0 and the limit and override
    registers differ, a limit programmed on a bus without faults reads
    back, while usb is online, as the request rounded down to the 50 mA
    step (modulo the 8-bit code), in microamperes. *)
Theorem icl_round_trip (m : machine) (icl_ma pval : Z) :
  ICL_OVERRIDE_BIT = 1 ->
  USBIN_CURRENT_LIMIT_CFG_REG <> USB_CMD_ICL_OVERRIDE_REG ->
  faults (bus m) = [] ->
  fst (smb235x_get_usb_online (snd (smb235x_set_icl_sw icl_ma m))) = true ->
  fst (smb235x_get_prop_usb_icl pval (snd (smb235x_set_icl_sw icl_ma m))) =
    (0, to_u8 (icl_ma // CURRENT_STEP_MA) * CURRENT_STEP_MA * MICRO_TO_MILLI).
Proof.
  intros Hbit Hne Hf Hon.
  destruct (set_icl_sw_ok icl_ma m Hf) as (_ & Hf1 & _ & Hcl & Hov).
  destruct (Hov Hne) as (orig & Hov'). clear Hov.
  set (m1 := snd (smb235x_set_icl_sw icl_ma m)) in *.
  unfold smb235x_get_prop_usb_icl. rewrite bind_run.
  rewrite get_usb_online_run in *. cbn [fst snd] in *. rewrite Hon. cbn [negb].
  destruct (regmap_read_step DCDC_POWER_PATH_STATUS_REG m1) as (_ & _ & _ & _ & Hf2).
  pose proof (regmap_read_regs DCDC_POWER_PATH_STATUS_REG m1) as Hr2.
  set (m2 := snd (regmap_read DCDC_POWER_PATH_STATUS_REG m1)) in *.
  rewrite Hf1 in Hf2. cbn [tl] in Hf2.
  rewrite bind_run.
  pose proof (regmap_read_rc USB_CMD_ICL_OVERRIDE_REG m2) as Hrc3.
  rewrite Hf2, Hr2, Hov', Hbit in Hrc3. cbn [hd] in Hrc3.
  destruct (regmap_read_step USB_CMD_ICL_OVERRIDE_REG m2) as (_ & _ & _ & _ & Hf3).
  pose proof (regmap_read_regs USB_CMD_ICL_OVERRIDE_REG m2) as Hr3.
  set (r3 := regmap_read USB_CMD_ICL_OVERRIDE_REG m2) in *.
  rewrite Hrc3. cbn [fst snd]. change (0 <? 0) with false. cbv beta iota zeta.
  rewrite Hbit, land_after_set_bit0. change (1 =? 1) with true. cbv beta iota.
  rewrite bind_run.
  pose proof (regmap_read_rc USBIN_CURRENT_LIMIT_CFG_REG (snd r3)) as Hrc4.
  rewrite Hf3, Hf2, Hr3, Hr2, Hcl in Hrc4. cbn [hd tl] in Hrc4.
  rewrite Hrc4. cbn [fst snd]. change (0 <? 0) with false. cbv beta iota zeta.
  cbn [fst ret].
  pose proof (to_u8_range (icl_ma // CURRENT_STEP_MA)) as Hu.
  unfold CURRENT_STEP_MA, MICRO_TO_MILLI in *.
  rewrite (to_u32_id (to_u8 (icl_ma // 50))) by (unfold INT_MAX; lia).
  rewrite (wrap_int_id (to_u8 (icl_ma // 50) * 50)) by (unfold INT_MIN, INT_MAX; lia).
  rewrite wrap_int_id by (unfold INT_MIN, INT_MAX; lia).
  reflexivity.
Qed.

(** ** Detection, again *)

Lemma store_types_bus tu m : bus (store_types tu m) = bus m.
Proof. destruct tu as [[t u]|]; reflexivity. Qed.

(** The machines smb235x_get_chg_type passes through on a bus without
    faults keep the register file, have no fault to come and keep the
    types until the result is stored. *)
Lemma detection_passage m :
  faults (bus m) = [] ->
  let m1 := snd (regmap_read DCDC_POWER_PATH_STATUS_REG m) in
  let m2 := snd (smb235x_get_prop_from_tcpm POWER_SUPPLY_PROP_USB_TYPE 0 m1) in
  let m3 := snd (regmap_read USB_APSP_RESULT_STATUS_REG m2) in
  (regs (bus m1) = regs (bus m) /\ faults (bus m1) = []) /\
  (regs (bus m2) = regs (bus m) /\ faults (bus m2) = []) /\
  (regs (bus m3) = regs (bus m) /\ faults (bus m3) = []) /\
  charger_type (chip m3) = charger_type (chip m) /\
  usb_type (chip m3) = usb_type (chip m).
Proof.
  intros Hf. cbv zeta.
  destruct (regmap_read_step DCDC_POWER_PATH_STATUS_REG m) as (Hc1 & _ & _ & _ & Hf1).
  pose proof (regmap_read_regs DCDC_POWER_PATH_STATUS_REG m) as Hr1.
  set (m1 := snd (regmap_read DCDC_POWER_PATH_STATUS_REG m)) in *.
  destruct (get_prop_from_tcpm_run POWER_SUPPLY_PROP_USB_TYPE 0 m1)
    as (_ & _ & Hb2 & Ht2 & Hu2).
  set (m2 := snd (smb235x_get_prop_from_tcpm POWER_SUPPLY_PROP_USB_TYPE 0 m1)) in *.
  destruct (regmap_read_step USB_APSP_RESULT_STATUS_REG m2) as (Hc3 & _ & _ & _ & Hf3).
  pose proof (regmap_read_regs USB_APSP_RESULT_STATUS_REG m2) as Hr3.
  set (m3 := snd (regmap_read USB_APSP_RESULT_STATUS_REG m2)) in *.
  rewrite Hf in Hf1. cbn [tl] in Hf1.
  rewrite Hb2, Hf1 in Hf3. cbn [tl] in Hf3.
  rewrite Hb2, Hr1 in Hr3.
  repeat split; try assumption; rewrite ?Hb2; try assumption.
  - rewrite Hc3, Ht2, Hc1. reflexivity.
  - rewrite Hc3, Hu2, Hc1. reflexivity.
Qed.

(** The detection only reads: on a bus without faults the register
    file is kept and no fault is to come. *)
Lemma get_chg_type_bus m :
  faults (bus m) = [] ->
  regs (bus (snd (smb235x_get_chg_type m))) = regs (bus m) /\
  faults (bus (snd (smb235x_get_chg_type m))) = [].
Proof.
  intros Hf.
  rewrite get_chg_type_inputs. cbv zeta. rewrite Hf. cbn [hd tl].
  destruct (detection_passage m Hf) as (H1 & H2 & H3 & _).
  destruct (negb _); [cbn [snd]; rewrite store_types_bus; exact H1|].
  destruct (peer_answer _ _) as [v|e];
    [destruct (v =? POWER_SUPPLY_USB_TYPE_C)|];
    cbn [snd]; rewrite store_types_bus; assumption.
Qed.

(** X7.  On a bus without faults, running the detection a second time
    right after the first gives the same result code and the same
    charger and usb types. *)
Theorem get_chg_type_twice (m : machine) :
  faults (bus m) = [] ->
  let r1 := smb235x_get_chg_type m in
  let r2 := smb235x_get_chg_type (snd r1) in
  fst r2 = fst r1 /\
  charger_type (chip (snd r2)) = charger_type (chip (snd r1)) /\
  usb_type (chip (snd r2)) = usb_type (chip (snd r1)).
Proof.
  intros Hf. cbv zeta.
  destruct (negotiation_peer_kept _ _ (get_chg_type_kept m)) as (_ & Hpeer).
  pose proof (get_chg_type_bus m Hf) as Hbus.
  destruct Hbus as (Hregs & Hf').
  remember (smb235x_get_chg_type m) as r1 eqn:E.
  destruct r1 as [rc1 m']. cbn [fst snd] in *.
  rewrite (get_chg_type_inputs m') in *. cbv zeta.
  rewrite Hf', Hregs, Hpeer. cbn [hd tl].
  destruct (detection_passage m' Hf') as (_ & _ & _ & Ht' & Hu').
  rewrite (get_chg_type_inputs m) in E. cbv zeta in E.
  rewrite Hf in E. cbn [hd tl] in E. symmetry in E.
  destruct (negb (usb_online_bits _)).
  { injection E as Hrc Hm. cbn [fst snd]. rewrite <- Hm.
    repeat split; try reflexivity; exact Hrc. }
  destruct (peer_answer (tcpm_peer m) POWER_SUPPLY_PROP_USB_TYPE) as [v|e].
  - destruct (v =? POWER_SUPPLY_USB_TYPE_C).
    + injection E as Hrc Hm. cbn [fst snd]. split; [exact Hrc|].
      destruct (last_matching _ apsd_table) as [[t u]|]; cbn [store_types] in *.
      * rewrite <- Hm. split; reflexivity.
      * rewrite Ht', Hu'. split; reflexivity.
    + injection E as Hrc Hm. cbn [fst snd]. rewrite <- Hm.
      repeat split; try reflexivity; exact Hrc.
  - injection E as Hrc Hm. cbn [fst snd]. split; [exact Hrc|].
    destruct (last_matching _ apsd_table) as [[t u]|]; cbn [store_types] in *.
    + rewrite <- Hm. split; reflexivity.
    + rewrite Ht', Hu'. split; reflexivity.
Qed.

(** ** The input current limit chosen by the APSD-done handler *)

Lemma nodup6 {A : Type} (a b c d e f : A) :
  NoDup [a; b; c; d; e; f] ->
  a <> b /\ a <> c /\ a <> d /\ a <> e /\ a <> f /\
  b <> c /\ b <> d /\ b <> e /\ b <> f /\
  c <> d /\ c <> e /\ c <> f /\
  d <> e /\ d <> f /\ e <> f.
Proof.
  intros H.
  repeat match goal with
         | H : NoDup (_ :: _) |- _ =>
             apply NoDup_cons_iff in H; destruct H as [? H]
         end.
  simpl in *. repeat split; intros E; subst; tauto.
Qed.

(** Without PD the selection is that of the type switch, run after the
    detection and the reset of the base voltage. *)
Lemma apsd_select_icl_no_pd m :
  pd_active (chip m) = false ->
  0 <= fst (smb235x_get_chg_type m) ->
  exists m2,
    charger_type (chip m2) = charger_type (chip (snd (smb235x_get_chg_type m))) /\
    sdp_icl_ua (chip m2) = sdp_icl_ua (chip m) /\
    bus m2 = bus (snd (smb235x_get_chg_type m)) /\
    fst (apsd_select_icl m) = fst (apsd_type_icl m2).
Proof.
  intros Hpd Hrc. unfold apsd_select_icl. rewrite bind_run.
  destruct (get_chg_type_kept m) as (_ & _ & _ & Kp & Ks & _).
  set (r0 := smb235x_get_chg_type m) in *.
  destruct (fst r0 <? 0) eqn:Hneg; [apply Z.ltb_lt in Hneg; lia|].
  rewrite bind_run. unfold get_chip. cbn [fst snd]. rewrite bind_run.
  rewrite bind_run.
  match goal with |- context [apsd_type_icl (snd (?c (snd r0)))] =>
    exists (snd (c (snd r0)));
    assert (K : chip (snd (c (snd r0))) = chip (snd r0) \/
                chip (snd (c (snd r0))) =
                  set_based_hvdcp_voltage_uv BASED_VOLTAGE_UV (chip (snd r0)))
      by (destruct (negb _); [right|left]; reflexivity);
    assert (Kb : bus (snd (c (snd r0))) = bus (snd r0))
      by (destruct (negb _); reflexivity);
    set (m2 := snd (c (snd r0))) in *
  end.
  assert (K2 : charger_type (chip m2) = charger_type (chip (snd r0)) /\
               sdp_icl_ua (chip m2) = sdp_icl_ua (chip (snd r0)) /\
               pd_active (chip m2) = pd_active (chip (snd r0)))
    by (destruct K as [-> | ->]; repeat split; reflexivity).
  destruct K2 as (Kt & Ks2 & Kp2).
  split; [exact Kt|]. split; [congruence|]. split; [exact Kb|].
  destruct (apsd_type_icl_peer_kept m2) as (Kp3 & _).
  set (r3 := apsd_type_icl m2) in *.
  destruct (fst r3) as [icl|]; [|reflexivity].
  rewrite bind_run. cbn [fst snd].
  rewrite Kp3, Kp2, Kp, Hpd. reflexivity.
Qed.

(** X8.  Without PD, after a successful detection, the handler selects
    the input current limit by the charger type: the SDP override in mA
    (500 mA when it is 0) for an SDP, 1500 mA for a CDP and for a DCP,
    500 mA for a float charger, 3000 mA for an HVDCP3 charger whether or
    not its voltage could be set, 500 mA for any other type.  For an
    HVDCP charger it is 3000 mA, or nothing when forcing 9 V failed; on
    a bus without faults it is 3000 mA. *)
Theorem apsd_icl_table (m : machine) :
  NoDup [ POWER_SUPPLY_TYPE_USB; POWER_SUPPLY_TYPE_USB_CDP;
          POWER_SUPPLY_TYPE_USB_DCP; POWER_SUPPLY_TYPE_USB_FLOAT;
          POWER_SUPPLY_TYPE_USB_HVDCP; POWER_SUPPLY_TYPE_USB_HVDCP_3 ] ->
  pd_active (chip m) = false ->
  0 <= fst (smb235x_get_chg_type m) ->
  let t := charger_type (chip (snd (smb235x_get_chg_type m))) in
  let sel := fst (apsd_select_icl m) in
  (t = POWER_SUPPLY_TYPE_USB ->
   sel = Some (if sdp_icl_ua (chip m) =? 0 then 500
               else sdp_icl_ua (chip m) // MICRO_TO_MILLI)) /\
  (t = POWER_SUPPLY_TYPE_USB_CDP -> sel = Some 1500) /\
  (t = POWER_SUPPLY_TYPE_USB_DCP -> sel = Some 1500) /\
  (t = POWER_SUPPLY_TYPE_USB_FLOAT -> sel = Some 500) /\
  (t = POWER_SUPPLY_TYPE_USB_HVDCP_3 -> sel = Some 3000) /\
  (t = POWER_SUPPLY_TYPE_USB_HVDCP ->
   (sel = Some 3000 \/ sel = None) /\ (faults (bus m) = [] -> sel = Some 3000)) /\
  (~ In t [ POWER_SUPPLY_TYPE_USB; POWER_SUPPLY_TYPE_USB_CDP;
            POWER_SUPPLY_TYPE_USB_DCP; POWER_SUPPLY_TYPE_USB_FLOAT;
            POWER_SUPPLY_TYPE_USB_HVDCP; POWER_SUPPLY_TYPE_USB_HVDCP_3 ] ->
   sel = Some 500).
Proof.
  intros Hnd Hpd Hrc. cbv zeta.
  destruct (apsd_select_icl_no_pd m Hpd Hrc) as (m2 & Ht & Hs & Hb & ->).
  rewrite <- Ht. clear Ht.
  destruct (nodup6 _ _ _ _ _ _ Hnd)
    as (N1 & N2 & N3 & N4 & N5 & N6 & N7 & N8 & N9 & N10 & N11 & N12 & N13 & N14 & N15).
  unfold apsd_type_icl. rewrite bind_run. unfold get_chip. cbn [fst snd]. cbv zeta.
  repeat split.
  - intros E. rewrite E, Z.eqb_refl. rewrite Hs. unfold truthy.
    destruct (sdp_icl_ua (chip m) =? 0); reflexivity.
  - intros E. rewrite E.
    rewrite (proj2 (Z.eqb_neq _ _) (not_eq_sym N1)), Z.eqb_refl. reflexivity.
  - intros E. rewrite E.
    rewrite (proj2 (Z.eqb_neq _ _) (not_eq_sym N2)),
      (proj2 (Z.eqb_neq _ _) (not_eq_sym N6)), Z.eqb_refl. reflexivity.
  - intros E. rewrite E.
    rewrite (proj2 (Z.eqb_neq _ _) (not_eq_sym N3)),
      (proj2 (Z.eqb_neq _ _) (not_eq_sym N7)),
      (proj2 (Z.eqb_neq _ _) (not_eq_sym N10)), Z.eqb_refl. reflexivity.
  - intros E. rewrite E.
    rewrite (proj2 (Z.eqb_neq _ _) (not_eq_sym N5)),
      (proj2 (Z.eqb_neq _ _) (not_eq_sym N9)),
      (proj2 (Z.eqb_neq _ _) (not_eq_sym N12)),
      (proj2 (Z.eqb_neq _ _) (not_eq_sym N14)),
      (proj2 (Z.eqb_neq _ _) (not_eq_sym N15)), Z.eqb_refl.
    rewrite bind_run. reflexivity.
  - rewrite H.
    rewrite (proj2 (Z.eqb_neq _ _) (not_eq_sym N4)),
      (proj2 (Z.eqb_neq _ _) (not_eq_sym N8)),
      (proj2 (Z.eqb_neq _ _) (not_eq_sym N11)),
      (proj2 (Z.eqb_neq _ _) (not_eq_sym N13)), Z.eqb_refl.
    rewrite bind_run.
    destruct (fst (regmap_update_bits USB_CMD_HVDCP_2_REG FORCE_9V_BIT FORCE_9V_BIT m2) <? 0);
      [right|left]; reflexivity.
  - intros Hf. rewrite H.
    rewrite (proj2 (Z.eqb_neq _ _) (not_eq_sym N4)),
      (proj2 (Z.eqb_neq _ _) (not_eq_sym N8)),
      (proj2 (Z.eqb_neq _ _) (not_eq_sym N11)),
      (proj2 (Z.eqb_neq _ _) (not_eq_sym N13)), Z.eqb_refl.
    rewrite bind_run, regmap_update_bits_rc, Hb.
    destruct (get_chg_type_bus m Hf) as (_ & ->). reflexivity.
  - intros Hnot. simpl in Hnot.
    repeat match goal with
           | |- context [charger_type (chip m2) =? ?k] =>
               let E := fresh "E" in
               destruct (Z.eqb_spec (charger_type (chip m2)) k) as [E|E];
               [exfalso; apply Hnot; rewrite E; tauto|]
           end.
    reflexivity.
Qed.

(** ** The notification of the negotiation peer *)

(** X9.  smb235x_tcpm_update_icl decides the PD flag from the usb type
    the peer reports.  When the peer is absent or its query fails
    nothing changes.  When it reports the generic Type-C type the flag is
    cleared and nothing is programmed.  Otherwise the flag is set and,
    on a bus without faults, the limit programmed is the peer's
    CURRENT_MAX in mA; the result of that second query is not checked,
    so when it fails the value divided by 1000 is the usb type itself. *)
Theorem tcpm_update_icl_outcome (m : machine) :
  let m' := snd (smb235x_tcpm_update_icl m) in
  match peer_answer (tcpm_peer m) POWER_SUPPLY_PROP_USB_TYPE with
  | Enoprop _ =>
      pd_active (chip m') = pd_active (chip m) /\
      issued smb235x_tcpm_update_icl m = []
  | Intval t =>
      pd_active (chip m') = negb (t =? POWER_SUPPLY_USB_TYPE_C) /\
      (t = POWER_SUPPLY_USB_TYPE_C -> issued smb235x_tcpm_update_icl m = []) /\
      (t <> POWER_SUPPLY_USB_TYPE_C -> faults (bus m) = [] ->
       let ua := match peer_answer (tcpm_peer m) POWER_SUPPLY_PROP_CURRENT_MAX with
                 | Intval v => v
                 | Enoprop _ => t
                 end in
       issued smb235x_tcpm_update_icl m =
         [ RegUpdateBits USBIN_LOAD_CFG_REG
             ICL_OVERRIDE_AFTER_APSD_BIT ICL_OVERRIDE_AFTER_APSD_BIT;
           RegUpdateBits USB_CMD_ICL_OVERRIDE_REG ICL_OVERRIDE_BIT ICL_OVERRIDE_BIT;
           RegWrite USBIN_CURRENT_LIMIT_CFG_REG
             (to_u8 (ua // MICRO_TO_MILLI // CURRENT_STEP_MA)) ])
  end.
Proof.
  cbv zeta.
  destruct (get_prop_from_tcpm_run POWER_SUPPLY_PROP_USB_TYPE 0 m)
    as (Hq & (_ & _ & _ & Kp & _ & Kt) & Hb & _).
  set (q := smb235x_get_prop_from_tcpm POWER_SUPPLY_PROP_USB_TYPE 0 m) in *.
  destruct (peer_answer (tcpm_peer m) POWER_SUPPLY_PROP_USB_TYPE) as [t|e].
  - assert (E : smb235x_tcpm_update_icl m =
                if t =? POWER_SUPPLY_USB_TYPE_C
                then (tt, with_chip (set_pd_active false (chip (snd q))) (snd q))
                else
                  let m3 := with_chip (set_pd_active true (chip (snd q))) (snd q) in
                  let q2 := smb235x_get_prop_from_tcpm POWER_SUPPLY_PROP_CURRENT_MAX t m3 in
                  (tt, snd (smb235x_set_icl_sw (snd (fst q2) // MICRO_TO_MILLI) (snd q2)))).
    { unfold smb235x_tcpm_update_icl. rewrite bind_run. fold q. rewrite Hq.
      cbn [fst snd]. change (0 <? 0) with false. cbv beta iota.
      destruct (t =? POWER_SUPPLY_USB_TYPE_C); [reflexivity|].
      rewrite !bind_run. unfold update_chip. cbn [fst snd].
      destruct (fst (smb235x_get_prop_from_tcpm POWER_SUPPLY_PROP_CURRENT_MAX t _))
        as [rc2 pval2]. rewrite bind_run. reflexivity. }
    rewrite E at 1. revert E.
    destruct (Z.eqb_spec t POWER_SUPPLY_USB_TYPE_C) as [Ht|Ht]; cbn [snd negb];
      intros E.
    + split; [reflexivity|]. split; [|contradiction].
      intros _. apply issued_chrono. rewrite E. cbn [snd rev app].
      change (bus (with_chip _ (snd q))) with (bus (snd q)). now rewrite Hb.
    + cbv zeta in *.
      set (m3 := with_chip (set_pd_active true (chip (snd q))) (snd q)) in *.
      destruct (get_prop_from_tcpm_run POWER_SUPPLY_PROP_CURRENT_MAX t m3)
        as (Hq2 & (_ & _ & _ & Kp2 & _) & Hb2 & _).
      assert (Kt3 : tcpm_peer m3 = tcpm_peer m) by (rewrite <- Kt; reflexivity).
      rewrite Kt3 in Hq2.
      set (q2 := smb235x_get_prop_from_tcpm POWER_SUPPLY_PROP_CURRENT_MAX t m3) in *.
      split.
      { rewrite set_icl_sw_chip, Kp2. reflexivity. }
      split; [contradiction|].
      intros _ Hf. apply issued_chrono. rewrite E. cbn [snd].
      assert (Hf2 : faults (bus (snd q2)) = [])
        by (rewrite Hb2; change (bus m3) with (bus (snd q)); now rewrite Hb).
      destruct (set_icl_sw_ok (snd (fst q2) // MICRO_TO_MILLI) (snd q2) Hf2)
        as (_ & _ & Hl & _).
      rewrite Hl, Hb2. change (bus m3) with (bus (snd q)). rewrite Hb, Hq2.
      destruct (peer_answer (tcpm_peer m) POWER_SUPPLY_PROP_CURRENT_MAX); reflexivity.
  - assert (E : smb235x_tcpm_update_icl m = (tt, snd q)).
    { unfold smb235x_tcpm_update_icl. rewrite bind_run. fold q. rewrite Hq.
      cbn [fst snd]. change (Z.neg e <? 0) with true. reflexivity. }
    rewrite E at 1. cbn [snd]. split; [exact Kp|].
    apply issued_chrono. rewrite E. cbn [snd rev app]. now rewrite Hb.
Qed.

(** ** The periodic reconciliation with the fuel gauge *)

Ltac machine_cbn :=
  cbn [fst snd ret chip bus bms_supply tcpm_supply regs faults log
       bms_psy tcpm_psy trickle_charge_current_ua max_pre_charge_current_ua
       pre_charge_current_ua termination_current_ua float_volt_uv fastchg_curr_ua
       max_fcc_ua sdp_icl_ua charger_type usb_type auto_recharge_soc
       hvdcp_pulse_count_max hvdcp3_voltage_uv based_hvdcp_voltage_uv pd_active
       with_chip with_bus set_bms_psy set_tcpm_psy set_float_volt_uv
       set_fastchg_curr_ua set_sdp_icl_ua set_types set_hvdcp_pulse_count_max
       set_hvdcp3_voltage_uv set_based_hvdcp_voltage_uv set_pd_active
       regmap_read regmap_write regmap_update_bits transfer store hd tl negb
       rev app] in *.

Ltac settle :=
  repeat progress (change (0 <? 0) with false; cbv beta iota; machine_cbn).

(** One pass with a gauge that reports both limits, on a bus without
    faults. *)
Lemma update_fv_fcc_pass m fcc fv :
  peer_answer (bms_peer m) POWER_SUPPLY_PROP_CONSTANT_CHARGE_CURRENT_MAX = Intval fcc ->
  peer_answer (bms_peer m) POWER_SUPPLY_PROP_CONSTANT_CHARGE_VOLTAGE_MAX = Intval fv ->
  faults (bus m) = [] ->
  let m' := snd (smb235x_update_fv_fcc m) in
  fastchg_curr_ua (chip m') = fcc /\
  float_volt_uv (chip m') = fv /\
  bms_peer m' = bms_peer m /\
  faults (bus m') = [] /\
  log (bus m') =
    rev ((if fastchg_curr_ua (chip m) =? fcc then []
          else [RegWrite CHGR_FAST_CHARGE_CURRENT_CFG_REG
                  (to_u8 (fcc // MICRO_TO_MILLI // CURRENT_STEP_MA + 1))]) ++
         (if float_volt_uv (chip m) =? fv then []
          else [RegWrite CHGR_FLOAT_VOLTAGE_CFG_REG
                  (to_u8 ((fv // MICRO_TO_MILLI - FLOAT_VOLTAGE_BASE_MV)
                          // FLOAT_VOLTAGE_STEP_MV))]))
    ++ log (bus m).
Proof.
  intros H1 H2 Hf.
  destruct m as [c [r f l] bs ts]. cbn [bus faults] in Hf. subst f.
  destruct c as [bp tp tr mp pr te fvc fccc mf sd ct ut ar pm hv bv pd].
  unfold peer_answer, bms_peer in *.
  unfold smb235x_update_fv_fcc, smb235x_get_prop_from_bms, power_supply_get_property,
    smb235x_set_fcc, smb235x_set_fv, bind, get_chip, update_chip.
  cbv zeta. machine_cbn.
  destruct bp as [psy|]; [|destruct bs as [psy|]; [|discriminate]];
    machine_cbn; rewrite H1; settle;
    destruct (Z.eqb_spec fccc fcc) as [->|Hx]; settle; rewrite H2; settle;
    destruct (Z.eqb_spec fvc fv) as [->|Hy]; settle;
    repeat split; reflexivity.
Qed.

(** X10.  With a fuel gauge that reports both limits and a bus without
    faults, one pass of smb235x_update_fv_fcc leaves the two cached
    limits equal to the gauge's, writes exactly the registers whose
    cached value differed (the current before the voltage), and a second
    pass writes nothing. *)
Theorem update_fv_fcc_reconciles (m : machine) (fcc fv : Z) :
  peer_answer (bms_peer m) POWER_SUPPLY_PROP_CONSTANT_CHARGE_CURRENT_MAX = Intval fcc ->
  peer_answer (bms_peer m) POWER_SUPPLY_PROP_CONSTANT_CHARGE_VOLTAGE_MAX = Intval fv ->
  faults (bus m) = [] ->
  let m' := snd (smb235x_update_fv_fcc m) in
  fastchg_curr_ua (chip m') = fcc /\
  float_volt_uv (chip m') = fv /\
  issued smb235x_update_fv_fcc m =
    (if fastchg_curr_ua (chip m) =? fcc then []
     else [RegWrite CHGR_FAST_CHARGE_CURRENT_CFG_REG
             (to_u8 (fcc // MICRO_TO_MILLI // CURRENT_STEP_MA + 1))]) ++
    (if float_volt_uv (chip m) =? fv then []
     else [RegWrite CHGR_FLOAT_VOLTAGE_CFG_REG
             (to_u8 ((fv // MICRO_TO_MILLI - FLOAT_VOLTAGE_BASE_MV)
                     // FLOAT_VOLTAGE_STEP_MV))]) /\
  issued smb235x_update_fv_fcc m' = [].
Proof.
  intros H1 H2 Hf. cbv zeta.
  destruct (update_fv_fcc_pass m fcc fv H1 H2 Hf) as (E1 & E2 & E3 & E4 & E5).
  split; [exact E1|]. split; [exact E2|]. split; [exact (issued_chrono _ _ _ E5)|].
  set (m' := snd (smb235x_update_fv_fcc m)) in *.
  rewrite <- E3 in H1, H2.
  destruct (update_fv_fcc_pass m' fcc fv H1 H2 E4) as (_ & _ & _ & _ & F5).
  rewrite E1, E2, !Z.eqb_refl in F5.
  exact (issued_chrono _ _ _ F5).
Qed.

Ltac settle_rc :=
  repeat progress
    (repeat match goal with
            | |- context [Z.neg ?e <? 0] => change (Z.neg e <? 0) with true
            end;
     change (0 <? 0) with false; cbv beta iota; machine_cbn).

(** X11.  Whatever the fuel gauge answers and whichever transfers fail,
    smb235x_update_fv_fcc keeps the caches and the registers together:
    when the two registers held the codes of the cached fast-charge
    current and float voltage before the pass, they do after it.  The
    two registers are taken to be different ones. *)
Theorem update_fv_fcc_keeps_programmed (m : machine) :
  CHGR_FAST_CHARGE_CURRENT_CFG_REG <> CHGR_FLOAT_VOLTAGE_CFG_REG ->
  cache_programmed m ->
  cache_programmed (snd (smb235x_update_fv_fcc m)).
Proof.
  intros Hne [Hc Hv].
  assert (N1 : (CHGR_FAST_CHARGE_CURRENT_CFG_REG =? CHGR_FLOAT_VOLTAGE_CFG_REG) = false)
    by (apply Z.eqb_neq; exact Hne).
  assert (N2 : (CHGR_FLOAT_VOLTAGE_CFG_REG =? CHGR_FAST_CHARGE_CURRENT_CFG_REG) = false)
    by (apply Z.eqb_neq; intros E; apply Hne; now rewrite E).
  destruct m as [c [r f l] bs ts].
  destruct c as [bp tp tr mp pr te fvc fccc mf sd ct ut ar pm hv bv pd].
  unfold cache_programmed in *. machine_cbn.
  unfold smb235x_update_fv_fcc, smb235x_get_prop_from_bms, power_supply_get_property,
    smb235x_set_fcc, smb235x_set_fv, bind, get_chip, update_chip.
  cbv zeta. machine_cbn.
  destruct bp as [psy|]; [|destruct bs as [psy|]; [|settle_rc; split; assumption]];
    machine_cbn;
    (destruct (get_property psy POWER_SUPPLY_PROP_CONSTANT_CHARGE_CURRENT_MAX)
       as [v1|e1]; settle_rc; [|split; assumption]);
    (destruct (Z.eqb_spec fccc v1) as [->|Hx]; settle_rc;
     [|destruct f as [|[e|] f]; settle_rc; [|split; assumption|]]);
    (destruct (get_property psy POWER_SUPPLY_PROP_CONSTANT_CHARGE_VOLTAGE_MAX)
       as [v2|e2]; settle_rc);
    try (destruct (Z.eqb_spec fvc v2) as [->|Hy]; settle_rc);
    try (destruct f as [|[e'|] f]; settle_rc);
    rewrite ?Z.eqb_refl, ?N1, ?N2; split; first [reflexivity | assumption].
Qed.

(** ** The property getters *)

Lemma quiet_refl m : quiet m m.
Proof. split; [reflexivity|]. exists []. split; reflexivity. Qed.

Lemma quiet_trans m1 m2 m3 : quiet m1 m2 -> quiet m2 m3 -> quiet m1 m3.
Proof.
  intros (Hr1 & l1 & Hl1 & Hf1) (Hr2 & l2 & Hl2 & Hf2).
  split; [congruence|]. exists (l2 ++ l1). split.
  - now rewrite Hl2, Hl1, app_assoc.
  - rewrite forallb_app, Hf1, Hf2. reflexivity.
Qed.

Lemma quiet_bus m m' : bus m' = bus m -> quiet m m'.
Proof.
  intros E. split; [now rewrite E|]. exists []. rewrite E. split; reflexivity.
Qed.

Lemma read_only_ret {A : Type} (a : A) : read_only (ret a).
Proof. intros m. apply quiet_refl. Qed.

Lemma read_only_bind {A B : Type} (c : M A) (k : A -> M B) :
  read_only c -> (forall a, read_only (k a)) -> read_only (bind c k).
Proof.
  intros Hc Hk m. rewrite bind_run.
  exact (quiet_trans _ _ _ (Hc m) (Hk _ _)).
Qed.

Lemma read_only_get_chip : read_only get_chip.
Proof. intros m. apply quiet_refl. Qed.

Lemma read_only_update_chip f : read_only (update_chip f).
Proof. intros m. apply quiet_bus. reflexivity. Qed.

Lemma read_only_regmap_read addr : read_only (regmap_read addr).
Proof.
  intros m. split; [apply regmap_read_regs|].
  destruct (regmap_read_step addr m) as (_ & _ & _ & Hl & _).
  exists [RegRead addr]. split; [exact Hl|reflexivity].
Qed.

Lemma read_only_from_bms prop val : read_only (smb235x_get_prop_from_bms prop val).
Proof.
  intros m. apply quiet_bus.
  destruct (get_prop_from_bms_run prop val m) as (_ & Hb & _). exact Hb.
Qed.

Lemma read_only_from_tcpm prop val : read_only (smb235x_get_prop_from_tcpm prop val).
Proof.
  intros m. apply quiet_bus.
  destruct (get_prop_from_tcpm_run prop val m) as (_ & _ & Hb & _). exact Hb.
Qed.

Ltac read_only_step :=
  first
    [ apply read_only_ret
    | apply read_only_get_chip
    | apply read_only_update_chip
    | apply read_only_regmap_read
    | apply read_only_from_bms
    | apply read_only_from_tcpm
    | apply read_only_bind; [|intros]
    | match goal with
      | |- read_only (if ?b then _ else _) => destruct b
      | |- read_only (match ?x with _ => _ end) => destruct x
      end ].

Lemma read_only_issued {A : Type} (c : M A) :
  read_only c ->
  forall m, regs (bus (snd (c m))) = regs (bus m) /\
            forallb is_read (issued c m) = true.
Proof.
  intros H m. destruct (H m) as (Hr & ops & Hl & Hf). split; [exact Hr|].
  rewrite (issued_of_log _ _ _ Hl).
  apply forallb_forall. intros x Hx. apply In_rev in Hx.
  rewrite forallb_forall in Hf. auto.
Qed.

(** X12.  Getting a property of the usb supply or of the battery supply
    never writes to the charger: for every property, every machine and
    every sequence of failing transfers the register file is left as it
    was and each transfer made is a read. *)
Theorem get_prop_reads_only (prop : power_supply_property) (pval : Z) (m : machine) :
  (regs (bus (snd (smb235x_usb_get_prop prop pval m))) = regs (bus m) /\
   forallb is_read (issued (smb235x_usb_get_prop prop pval) m) = true) /\
  (regs (bus (snd (smb235x_batt_get_prop prop pval m))) = regs (bus m) /\
   forallb is_read (issued (smb235x_batt_get_prop prop pval) m) = true).
Proof.
  split; apply read_only_issued.
  - unfold smb235x_usb_get_prop, smb235x_get_prop_usb_present,
      smb235x_get_prop_usb_icl, smb235x_get_prop_usb_voltage,
      smb235x_get_hvdcp2_voltage, smb235x_get_chg_type, apsd_result,
      smb235x_get_usb_online.
    cbv zeta. destruct prop; repeat read_only_step.
  - unfold smb235x_batt_get_prop, smb235x_get_prop_batt_present,
      smb235x_get_prop_battery_status, smb235x_get_prop_batt_charge_type,
      smb235x_get_prop_batt_health, smb235x_get_usb_online.
    cbv zeta. destruct prop; repeat read_only_step.
Qed.

Lemma returns_ret {A : Type} (a : A) (Q : A -> Prop) : Q a -> returns (ret a) Q.
Proof. intros H m. exact H. Qed.

Lemma returns_bind {A B : Type} (c : M A) (k : A -> M B)
    (Mid : A -> Prop) (Q : B -> Prop) :
  returns c Mid -> (forall a, Mid a -> returns (k a) Q) -> returns (bind c k) Q.
Proof. intros Hc Hk m. rewrite bind_run. apply Hk, Hc. Qed.

Lemma returns_any {A : Type} (c : M A) : returns c (fun _ => True).
Proof. intros m. exact I. Qed.

Lemma returns_regmap_read addr : returns (regmap_read addr) (fun r => fst r <= 0).
Proof.
  intros m. rewrite regmap_read_rc.
  destruct (hd None (faults (bus m))); cbn [fst]; lia.
Qed.

Lemma returns_from_bms prop val :
  returns (smb235x_get_prop_from_bms prop val) (fun r => fst r <= 0).
Proof.
  intros m. destruct (get_prop_from_bms_run prop val m) as (-> & _).
  destruct (peer_answer _ _); cbn [fst]; lia.
Qed.

Lemma returns_from_tcpm prop val :
  returns (smb235x_get_prop_from_tcpm prop val) (fun r => fst r <= 0).
Proof.
  intros m. destruct (get_prop_from_tcpm_run prop val m) as (-> & _).
  destruct (peer_answer _ _); cbn [fst]; lia.
Qed.

Ltac returns_step :=
  first
    [ apply returns_ret; cbn [fst snd]
    | apply returns_regmap_read
    | apply returns_from_bms
    | apply returns_from_tcpm
    | eapply returns_bind;
      [ first [ apply returns_regmap_read | apply returns_from_bms
              | apply returns_from_tcpm | apply returns_any ]
      | cbv beta; intros ]
    | match goal with
      | |- returns (if ?x <? 0 then _ else _) _ =>
          destruct (Z.ltb_spec x 0); cbn [fst snd] in *
      | |- returns (if ?b then _ else _) _ => destruct b
      | |- returns (match ?x with _ => _ end) _ => destruct x; cbn [fst snd] in *
      end ].

Lemma returns_get_chg_type : returns smb235x_get_chg_type (fun rc => rc <= 0).
Proof.
  unfold smb235x_get_chg_type, apsd_result.
  repeat returns_step; lia.
Qed.

(** The getters behind the usb properties return 0 or a negative code. *)
Lemma returns_usb_getters val :
  returns (smb235x_get_prop_usb_present val) (fun r => fst r <= 0) /\
  returns (smb235x_get_prop_usb_icl val) (fun r => fst r <= 0) /\
  returns (smb235x_get_prop_usb_voltage val) (fun r => fst r <= 0).
Proof.
  unfold smb235x_get_prop_usb_present, smb235x_get_prop_usb_icl,
    smb235x_get_prop_usb_voltage.
  repeat split; repeat returns_step; lia.
Qed.

(** X13.  The usb getter answers every property the supply advertises
    in smb235x_usb_props with 0 or -ENODATA, whatever failed underneath;
    for any other property it returns -EINVAL and leaves the value and
    the machine as they were.  The writeable properties are among the
    advertised ones. *)
Theorem usb_get_prop_codes (prop : power_supply_property) (pval : Z) (m : machine) :
  let r := smb235x_usb_get_prop prop pval m in
  (In prop smb235x_usb_props ->
   fst (fst r) = 0 \/ fst (fst r) = Z.neg ENODATA) /\
  (~ In prop smb235x_usb_props -> r = ((Z.neg EINVAL, pval), m)) /\
  (smb235x_usb_prop_is_writeable prop = 1 -> In prop smb235x_usb_props).
Proof.
  cbv zeta. split; [|split].
  - intros Hin.
    assert (Hret : returns (smb235x_usb_get_prop prop pval)
                     (fun r => fst r = 0 \/ fst r = Z.neg ENODATA));
      [|exact (Hret m)].
    destruct (returns_usb_getters pval) as (H1 & H2 & H3).
    pose proof returns_get_chg_type as H4.
    unfold smb235x_usb_get_prop. cbv zeta.
    destruct prop; try (exfalso; cbn in Hin; intuition discriminate);
      (eapply returns_bind;
       [ first [ exact H1 | exact H2 | exact H3 | exact H4 | apply returns_any ]
       | cbv beta; intros ]);
      repeat returns_step; try (left; lia); try (right; reflexivity).
  - intros Hout. destruct prop; try reflexivity;
      exfalso; apply Hout; cbn; tauto.
  - destruct prop; cbn; intros H; try discriminate H; tauto.
Qed.

(** X14.  The battery getter returns 0 or -ENODATA and nothing else.  A
    property outside smb235x_batt_props is answered with 0, the value
    and the machine left as they were.  For the two constant-charge
    limits the cached value is handed out when the fuel gauge does not
    answer, yet together with -ENODATA; VOLTAGE_MAX and CURRENT_MAX hand
    out the same cached values with 0. *)
Theorem batt_get_prop_codes (prop : power_supply_property) (pval : Z) (m : machine) :
  let r := smb235x_batt_get_prop prop pval m in
  (fst (fst r) = 0 \/ fst (fst r) = Z.neg ENODATA) /\
  (~ In prop smb235x_batt_props -> r = ((0, pval), m)) /\
  (smb235x_batt_prop_is_writeable prop = 1 -> In prop smb235x_batt_props) /\
  (forall e, peer_answer (bms_peer m) prop = Enoprop e ->
     (prop = POWER_SUPPLY_PROP_CONSTANT_CHARGE_VOLTAGE_MAX ->
      fst r = (Z.neg ENODATA, float_volt_uv (chip m))) /\
     (prop = POWER_SUPPLY_PROP_CONSTANT_CHARGE_CURRENT_MAX ->
      fst r = (Z.neg ENODATA, fastchg_curr_ua (chip m)))) /\
  (prop = POWER_SUPPLY_PROP_VOLTAGE_MAX -> r = ((0, float_volt_uv (chip m)), m)) /\
  (prop = POWER_SUPPLY_PROP_CURRENT_MAX -> r = ((0, fastchg_curr_ua (chip m)), m)).
Proof.
  cbv zeta. split; [|split; [|split; [|split; [|split]]]].
  - assert (Hret : returns (smb235x_batt_get_prop prop pval)
                     (fun r => fst r = 0 \/ fst r = Z.neg ENODATA));
      [|exact (Hret m)].
    unfold smb235x_batt_get_prop. cbv zeta.
    destruct prop;
      try (eapply returns_bind; [apply returns_any | cbv beta; intros]);
      repeat returns_step; try (left; reflexivity); try (right; reflexivity).
  - intros Hout. destruct prop; try reflexivity;
      exfalso; apply Hout; cbn; tauto.
  - destruct prop; cbn; intros H; try discriminate H; tauto.
  - intros e He.
    destruct (get_prop_from_bms_run prop pval m) as (Hq & _ & Hfv & Hfcc).
    rewrite He in Hq.
    split; intros ->; unfold smb235x_batt_get_prop; cbv zeta;
      rewrite !bind_run; unfold get_chip; cbn [fst snd];
      rewrite Hq; cbn [fst snd]; change (Z.neg e <? 0) with true;
      cbv beta iota; cbn [fst snd ret]; change (Z.neg e <? 0) with true;
      cbv beta iota; cbn [fst ret]; congruence.
  - intros ->. reflexivity.
  - intros ->. reflexivity.
Qed.

(** X15.  The voltage of an HVDCP (QC 2.0) charger is decoded from the
    QC status register, and a failure of that read is not told apart
    from a voltage: with usb online, no PD contract and the read failing
    with [-e], the usb VOLTAGE_NOW and VOLTAGE_MAX properties are
    answered with success and the value [-e]. *)
Theorem usb_voltage_hvdcp_read_failure
    (m : machine) (pval : Z) (e : errno) (rest : list (option errno)) :
  charger_type (chip m) = POWER_SUPPLY_TYPE_USB_HVDCP ->
  ~ In POWER_SUPPLY_TYPE_USB_HVDCP
      [ POWER_SUPPLY_TYPE_USB_FLOAT; POWER_SUPPLY_TYPE_USB_DCP;
        POWER_SUPPLY_TYPE_USB_CDP; POWER_SUPPLY_TYPE_USB;
        POWER_SUPPLY_TYPE_USB_HVDCP_3 ] ->
  pd_active (chip m) = false ->
  faults (bus m) = None :: Some e :: rest ->
  usb_online_bits (to_u32 (regs (bus m) DCDC_POWER_PATH_STATUS_REG)) = true ->
  fst (smb235x_usb_get_prop POWER_SUPPLY_PROP_VOLTAGE_NOW pval m) = (0, Z.neg e) /\
  fst (smb235x_usb_get_prop POWER_SUPPLY_PROP_VOLTAGE_MAX pval m) = (0, Z.neg e).
Proof.
  intros Ht Hd Hpd Hf Hon.
  assert (N : forall t, In t [ POWER_SUPPLY_TYPE_USB_FLOAT; POWER_SUPPLY_TYPE_USB_DCP;
                               POWER_SUPPLY_TYPE_USB_CDP; POWER_SUPPLY_TYPE_USB;
                               POWER_SUPPLY_TYPE_USB_HVDCP_3 ] ->
                     (POWER_SUPPLY_TYPE_USB_HVDCP =? t) = false).
  { intros t Hin. apply Z.eqb_neq. intros E. apply Hd. now rewrite E. }
  destruct m as [c [r f l] bs ts].
  destruct c as [bp tp tr mp pr te fvc fccc mf sd ct ut ar pm hv bv pd].
  machine_cbn. subst ct pd f. unfold usb_online_bits in Hon.
  unfold smb235x_usb_get_prop, smb235x_get_prop_usb_voltage, smb235x_get_hvdcp2_voltage,
    smb235x_get_usb_online, bind, get_chip.
  cbv zeta. settle_rc. rewrite Hon. settle_rc.
  rewrite !N by (cbn; tauto). rewrite Z.eqb_refl. cbn [orb]. settle_rc.
  split; reflexivity.
Qed.

(** ** The interrupt handlers *)

(** The handlers other than the source-change handler, on a machine
    taken apart. *)
Ltac run_handler :=
  unfold smb235x_charge_err_irq_handler, smb235x_chg_state_change_irq_handler,
    smb235x_default_irq_handler, smb235x_usbin_uv_irq_handler,
    smb235x_usbin_ov_irq_handler, smb235x_batt_temp_changed_irq_handler,
    smb235x_batt_psy_changed_irq_handler, smb235x_usb_plugin_irq_handler,
    smb235x_wdog_bark_irq_handler, smb235x_aicl_done_irq_handler,
    smb235x_enable_charge, bind;
  cbv zeta; settle_rc.

(** X16.  A handler of smb235x_irqs returns IRQ_NONE exactly when it is
    one of the five that start by reading a status register and that
    read fails; it has then notified no supply.  Only the source-change
    handler changes the state the driver keeps. *)
Theorem irq_handler_outcome (i : smb235x_irq_index) (m : machine) :
  let r := smb235x_irqs_handler i m in
  (fst (fst r) = IRQ_NONE <->
   reads_status_first i = true /\ hd None (faults (bus m)) <> None) /\
  (fst (fst r) = IRQ_NONE -> snd (fst r) = []) /\
  (i <> USBIN_SRC_CHANGE_IRQ -> chip (snd r) = chip m).
Proof.
  cbv zeta.
  destruct (i) eqn:Ei; cbn [smb235x_irqs_handler reads_status_first].
  15: { (* the source-change handler *)
    unfold smb235x_usb_source_change_irq_handler. rewrite bind_run.
    pose proof (regmap_read_rc USB_APSD_STATUS_REG m) as Hrc.
    set (q := regmap_read USB_APSD_STATUS_REG m) in *.
    destruct (hd None (faults (bus m))) as [e|]; rewrite Hrc; cbn [fst snd].
    - change (Z.neg e <? 0) with true. cbv beta iota. cbn [fst snd ret].
      repeat split; try discriminate; tauto.
    - change (0 <? 0) with false. cbv beta iota. rewrite bind_run. cbn [fst snd ret].
      repeat split; try discriminate; try tauto. }
  all: destruct m as [c [r f l] bs ts]; machine_cbn;
    try (destruct f as [|[e|] f]); run_handler.
  all: try (destruct (truthy _)); settle_rc.
  all: try (destruct f as [|[e|] f]); settle_rc.
  all: repeat split; try discriminate; try tauto; try reflexivity.
  all: try (intros [H1 H2]; first [discriminate H1 | now contradiction H2]).
Qed.

(** X17.  When its status read succeeds, the plug-in handler issues one
    command after it: the charging-enable bit is set when the plug-in
    bit of the status is set and cleared when it is not.  The usb supply
    is notified when that command succeeded and not when it failed; the
    handler returns IRQ_HANDLED in both cases. *)
Theorem usb_plugin_irq_charging (m : machine) :
  hd None (faults (bus m)) = None ->
  let stat := to_u32 (regs (bus m) USB_INT_RT_STS_OFFSET_REG) in
  let vbus_rising := truthy (Z.land stat USBIN_PLUGIN_RT_STS_BIT) in
  issued smb235x_usb_plugin_irq_handler m =
    [ RegRead USB_INT_RT_STS_OFFSET_REG;
      RegUpdateBits CHARGING_ENABLE_CMD_REG CHARGING_ENABLE_BIT
        (to_u8 (if vbus_rising then CHARGING_ENABLE_BIT else 0)) ] /\
  fst (smb235x_usb_plugin_irq_handler m) =
    (IRQ_HANDLED,
     match hd None (tl (faults (bus m))) with
     | None => [usb_psy]
     | Some _ => []
     end).
Proof.
  intros Hf. cbv zeta.
  destruct m as [c [r f l] bs ts]. machine_cbn.
  split.
  - apply issued_chrono.
    destruct f as [|[e|] f]; try discriminate Hf; run_handler;
      destruct (truthy _); settle_rc;
      try (destruct f as [|[e|] f]); settle_rc; reflexivity.
  - destruct f as [|[e|] f]; try discriminate Hf; run_handler;
      destruct (truthy _); settle_rc;
      try (destruct f as [|[e|] f]); settle_rc; reflexivity.
Qed.

(** ** Initialisation *)

Lemma clean_run_refl m : clean_run m m.
Proof. exists []. repeat split. constructor. Qed.

Lemma firstn_plus {A : Type} (a b : nat) : forall l : list A,
  firstn (a + b) l = firstn a l ++ firstn b (skipn a l).
Proof.
  induction a as [|a IH]; intros l; [reflexivity|].
  destruct l as [|x l]; cbn [Nat.add firstn skipn app].
  - now rewrite firstn_nil.
  - now rewrite IH.
Qed.

Lemma skipn_plus {A : Type} (a b : nat) : forall l : list A,
  skipn (a + b) l = skipn b (skipn a l).
Proof.
  induction a as [|a IH]; intros l; [reflexivity|].
  destruct l as [|x l]; cbn [Nat.add skipn]; [now rewrite skipn_nil|apply IH].
Qed.

Lemma clean_run_trans m1 m2 m3 : clean_run m1 m2 -> clean_run m2 m3 -> clean_run m1 m3.
Proof.
  intros (l1 & Hl1 & Hf1 & Hn1) (l2 & Hl2 & Hf2 & Hn2).
  exists (l2 ++ l1). rewrite length_app. split; [|split].
  - now rewrite Hl2, Hl1, app_assoc.
  - rewrite Hf2, Hf1, Nat.add_comm, skipn_plus. reflexivity.
  - rewrite Nat.add_comm, firstn_plus. apply Forall_app. split; [exact Hn1|].
    rewrite <- Hf1. exact Hn2.
Qed.

Lemma clean_run_bus m m' : bus m' = bus m -> clean_run m m'.
Proof. intros E. exists []. rewrite E. repeat split. constructor. Qed.

Lemma clean_run_step op m m' :
  bus_step op m m' -> hd None (faults (bus m)) = None -> clean_run m m'.
Proof.
  intros (_ & _ & _ & Hl & Hf) Hh. exists [op]. split; [exact Hl|]. split.
  - rewrite Hf. destruct (faults (bus m)); reflexivity.
  - destruct (faults (bus m)) as [|o f]; cbn in *; [constructor|].
    subst o. repeat constructor.
Qed.

Lemma fail_fast_ret rc : fail_fast (ret rc).
Proof. intros m _. apply clean_run_refl. Qed.

Lemma fail_fast_seq (c : M Z) (k : Z -> M Z) :
  fail_fast c -> (forall rc, fail_fast (k rc)) ->
  fail_fast (rc <- c ;; if rc <? 0 then ret rc else k rc).
Proof.
  intros Hc Hk m. rewrite bind_run.
  destruct (Z.ltb_spec (fst (c m)) 0) as [Hlt|Hge]; cbn [fst ret]; [lia|].
  intros H. exact (clean_run_trans _ _ _ (Hc m Hge) (Hk _ _ H)).
Qed.

Lemma fail_fast_last (c : M Z) : fail_fast c -> fail_fast (rc <- c ;; ret rc).
Proof. intros Hc m. rewrite bind_run. exact (Hc m). Qed.

Lemma fail_fast_get_chip (k : smb235x_chg_chip -> M Z) :
  (forall c, fail_fast (k c)) -> fail_fast (c <- get_chip ;; k c).
Proof. intros Hk m. rewrite bind_run. apply Hk. Qed.

Lemma fail_fast_update_chip f (k : M Z) :
  fail_fast k -> fail_fast (update_chip f ;; k).
Proof.
  intros Hk m. rewrite bind_run. intros H.
  refine (clean_run_trans _ _ _ _ (Hk _ H)). apply clean_run_bus. reflexivity.
Qed.

Lemma fail_fast_read addr (k : Z -> M Z) :
  (forall stat, fail_fast (k stat)) ->
  fail_fast ('(rc, stat) <- regmap_read addr ;; if rc <? 0 then ret rc else k stat).
Proof.
  intros Hk m. rewrite bind_run.
  pose proof (regmap_read_rc addr m) as Hrc.
  pose proof (regmap_read_step addr m) as Hs.
  set (q := regmap_read addr m) in *.
  destruct (hd None (faults (bus m))) as [e|] eqn:Hh; rewrite Hrc.
  - change (Z.neg e <? 0) with true. cbn [fst ret]. lia.
  - change (0 <? 0) with false. cbv beta iota. intros H.
    exact (clean_run_trans _ _ _ (clean_run_step _ _ _ Hs Hh) (Hk _ _ H)).
Qed.

Lemma fail_fast_write addr val : fail_fast (regmap_write addr val).
Proof.
  intros m. rewrite regmap_write_rc. intros H.
  apply (clean_run_step _ _ _ (regmap_write_step addr val m)).
  destruct (hd None (faults (bus m))); [lia|reflexivity].
Qed.

Lemma fail_fast_update_bits addr mask val : fail_fast (regmap_update_bits addr mask val).
Proof.
  intros m. rewrite regmap_update_bits_rc. intros H.
  apply (clean_run_step _ _ _ (regmap_update_bits_step addr mask val m)).
  destruct (hd None (faults (bus m))); [lia|reflexivity].
Qed.

Lemma fail_fast_pulses n bit : fail_fast (hvdcp_pulses n bit).
Proof.
  induction n as [|n IH]; cbn [hvdcp_pulses]; [apply fail_fast_ret|].
  apply (fail_fast_seq _ (fun _ => hvdcp_pulses n bit));
    [apply fail_fast_update_bits | intros _; exact IH].
Qed.

Ltac fail_fast_step :=
  first
    [ apply fail_fast_ret
    | apply fail_fast_write
    | apply fail_fast_update_bits
    | apply fail_fast_pulses
    | apply fail_fast_read; intros
    | apply fail_fast_get_chip; intros
    | apply fail_fast_update_chip
    | match goal with
      | |- fail_fast (bind ?c (fun rc => if rc <? 0 then ret rc else ?k)) =>
          apply (fail_fast_seq c (fun _ => k)); [|intros]
      | |- fail_fast (bind ?c (fun rc => if rc <? 0 then ret rc else ret rc)) =>
          apply (fail_fast_seq c (fun rc => ret rc)); [|intros]
      | |- fail_fast (bind ?c (fun rc => ret rc)) => apply fail_fast_last
      | |- fail_fast (if ?b then _ else _) => destruct b
      | |- fail_fast (match ?x with _ => _ end) => destruct x
      end ].

Lemma fail_fast_set_icl_sw icl_ma : fail_fast (smb235x_set_icl_sw icl_ma).
Proof.
  unfold smb235x_set_icl_sw. cbv zeta. repeat fail_fast_step.
Qed.

Lemma fail_fast_set_hvdcp3_voltage voltage_uv :
  fail_fast (smb235x_set_hvdcp3_voltage voltage_uv).
Proof.
  unfold smb235x_set_hvdcp3_voltage. cbv zeta. repeat fail_fast_step.
Qed.

(** X18.  smb235x_chg_init, smb235x_set_icl_sw and
    smb235x_set_hvdcp3_voltage do not report success past a failed
    transfer: whenever one of them returns a code that is not negative,
    every transfer it made had succeeded. *)
Theorem chg_init_fail_fast (dt : smb235x_dt_props) :
  fail_fast (smb235x_chg_init dt) /\
  (forall icl_ma, fail_fast (smb235x_set_icl_sw icl_ma)) /\
  (forall voltage_uv, fail_fast (smb235x_set_hvdcp3_voltage voltage_uv)).
Proof.
  split; [|split; [exact fail_fast_set_icl_sw | exact fail_fast_set_hvdcp3_voltage]].
  unfold smb235x_chg_init, smb235x_config_chg_current_voltage, smb235x_enable_apsd,
    smb235x_rerun_apsd, smb235x_config_aicl, smb235x_enable_watchdog,
    smb235x_config_charge_termination, smb235x_config_recharge,
    smb235x_config_float_charge, smb235x_config_inhibit, smb235x_enable_charge.
  cbv zeta. repeat fail_fast_step.
Qed.

Ltac run_init :=
  unfold smb235x_chg_init, smb235x_config_chg_current_voltage, smb235x_enable_apsd,
    smb235x_rerun_apsd, smb235x_config_aicl, smb235x_enable_watchdog,
    smb235x_config_charge_termination, smb235x_config_recharge,
    smb235x_config_float_charge, smb235x_config_inhibit, inhibit_threshold_code,
    smb235x_enable_charge, bind, get_chip, update_chip;
  cbv zeta; settle_rc.

(** Runs smb235x_chg_init on a machine taken apart whose bus has no
    fault to come, deciding the tests on the device-tree values. *)
Ltac decide_init :=
  cbn [existsb]; run_init;
  repeat match goal with
         | |- context [if ?a =? ?b then _ else _] => destruct (a =? b); settle_rc
         end;
  try (destruct (truthy _); settle_rc);
  repeat match goal with
         | |- context [if ?a =? ?b then _ else _] => destruct (a =? b); settle_rc
         end;
  reflexivity.

(** X19.  On a bus without faults smb235x_chg_init fails in one way
    only: the inhibit threshold of the device tree, which the driver
    divides by 1000 before it compares, is present and does not come to
    100, 200, 400 or 600.  The result is then -EINVAL, and 0 otherwise. *)
Theorem chg_init_inhibit_threshold (dt : smb235x_dt_props) (m : machine) :
  faults (bus m) = [] ->
  let thr := dt_chg_inhibit_thr_uv dt in
  fst (smb235x_chg_init dt m) =
    if (thr =? Z.neg EINVAL)
       || existsb (Z.eqb (thr // MICRO_TO_MILLI)) [100; 200; 400; 600]
    then 0 else Z.neg EINVAL.
Proof.
  intros Hf. cbv zeta.
  destruct m as [c [r f l] bs ts]. machine_cbn. subst f.
  decide_init.
Qed.

(** The same for a threshold below 100000 that is not -EINVAL. *)
Lemma chg_init_low_threshold (dt : smb235x_dt_props) (m : machine) :
  faults (bus m) = [] ->
  0 <= dt_chg_inhibit_thr_uv dt < 100000 ->
  fst (smb235x_chg_init dt m) = Z.neg EINVAL.
Proof.
  intros Hf Hv.
  assert (E : fst (smb235x_chg_init dt m) =
              if (dt_chg_inhibit_thr_uv dt =? Z.neg EINVAL)
                 || existsb (Z.eqb (dt_chg_inhibit_thr_uv dt // MICRO_TO_MILLI))
                      [100; 200; 400; 600]
              then 0 else Z.neg EINVAL).
  { destruct m as [c [r f l] bs ts]. machine_cbn. subst f. decide_init. }
  rewrite E.
  assert (Hq : 0 <= dt_chg_inhibit_thr_uv dt // MICRO_TO_MILLI < 100).
  { unfold MICRO_TO_MILLI. rewrite Z.quot_div_nonneg by lia.
    split; [apply Z.div_pos; lia | apply Z.div_lt_upper_bound; lia]. }
  cbn [existsb].
  repeat match goal with
         | |- context [?a =? ?b] =>
             replace (a =? b) with false
               by (symmetry; apply Z.eqb_neq; unfold EINVAL; lia)
         end.
  reflexivity.
Qed.

(** ** The device tree *)

Section DeviceTreeProperties.

Import String.
Local Open Scope string_scope.

(** X20.  smb235x_parse_dt keeps the recharge threshold twice, in
    [chip->auto_recharge_soc] with the default 98 and in
    [chip->dt.auto_recharge_soc] with -EINVAL when the property is
    absent, and smb235x_config_recharge programs the second: without
    the property the threshold register is written with -EINVAL as an
    unsigned value, 4294967274, while the chip records 98.  With the
    property both hold its value. *)
Theorem parse_dt_recharge_threshold
    (node : DeviceTree.device_node) (c : smb235x_chg_chip) (m : machine) :
  faults (bus m) = [] ->
  let r := DeviceTree.smb235x_parse_dt node true c in
  let written :=
    match DeviceTree.of_property_read_u32 node "qcom,auto-recharge-soc" with
    | None => 4294967274
    | Some v => to_u32 (wrap_int v)
    end in
  auto_recharge_soc (fst (snd r)) =
    match DeviceTree.of_property_read_u32 node "qcom,auto-recharge-soc" with
    | None => 98
    | Some v => wrap_int v
    end /\
  issued (smb235x_config_recharge (snd (snd r))) m =
    [ RegUpdateBits CHGR_CFG2_REG SOC_BASED_RECHG_BIT 1;
      RegWrite CHGR_RCHG_SOC_THRESHOLD_CFG_REG written ].
Proof.
  intros Hf. cbv zeta.
  destruct m as [ch [r f l] bs ts]. machine_cbn. subst f.
  unfold DeviceTree.smb235x_parse_dt. cbn [negb].
  assert (E : forall (x : errno -> Z) (y : Z)
                    (z : smb235x_chg_chip * smb235x_dt_props),
             snd (match DeviceTree.of_property_read_string node "tcpm-psy-name"
                  with inl e => (x e, z) | inr _ => (y, z) end) = z).
  { intros. destruct (DeviceTree.of_property_read_string _ _); reflexivity. }
  rewrite (E (fun e => Z.neg e) 0). cbn [fst snd].
  split.
  - unfold DeviceTree.read_over. cbn [auto_recharge_soc set_config]. reflexivity.
  - apply issued_chrono. unfold smb235x_config_recharge, bind. settle_rc.
    cbn [dt_auto_recharge_soc]. unfold DeviceTree.read_int.
    destruct (DeviceTree.of_property_read_u32 node _); reflexivity.
Qed.

(** X28.  The inhibit threshold is read from the property
    "qcom,chg-inhibit-threshold-mv" and compared after a division by
    1000: a node that gives it in millivolts, as any value from 0 to
    99999, makes the initialisation that follows smb235x_parse_dt fail
    with -EINVAL on a bus without faults. *)
Theorem inhibit_threshold_in_millivolts
    (node : DeviceTree.device_node) (c : smb235x_chg_chip) (m : machine) (v : Z) :
  DeviceTree.of_property_read_u32 node "qcom,chg-inhibit-threshold-mv" = Some v ->
  0 <= v < 100000 ->
  faults (bus m) = [] ->
  let dt := snd (snd (DeviceTree.smb235x_parse_dt node true c)) in
  dt_chg_inhibit_thr_uv dt = v /\
  fst (smb235x_chg_init dt m) = Z.neg EINVAL.
Proof.
  intros Hn Hv Hf. cbv zeta.
  assert (Ht : dt_chg_inhibit_thr_uv
                 (snd (snd (DeviceTree.smb235x_parse_dt node true c))) = v).
  { unfold DeviceTree.smb235x_parse_dt. cbn [negb].
    destruct (DeviceTree.of_property_read_string node "tcpm-psy-name");
      cbn [snd dt_chg_inhibit_thr_uv]; unfold DeviceTree.read_int; rewrite Hn;
      apply wrap_int_id; unfold INT_MIN, INT_MAX; lia. }
  split; [exact Ht|].
  apply (chg_init_low_threshold _ m Hf). rewrite Ht. exact Hv.
Qed.

End DeviceTreeProperties.


(** ** Setting properties *)

(** X22.  The setters agree with what the supplies report as
    writeable.  A property reported as not writeable is refused with
    -EINVAL: the usb setter then leaves the machine as it was, the
    battery setter leaves the bus and the two cached limits as they
    were.  A property reported as writeable is set with result 0 on a
    bus without faults. *)
Theorem set_prop_matches_writeable
    (prop : power_supply_property) (intval : Z) (m : machine) :
  (smb235x_usb_prop_is_writeable prop = 0 ->
   smb235x_usb_set_prop prop intval m = (Z.neg EINVAL, m)) /\
  (smb235x_usb_prop_is_writeable prop = 1 -> faults (bus m) = [] ->
   fst (smb235x_usb_set_prop prop intval m) = 0) /\
  (smb235x_batt_prop_is_writeable prop = 0 ->
   let r := smb235x_batt_set_prop prop intval m in
   fst r = Z.neg EINVAL /\ bus (snd r) = bus m /\
   float_volt_uv (chip (snd r)) = float_volt_uv (chip m) /\
   fastchg_curr_ua (chip (snd r)) = fastchg_curr_ua (chip m)) /\
  (smb235x_batt_prop_is_writeable prop = 1 -> faults (bus m) = [] ->
   fst (smb235x_batt_set_prop prop intval m) = 0).
Proof.
  split; [|split; [|split]].
  - destruct prop; cbn [smb235x_usb_prop_is_writeable]; intros H;
      try discriminate H; reflexivity.
  - intros H Hf. destruct m as [c [r f l] bs ts]. cbn [bus faults] in Hf. subst f.
    destruct prop; cbn [smb235x_usb_prop_is_writeable] in H;
      try discriminate H; try reflexivity.
    unfold smb235x_usb_set_prop, smb235x_set_prop_usb_voltage_now.
    rewrite !bind_run. reflexivity.
  - intros H. cbv zeta.
    destruct (get_prop_from_bms_run prop 0 m) as (_ & Hb & Hfv & Hfcc).
    unfold smb235x_batt_set_prop. rewrite bind_run.
    set (q := smb235x_get_prop_from_bms prop 0 m) in *.
    destruct (fst q) as [rc v].
    destruct prop; cbn [smb235x_batt_prop_is_writeable] in H;
      try discriminate H; cbn [fst snd ret]; auto.
  - intros H Hf.
    destruct (batt_set_prop_cache m intval) as ((E1 & _) & (E2 & _)).
    rewrite Hf in E1, E2. cbn [hd] in E1, E2.
    destruct prop; cbn [smb235x_batt_prop_is_writeable] in H;
      try discriminate H; assumption.
Qed.

(** ** Battery health and presence *)

(** X23.  The battery HEALTH property is the fuel gauge's when the gauge
    answers, and the charger is then not asked.  Otherwise the charger's
    temperature status is read once and decoded by the first bit set in
    the order too cold, too hot, cool, warm, with good health when none
    is set; when that read fails the result is -ENODATA and the value is
    left as it was. *)
Theorem batt_health_source (m : machine) (pval : Z) :
  let r := smb235x_batt_get_prop POWER_SUPPLY_PROP_HEALTH pval m in
  match peer_answer (bms_peer m) POWER_SUPPLY_PROP_HEALTH with
  | Intval h =>
      fst r = (0, h) /\
      issued (smb235x_batt_get_prop POWER_SUPPLY_PROP_HEALTH pval) m = []
  | Enoprop _ =>
      issued (smb235x_batt_get_prop POWER_SUPPLY_PROP_HEALTH pval) m =
        [RegRead BATTERY_CHARGER_STATUS_7_REG] /\
      fst r =
        match hd None (faults (bus m)) with
        | Some _ => (Z.neg ENODATA, pval)
        | None =>
            (0, first_matching (to_u32 (regs (bus m) BATTERY_CHARGER_STATUS_7_REG))
                  batt_health_table POWER_SUPPLY_HEALTH_GOOD)
        end
  end.
Proof.
  cbv zeta.
  destruct m as [c [r f l] bs ts].
  destruct c as [bp tp tr mp pr te fvc fccc mf sd ct ut ar pm hv bv pd].
  unfold peer_answer, bms_peer. machine_cbn.
  assert (D : forall stat,
             first_matching stat batt_health_table POWER_SUPPLY_HEALTH_GOOD =
             if truthy (Z.land stat BAT_TEMP_STATUS_TOO_COLD_BIT)
             then POWER_SUPPLY_HEALTH_COLD
             else if truthy (Z.land stat BAT_TEMP_STATUS_TOO_HOT_BIT)
             then POWER_SUPPLY_HEALTH_OVERHEAT
             else if truthy (Z.land stat BAT_TEMP_STATUS_COLD_SOFT_BIT)
             then POWER_SUPPLY_HEALTH_COOL
             else if truthy (Z.land stat BAT_TEMP_STATUS_HOT_SOFT_BIT)
             then POWER_SUPPLY_HEALTH_WARM
             else POWER_SUPPLY_HEALTH_GOOD).
  { intros stat. unfold first_matching, batt_health_table. cbn [find fst snd].
    repeat (destruct (truthy _); try reflexivity). }
  destruct bp as [psy|]; [|destruct bs as [psy|]]; machine_cbn;
    try (destruct (get_property psy POWER_SUPPLY_PROP_HEALTH) as [h|e] eqn:Hh);
    (split; try apply issued_chrono);
    unfold smb235x_batt_get_prop, smb235x_get_prop_batt_health,
      smb235x_get_prop_from_bms, power_supply_get_property, bind;
    cbv zeta; machine_cbn; rewrite ?Hh; settle_rc; try reflexivity;
    destruct f as [|[e'|] f]; settle_rc; rewrite ?D;
    repeat (destruct (truthy _); settle_rc); reflexivity.
Qed.

(** X24.  When the status read succeeds, the battery PRESENT property
    is 0 as soon as one of the two missing bits (terminal, thermistor
    or id) is set in the status, and 1 when both are clear. *)
Theorem batt_present_bits (m : machine) (pval : Z) :
  hd None (faults (bus m)) = None ->
  let stat := to_u32 (regs (bus m) BATIF_INT_RT_STS_OFFSET_REG) in
  fst (smb235x_batt_get_prop POWER_SUPPLY_PROP_PRESENT pval m) =
    (0, if truthy (Z.land stat BAT_TERMINAL_MISSING_RT_STS_BIT)
           || truthy (Z.land stat BAT_THERM_OR_ID_MISSING_RT_STS_BIT)
        then 0 else 1).
Proof.
  intros Hf. cbv zeta.
  unfold smb235x_batt_get_prop, smb235x_get_prop_batt_present. cbv zeta.
  rewrite !bind_run. rewrite regmap_read_rc, Hf. cbn [fst snd].
  change (0 <? 0) with false. cbv beta iota. cbn [fst snd ret].
  change (0 <? 0) with false. cbv beta iota. cbn [fst ret].
  f_equal. unfold lognot, truthy. rewrite Z.land_lor_distr_r.
  set (a := Z.land _ BAT_TERMINAL_MISSING_RT_STS_BIT).
  set (b := Z.land _ BAT_THERM_OR_ID_MISSING_RT_STS_BIT).
  destruct (Z.eqb_spec (Z.lor a b) 0) as [E|E].
  - apply Z.lor_eq_0_iff in E. destruct E as [-> ->]. reflexivity.
  - destruct (Z.eqb_spec a 0) as [Ea|Ea]; [|reflexivity].
    destruct (Z.eqb_spec b 0) as [Eb|Eb]; [|reflexivity].
    exfalso. apply E. rewrite Ea, Eb. reflexivity.
Qed.

(** ** The usb voltage under a PD contract *)

(** X25.  While usb is online and a PD contract is active, the usb
    VOLTAGE_NOW property is the voltage the negotiation peer reports,
    whatever the charger type and whatever the decoding of the charger's
    own status gave; when the peer does not answer, the result is
    -ENODATA. *)
Theorem usb_voltage_pd_contract (m : machine) (pval : Z) :
  fst (smb235x_get_usb_online m) = true ->
  pd_active (chip m) = true ->
  let r := fst (smb235x_usb_get_prop POWER_SUPPLY_PROP_VOLTAGE_NOW pval m) in
  match peer_answer (tcpm_peer m) POWER_SUPPLY_PROP_VOLTAGE_NOW with
  | Intval v => r = (0, v)
  | Enoprop _ => fst r = Z.neg ENODATA
  end.
Proof.
  intros Hon Hpd. cbv zeta.
  unfold smb235x_usb_get_prop, smb235x_get_prop_usb_voltage. cbv zeta.
  rewrite !bind_run. rewrite get_usb_online_run in *. cbn [fst snd] in *.
  rewrite Hon. cbn [negb]. rewrite !bind_run. unfold get_chip. cbn [fst snd].
  destruct (regmap_read_step DCDC_POWER_PATH_STATUS_REG m) as (Hc & Hbs & Hts & _).
  set (m1 := snd (regmap_read DCDC_POWER_PATH_STATUS_REG m)) in *.
  rewrite Hc, Hpd.
  match goal with |- context [smb235x_get_prop_from_tcpm _ ?iv (snd (?c m1))] =>
    set (q := c m1);
    assert (K : tcpm_peer (snd q) = tcpm_peer m)
  end.
  { subst q.
    assert (K1 : tcpm_peer m1 = tcpm_peer m)
      by (unfold tcpm_peer; now rewrite Hc, Hts).
    repeat match goal with |- context [if ?b then _ else _] => destruct b end;
      try exact K1.
    unfold smb235x_get_hvdcp2_voltage. rewrite bind_run.
    destruct (regmap_read_step USB_QC_CHANGE_STATUS_REG m1) as (Hc2 & _ & Hts2 & _).
    set (q2 := regmap_read USB_QC_CHANGE_STATUS_REG m1) in *.
    assert (K2 : tcpm_peer (snd q2) = tcpm_peer m)
      by (unfold tcpm_peer in *; now rewrite Hc2, Hts2).
    destruct (fst q2) as [rc stat]. cbn [fst snd].
    repeat match goal with |- context [if ?b then _ else _] => destruct b end;
      exact K2. }
  destruct (get_prop_from_tcpm_run POWER_SUPPLY_PROP_VOLTAGE_NOW (fst q) (snd q))
    as (Hq & _).
  rewrite K in Hq. rewrite Hq.
  destruct (peer_answer (tcpm_peer m) POWER_SUPPLY_PROP_VOLTAGE_NOW) as [v|e];
    cbn [fst snd].
  - change (0 <? 0) with false. reflexivity.
  - change (Z.neg e <? 0) with true. reflexivity.
Qed.

(** ** The reconciliation, when it stops early *)

(** X26.  smb235x_update_fv_fcc reconciles the float voltage only
    after the fast-charge current: when the fuel gauge does not report
    the current limit nothing is written, and when the write of a new
    current limit fails that write is the only transfer; in both cases
    the two cached limits stay as they were, whatever the gauge reports
    for the voltage. *)
Theorem update_fv_fcc_stops_early (m : machine) :
  let m' := snd (smb235x_update_fv_fcc m) in
  let kept :=
    fastchg_curr_ua (chip m') = fastchg_curr_ua (chip m) /\
    float_volt_uv (chip m') = float_volt_uv (chip m) in
  match peer_answer (bms_peer m) POWER_SUPPLY_PROP_CONSTANT_CHARGE_CURRENT_MAX with
  | Enoprop _ => issued smb235x_update_fv_fcc m = [] /\ kept
  | Intval fcc =>
      fastchg_curr_ua (chip m) <> fcc ->
      hd None (faults (bus m)) <> None ->
      issued smb235x_update_fv_fcc m =
        [RegWrite CHGR_FAST_CHARGE_CURRENT_CFG_REG
           (to_u8 (fcc // MICRO_TO_MILLI // CURRENT_STEP_MA + 1))] /\ kept
  end.
Proof.
  cbv zeta.
  destruct m as [c [r f l] bs ts].
  destruct c as [bp tp tr mp pr te fvc fccc mf sd ct ut ar pm hv bv pd].
  unfold peer_answer, bms_peer. machine_cbn.
  destruct bp as [psy|]; [|destruct bs as [psy|]]; machine_cbn;
    try (destruct (get_property psy POWER_SUPPLY_PROP_CONSTANT_CHARGE_CURRENT_MAX)
           as [fcc|e] eqn:Hq);
    try (intros Hne Hf; destruct f as [|[e'|] f]; try (now contradiction Hf);
         apply Z.eqb_neq in Hne);
    (split; [apply issued_chrono|]);
    unfold smb235x_update_fv_fcc, smb235x_get_prop_from_bms, power_supply_get_property,
      smb235x_set_fcc, smb235x_set_fv, bind, get_chip, update_chip;
    cbv zeta; machine_cbn; rewrite ?Hq; settle_rc; rewrite ?Hne; settle_rc;
    try split; reflexivity.
Qed.

(** ** The source-change interrupt *)

(** X27.  When its status read succeeds, the source-change handler
    runs smb235x_handle_apsd_done on the machine the read left, with
    the DONE bit of the status as argument, and notifies the usb supply
    whether or not the detection was done and whatever came of it. *)
Theorem usb_source_change_irq_runs_apsd (m : machine) :
  hd None (faults (bus m)) = None ->
  let m1 := snd (regmap_read USB_APSD_STATUS_REG m) in
  let done :=
    truthy (Z.land (to_u32 (regs (bus m) USB_APSD_STATUS_REG))
                   APSD_DTC_STATUS_DONE_BIT) in
  smb235x_usb_source_change_irq_handler m =
    ((IRQ_HANDLED, [usb_psy]), snd (smb235x_handle_apsd_done done m1)) /\
  (done = false -> snd (smb235x_usb_source_change_irq_handler m) = m1 /\
                   chip m1 = chip m /\
                   issued smb235x_usb_source_change_irq_handler m =
                     [RegRead USB_APSD_STATUS_REG]).
Proof.
  intros Hf. cbv zeta.
  assert (E : smb235x_usb_source_change_irq_handler m =
              ((IRQ_HANDLED, [usb_psy]),
               snd (smb235x_handle_apsd_done
                      (truthy (Z.land (to_u32 (regs (bus m) USB_APSD_STATUS_REG))
                                      APSD_DTC_STATUS_DONE_BIT))
                      (snd (regmap_read USB_APSD_STATUS_REG m))))).
  { unfold smb235x_usb_source_change_irq_handler. rewrite bind_run.
    rewrite regmap_read_rc, Hf. cbn [fst snd]. change (0 <? 0) with false.
    cbv beta iota. rewrite bind_run. reflexivity. }
  split; [exact E|].
  intros Hd.
  destruct (regmap_read_step USB_APSD_STATUS_REG m) as (Hc & _ & _ & Hl & _).
  assert (E' : snd (smb235x_usb_source_change_irq_handler m) =
               snd (regmap_read USB_APSD_STATUS_REG m)).
  { rewrite E, Hd. reflexivity. }
  split; [exact E'|]. split; [exact Hc|].
  apply issued_chrono. rewrite E'. exact Hl.
Qed.

End RestProperties.

(** * Scenarios for the rest of the driver *)

Import SampleInit.

(** X1, witness.  From the idle machine a request for 9.0 V succeeds
    and stores 9.0 V as voltage and as base; a request for 4.0 V changes
    nothing. *)
Lemma set_hvdcp3_voltage_outcome_witness :
  hvdcp3_voltage_uv (chip (snd (smb235x_set_hvdcp3_voltage 9000000 idle))) = 9000000 /\
  based_hvdcp_voltage_uv (chip (snd (smb235x_set_hvdcp3_voltage 9000000 idle))) = 9000000 /\
  smb235x_set_hvdcp3_voltage 4000000 idle = (0, idle).
Proof.
  destruct (set_hvdcp3_voltage_outcome idle 9000000) as (_ & _ & _ & H).
  destruct (set_hvdcp3_voltage_outcome idle 4000000) as (_ & H' & _).
  destruct H as [H1 H2]; [vm_compute; discriminate | reflexivity |].
  split; [exact H1|]. split; [exact H2|].
  apply H'. reflexivity.
Defined.

(** X2, witness.  After the idle machine has been raised to 9.0 V, the
    same request again returns 0 and changes nothing. *)
Lemma set_hvdcp3_voltage_again_witness :
  let m := snd (smb235x_set_hvdcp3_voltage 9000000 idle) in
  smb235x_set_hvdcp3_voltage 9000000 m = (0, m).
Proof.
  apply (set_hvdcp3_voltage_again idle 9000000).
  - vm_compute. discriminate.
  - reflexivity.
Defined.

(** X3, witness.  On the idle machine, whose charger type is unknown,
    setting VOLTAGE_NOW returns 0 and changes nothing. *)
Lemma usb_set_voltage_now_witness :
  smb235x_usb_set_prop POWER_SUPPLY_PROP_VOLTAGE_NOW 9000000 idle = (0, idle).
Proof.
  destruct (usb_set_voltage_now idle 9000000) as (H1 & H2 & _).
  apply injective_projections; cbn [fst snd];
    [exact H1 | apply H2; vm_compute; discriminate].
Defined.

(** X4, witness.  A request for 1.5 A: 1500 mA is 220 in a [u8], and
    the code written is 4, the code of 200 mA. *)
Lemma usb_set_current_max_code_witness :
  issued (smb235x_usb_set_prop POWER_SUPPLY_PROP_CURRENT_MAX 1500000) idle =
    [ RegUpdateBits USBIN_LOAD_CFG_REG
        ICL_OVERRIDE_AFTER_APSD_BIT ICL_OVERRIDE_AFTER_APSD_BIT;
      RegUpdateBits USB_CMD_ICL_OVERRIDE_REG ICL_OVERRIDE_BIT ICL_OVERRIDE_BIT;
      RegWrite USBIN_CURRENT_LIMIT_CFG_REG 4 ].
Proof.
  destruct (usb_set_current_max_code idle 1500000) as (H & _); [reflexivity|].
  exact H.
Defined.

(** X6, witness.  A limit of 1530 mA programmed with a DCP charger
    plugged in reads back as 1500000 uA. *)
Lemma icl_round_trip_witness :
  fst (smb235x_get_prop_usb_icl 0 (snd (smb235x_set_icl_sw 1530 dcp_plain))) =
    (0, 1500000).
Proof.
  rewrite (icl_round_trip dcp_plain 1530 0);
    first [ reflexivity | vm_compute; discriminate ].
Defined.

(** X7, witness.  The detection run twice on the machine with the
    Float and DCP bits set gives DCP both times. *)
Lemma get_chg_type_twice_witness :
  let m' := snd (smb235x_get_chg_type float_and_dcp) in
  fst (smb235x_get_chg_type m') = 0 /\
  charger_type (chip (snd (smb235x_get_chg_type m'))) = POWER_SUPPLY_TYPE_USB_DCP.
Proof.
  cbv zeta.
  pose proof (get_chg_type_twice float_and_dcp) as H.
  cbv zeta in H. destruct H as (H1 & H2 & _); [reflexivity|].
  rewrite H1, H2. split; reflexivity.
Defined.

(** X8, witness.  With the Float and DCP bits set the detection gives
    DCP, and the limit selected is 1500 mA. *)
Lemma apsd_icl_table_witness :
  charger_type (chip (snd (smb235x_get_chg_type float_and_dcp))) =
    POWER_SUPPLY_TYPE_USB_DCP /\
  fst (apsd_select_icl float_and_dcp) = Some 1500.
Proof.
  split; [reflexivity|].
  assert (Hd : NoDup [ POWER_SUPPLY_TYPE_USB; POWER_SUPPLY_TYPE_USB_CDP;
                       POWER_SUPPLY_TYPE_USB_DCP; POWER_SUPPLY_TYPE_USB_FLOAT;
                       POWER_SUPPLY_TYPE_USB_HVDCP; POWER_SUPPLY_TYPE_USB_HVDCP_3 ]).
  { repeat constructor; cbn; intuition discriminate. }
  destruct (apsd_icl_table float_and_dcp Hd) as (_ & _ & H & _);
    [reflexivity | vm_compute; discriminate |].
  apply H. reflexivity.
Defined.

(** X9, witness.  A peer under a PD contract of 2 A has the limit code
    40 written.  A peer that reports its usb type, 6, and fails the
    CURRENT_MAX query has the code of 6 uA written, which is 0. *)
Lemma tcpm_update_icl_outcome_witness :
  pd_active (chip (snd (smb235x_tcpm_update_icl pd_announced))) = true /\
  issued smb235x_tcpm_update_icl pd_announced =
    [ RegUpdateBits USBIN_LOAD_CFG_REG
        ICL_OVERRIDE_AFTER_APSD_BIT ICL_OVERRIDE_AFTER_APSD_BIT;
      RegUpdateBits USB_CMD_ICL_OVERRIDE_REG ICL_OVERRIDE_BIT ICL_OVERRIDE_BIT;
      RegWrite USBIN_CURRENT_LIMIT_CFG_REG 40 ] /\
  issued smb235x_tcpm_update_icl pd_type_only =
    [ RegUpdateBits USBIN_LOAD_CFG_REG
        ICL_OVERRIDE_AFTER_APSD_BIT ICL_OVERRIDE_AFTER_APSD_BIT;
      RegUpdateBits USB_CMD_ICL_OVERRIDE_REG ICL_OVERRIDE_BIT ICL_OVERRIDE_BIT;
      RegWrite USBIN_CURRENT_LIMIT_CFG_REG 0 ].
Proof.
  pose proof (tcpm_update_icl_outcome pd_announced) as H.
  pose proof (tcpm_update_icl_outcome pd_type_only) as H'.
  cbv zeta in H, H'.
  change (peer_answer (tcpm_peer pd_announced) POWER_SUPPLY_PROP_USB_TYPE)
    with (Intval 6) in H.
  change (peer_answer (tcpm_peer pd_type_only) POWER_SUPPLY_PROP_USB_TYPE)
    with (Intval 6) in H'.
  destruct H as (H1 & _ & H2). destruct H' as (_ & _ & H3).
  split; [exact H1|]. split.
  - apply H2; [vm_compute; discriminate | reflexivity].
  - apply H3; [vm_compute; discriminate | reflexivity].
Defined.

(** X10, witness.  The gauge asks for 3.0 A and 8.4 V while the caches
    hold 3.25 A and 8.8 V: one pass writes the codes 61 and 60 and a
    second pass writes nothing. *)
Lemma update_fv_fcc_reconciles_witness :
  issued smb235x_update_fv_fcc gauge_behind =
    [ RegWrite CHGR_FAST_CHARGE_CURRENT_CFG_REG 61;
      RegWrite CHGR_FLOAT_VOLTAGE_CFG_REG 60 ] /\
  issued smb235x_update_fv_fcc (snd (smb235x_update_fv_fcc gauge_behind)) = [].
Proof.
  destruct (update_fv_fcc_reconciles gauge_behind 3000000 8400000)
    as (_ & _ & H1 & H2); [reflexivity | reflexivity | reflexivity |].
  split; [exact H1 | exact H2].
Defined.

(** X11, witness.  With the registers holding the codes of the cached
    limits, a pass whose second write fails leaves the current limit
    reconciled and the float voltage as it was, cache and register
    alike. *)
Lemma update_fv_fcc_keeps_programmed_witness :
  let m' := snd (smb235x_update_fv_fcc (programmed [None; Some EIO])) in
  cache_programmed m' /\
  fastchg_curr_ua (chip m') = 3000000 /\ float_volt_uv (chip m') = 8800000.
Proof.
  cbv zeta. split; [|split; reflexivity].
  apply (update_fv_fcc_keeps_programmed (programmed [None; Some EIO])).
  - vm_compute. discriminate.
  - split; reflexivity.
Defined.

(** X13, witness.  The usb supply answers ONLINE on the idle machine
    with 0 or -ENODATA, and refuses CAPACITY with -EINVAL. *)
Lemma usb_get_prop_codes_witness :
  (fst (fst (smb235x_usb_get_prop POWER_SUPPLY_PROP_ONLINE 0 idle)) = 0 \/
   fst (fst (smb235x_usb_get_prop POWER_SUPPLY_PROP_ONLINE 0 idle)) = Z.neg ENODATA) /\
  smb235x_usb_get_prop POWER_SUPPLY_PROP_CAPACITY 7 idle = ((Z.neg EINVAL, 7), idle).
Proof.
  destruct (usb_get_prop_codes POWER_SUPPLY_PROP_ONLINE 0 idle) as (H1 & _).
  destruct (usb_get_prop_codes POWER_SUPPLY_PROP_CAPACITY 7 idle) as (_ & H2 & _).
  split.
  - apply H1. cbn. tauto.
  - apply H2. cbn. intuition discriminate.
Defined.

(** X14, witness.  Without a fuel gauge the battery supply hands out
    the cached float voltage for CONSTANT_CHARGE_VOLTAGE_MAX together
    with -ENODATA, and with 0 for VOLTAGE_MAX. *)
Lemma batt_get_prop_codes_witness :
  fst (smb235x_batt_get_prop POWER_SUPPLY_PROP_CONSTANT_CHARGE_VOLTAGE_MAX 0 idle) =
    (Z.neg ENODATA, 8800000) /\
  smb235x_batt_get_prop POWER_SUPPLY_PROP_VOLTAGE_MAX 0 idle = ((0, 8800000), idle) /\
  smb235x_batt_get_prop POWER_SUPPLY_PROP_ONLINE 7 idle = ((0, 7), idle).
Proof.
  destruct (batt_get_prop_codes
              POWER_SUPPLY_PROP_CONSTANT_CHARGE_VOLTAGE_MAX 0 idle)
    as (_ & _ & _ & H1 & _).
  destruct (batt_get_prop_codes POWER_SUPPLY_PROP_VOLTAGE_MAX 0 idle)
    as (_ & _ & _ & _ & H2 & _).
  destruct (batt_get_prop_codes POWER_SUPPLY_PROP_ONLINE 7 idle) as (_ & H3 & _).
  split; [|split].
  - destruct (H1 EINVAL) as (H & _); [reflexivity|]. apply H. reflexivity.
  - apply H2. reflexivity.
  - apply H3. cbn. intuition discriminate.
Defined.

(** X15, witness.  An HVDCP charger online, the QC status read failing
    with -EIO: VOLTAGE_NOW is answered with success and the value -5. *)
Lemma usb_voltage_hvdcp_read_failure_witness :
  fst (smb235x_usb_get_prop POWER_SUPPLY_PROP_VOLTAGE_NOW 0 hvdcp2_read_fault) =
    (0, -5).
Proof.
  assert (Hd : ~ In POWER_SUPPLY_TYPE_USB_HVDCP
                   [ POWER_SUPPLY_TYPE_USB_FLOAT; POWER_SUPPLY_TYPE_USB_DCP;
                     POWER_SUPPLY_TYPE_USB_CDP; POWER_SUPPLY_TYPE_USB;
                     POWER_SUPPLY_TYPE_USB_HVDCP_3 ])
    by (cbn; intuition discriminate).
  assert (Hon : usb_online_bits
                  (to_u32 (regs (bus hvdcp2_read_fault) DCDC_POWER_PATH_STATUS_REG))
                = true) by (vm_compute; reflexivity).
  destruct (usb_voltage_hvdcp_read_failure hvdcp2_read_fault 0 EIO []
              eq_refl Hd eq_refl eq_refl Hon) as (H & _).
  exact H.
Defined.

(** X16, witness.  The plug-in handler on a machine whose next transfer
    fails returns IRQ_NONE and notifies nobody; the battery-temperature
    handler on the same machine returns IRQ_HANDLED and leaves the chip
    as it was. *)
Lemma irq_handler_outcome_witness :
  fst (smb235x_irqs_handler USBIN_PLUGIN_IRQ write_fault) = (IRQ_NONE, []) /\
  fst (fst (smb235x_irqs_handler BAT_TEMP_IRQ write_fault)) <> IRQ_NONE /\
  chip (snd (smb235x_irqs_handler BAT_TEMP_IRQ write_fault)) = chip write_fault.
Proof.
  destruct (irq_handler_outcome USBIN_PLUGIN_IRQ write_fault) as (H1 & H2 & _).
  destruct (irq_handler_outcome BAT_TEMP_IRQ write_fault) as (H3 & _ & H4).
  assert (Hn : fst (fst (smb235x_irqs_handler USBIN_PLUGIN_IRQ write_fault)) = IRQ_NONE).
  { apply H1. split; [reflexivity | vm_compute; discriminate]. }
  split; [|split].
  - apply injective_projections; cbn [fst snd]; [exact Hn | exact (H2 Hn)].
  - intros E. apply H3 in E. destruct E as [E _]. discriminate E.
  - apply H4. discriminate.
Defined.

(** X17, witness.  With the plug-in bit set charging is enabled; when
    that command fails the handler returns IRQ_HANDLED without a
    notification. *)
Lemma usb_plugin_irq_charging_witness :
  issued smb235x_usb_plugin_irq_handler (vbus_present [None; Some EIO]) =
    [ RegRead USB_INT_RT_STS_OFFSET_REG;
      RegUpdateBits CHARGING_ENABLE_CMD_REG CHARGING_ENABLE_BIT 1 ] /\
  fst (smb235x_usb_plugin_irq_handler (vbus_present [None; Some EIO])) =
    (IRQ_HANDLED, []) /\
  fst (smb235x_usb_plugin_irq_handler (vbus_present [])) = (IRQ_HANDLED, [usb_psy]).
Proof.
  destruct (usb_plugin_irq_charging (vbus_present [None; Some EIO]) eq_refl)
    as (H1 & H2).
  destruct (usb_plugin_irq_charging (vbus_present []) eq_refl) as (_ & H3).
  split; [exact H1|]. split; [exact H2 | exact H3].
Defined.

(** X18, witness.  The initialisation of the idle machine with an
    inhibit threshold of 100000 returns 0, and no transfer of it
    failed. *)
Lemma chg_init_fail_fast_witness :
  fst (smb235x_chg_init (with_inhibit 100000) idle) = 0 /\
  clean_run idle (snd (smb235x_chg_init (with_inhibit 100000) idle)).
Proof.
  split; [reflexivity|].
  destruct (chg_init_fail_fast (with_inhibit 100000)) as (H & _).
  apply H. vm_compute. discriminate.
Defined.

(** X19, witness.  The sample node gives the inhibit threshold as 100:
    the initialisation fails with -EINVAL.  With 100000, and without the
    property, it succeeds. *)
Lemma chg_init_inhibit_threshold_witness :
  dt_chg_inhibit_thr_uv sample_dt = 100 /\
  fst (smb235x_chg_init sample_dt idle) = Z.neg EINVAL /\
  fst (smb235x_chg_init (with_inhibit 100000) idle) = 0 /\
  fst (smb235x_chg_init (with_inhibit (Z.neg EINVAL)) idle) = 0.
Proof.
  split; [reflexivity|].
  split; [|split].
  - rewrite (chg_init_inhibit_threshold sample_dt idle eq_refl). reflexivity.
  - rewrite (chg_init_inhibit_threshold (with_inhibit 100000) idle eq_refl).
    reflexivity.
  - rewrite (chg_init_inhibit_threshold (with_inhibit (Z.neg EINVAL)) idle eq_refl).
    reflexivity.
Defined.

(** X20, witness.  The sample node has no recharge threshold: the chip
    records 98 and the register is written with 4294967274. *)
Lemma parse_dt_recharge_threshold_witness :
  auto_recharge_soc
    (fst (snd (DeviceTree.smb235x_parse_dt DeviceTree.sample_node true (probed 20))))
    = 98 /\
  issued (smb235x_config_recharge sample_dt) idle =
    [ RegUpdateBits CHGR_CFG2_REG SOC_BASED_RECHG_BIT 1;
      RegWrite CHGR_RCHG_SOC_THRESHOLD_CFG_REG 4294967274 ].
Proof.
  exact (parse_dt_recharge_threshold DeviceTree.sample_node (probed 20) idle eq_refl).
Defined.

(** X22, witness.  The battery supply refuses to set CAPACITY and sets
    the constant-charge voltage; the usb supply refuses to set ONLINE. *)
Lemma set_prop_matches_writeable_witness :
  fst (smb235x_batt_set_prop POWER_SUPPLY_PROP_CAPACITY 50 idle) = Z.neg EINVAL /\
  fst (smb235x_batt_set_prop POWER_SUPPLY_PROP_CONSTANT_CHARGE_VOLTAGE_MAX
         8400000 idle) = 0 /\
  smb235x_usb_set_prop POWER_SUPPLY_PROP_ONLINE 1 idle = (Z.neg EINVAL, idle).
Proof.
  destruct (set_prop_matches_writeable POWER_SUPPLY_PROP_CAPACITY 50 idle)
    as (_ & _ & H1 & _).
  destruct (set_prop_matches_writeable
              POWER_SUPPLY_PROP_CONSTANT_CHARGE_VOLTAGE_MAX 8400000 idle)
    as (_ & _ & _ & H2).
  destruct (set_prop_matches_writeable POWER_SUPPLY_PROP_ONLINE 1 idle)
    as (H3 & _).
  split; [|split].
  - apply (H1 eq_refl).
  - apply (H2 eq_refl eq_refl).
  - apply (H3 eq_refl).
Defined.

(** X24, witness.  With the thermistor reported missing the battery is
    not present. *)
Lemma batt_present_bits_witness :
  fst (smb235x_batt_get_prop POWER_SUPPLY_PROP_PRESENT 0 therm_missing) = (0, 0).
Proof.
  rewrite (batt_present_bits therm_missing 0 eq_refl). reflexivity.
Defined.

(** X25, witness.  Under a PD contract at 9 V the usb voltage of a DCP
    charger is reported as 9000000. *)
Lemma usb_voltage_pd_contract_witness :
  fst (smb235x_usb_get_prop POWER_SUPPLY_PROP_VOLTAGE_NOW 0 pd_contract) =
    (0, 9000000).
Proof.
  assert (Hon : fst (smb235x_get_usb_online pd_contract) = true)
    by (vm_compute; reflexivity).
  exact (usb_voltage_pd_contract pd_contract 0 Hon eq_refl).
Defined.

(** X26, witness.  The gauge asks for 3.0 A, the cache holds 3.25 A
    and the write fails: it is the only transfer, and both caches stay
    as they were although the gauge asks for 8.4 V. *)
Lemma update_fv_fcc_stops_early_witness :
  issued smb235x_update_fv_fcc gauged_write_fault =
    [RegWrite CHGR_FAST_CHARGE_CURRENT_CFG_REG 61] /\
  fastchg_curr_ua (chip (snd (smb235x_update_fv_fcc gauged_write_fault))) = 3250000 /\
  float_volt_uv (chip (snd (smb235x_update_fv_fcc gauged_write_fault))) = 8800000.
Proof.
  pose proof (update_fv_fcc_stops_early gauged_write_fault) as H.
  cbv zeta in H.
  change (peer_answer (bms_peer gauged_write_fault)
            POWER_SUPPLY_PROP_CONSTANT_CHARGE_CURRENT_MAX)
    with (Intval 3000000) in H.
  destruct H as (H1 & H2 & H3); [vm_compute; discriminate | vm_compute; discriminate |].
  split; [exact H1|]. split; [exact H2 | exact H3].
Defined.

(** X27, witness.  With the DONE bit clear the source-change handler
    reads the status, changes nothing else and notifies the usb
    supply. *)
Lemma usb_source_change_irq_runs_apsd_witness :
  fst (smb235x_usb_source_change_irq_handler at_probe) = (IRQ_HANDLED, [usb_psy]) /\
  issued smb235x_usb_source_change_irq_handler at_probe =
    [RegRead USB_APSD_STATUS_REG].
Proof.
  destruct (usb_source_change_irq_runs_apsd at_probe eq_refl) as (H1 & H2).
  split.
  - rewrite H1. reflexivity.
  - destruct H2 as (_ & _ & H3); [reflexivity | exact H3].
Defined.

(** X28, witness.  The sample node gives the threshold as 100. *)
Lemma inhibit_threshold_in_millivolts_witness :
  dt_chg_inhibit_thr_uv sample_dt = 100 /\
  fst (smb235x_chg_init sample_dt idle) = Z.neg EINVAL.
Proof.
  apply (inhibit_threshold_in_millivolts DeviceTree.sample_node (probed 20) idle 100).
  - reflexivity.
  - lia.
  - reflexivity.
Defined.
